(** * DocuChain: the document ledger of [blockchain.py]

    A shallow embedding of [Block] and [DocumentBlockchain] and of the two
    library functions they are built on, [hashlib.sha256] and [json.dumps],
    of the sessions of [cli_interface.py] and [api_server.py] that start and
    save the ledger, and of [document_processor.py], followed by their
    properties: validation, sealing, append, lookup, the persisted
    representation, and the hashing, checking and storing of files. *)

From Stdlib Require Import ZArith List String Ascii Bool Lia Permutation Sorted.
From Stdlib Require Import DecimalString.
Import ListNotations.

Local Open Scope string_scope.
Local Open Scope Z_scope.

(** ** Python strings

    A Python [str] is modelled as a Rocq [string]; each character stands for
    the code point of the same number, so the model covers the code points
    0..255. *)

Module PyStr.

Definition len (s : string) : Z := Z.of_nat (String.length s).

(** [c * n] for a one-character string [c]: the empty string when
    [n <= 0]. *)
Fixpoint repeat_char (c : ascii) (n : nat) : string :=
  match n with
  | O => EmptyString
  | S n' => String c (repeat_char c n')
  end.

Definition mul (c : ascii) (n : Z) : string := repeat_char c (Z.to_nat n).

Fixpoint take (n : nat) (s : string) : string :=
  match n, s with
  | S n', String c s' => String c (take n' s')
  | _, _ => EmptyString
  end.

(** The slice [s[:n]]: a negative [n] counts from the end, and the bounds
    are clipped to the string. *)
Definition slice_to (s : string) (n : Z) : string :=
  if n <? 0 then take (Z.to_nat (len s + n)) s else take (Z.to_nat n) s.

(** [sep.join(l)]. *)
Fixpoint join (sep : string) (l : list string) : string :=
  match l with
  | [] => EmptyString
  | [s] => s
  | s :: l' => s ++ sep ++ join sep l'
  end.

(** The order of [str]: by code point, a proper prefix first. *)
Fixpoint ltb (s t : string) : bool :=
  match s, t with
  | EmptyString, EmptyString => false
  | EmptyString, String _ _ => true
  | String _ _, EmptyString => false
  | String a s', String b t' =>
      if (nat_of_ascii a <? nat_of_ascii b)%nat then true
      else if (nat_of_ascii b <? nat_of_ascii a)%nat then false
      else ltb s' t'
  end.

(** [s.encode()]: the UTF-8 bytes of the code points, one byte below 128
    and two from 128 to 255. *)
Definition encode_char (c : ascii) : list Z :=
  let n := Z.of_nat (nat_of_ascii c) in
  if n <? 128 then [n]
  else [Z.lor 192 (Z.shiftr n 6); Z.lor 128 (Z.land n 63)].

Definition encode (s : string) : list Z :=
  flat_map encode_char (list_ascii_of_string s).

End PyStr.

(** ** SHA-256 ([hashlib.sha256(...).hexdigest()]), after FIPS 180-4

    Words are 32-bit integers held in [Z], every sum reduced modulo 2^32. *)

Module Sha256.

Definition mask32 (x : Z) : Z := Z.land x (Z.ones 32).
Definition add32 (x y : Z) : Z := mask32 (x + y).
Definition rotr (n x : Z) : Z :=
  Z.lor (Z.shiftr x n) (mask32 (Z.shiftl x (32 - n))).
Definition not32 (x : Z) : Z := Z.lxor x (Z.ones 32).

Definition ch (x y z : Z) : Z := Z.lxor (Z.land x y) (Z.land (not32 x) z).
Definition maj (x y z : Z) : Z :=
  Z.lxor (Z.lxor (Z.land x y) (Z.land x z)) (Z.land y z).
Definition bsig0 (x : Z) : Z := Z.lxor (Z.lxor (rotr 2 x) (rotr 13 x)) (rotr 22 x).
Definition bsig1 (x : Z) : Z := Z.lxor (Z.lxor (rotr 6 x) (rotr 11 x)) (rotr 25 x).
Definition ssig0 (x : Z) : Z := Z.lxor (Z.lxor (rotr 7 x) (rotr 18 x)) (Z.shiftr x 3).
Definition ssig1 (x : Z) : Z := Z.lxor (Z.lxor (rotr 17 x) (rotr 19 x)) (Z.shiftr x 10).

(** The first sixty-four primes. *)
Definition primes : list Z :=
  [ 2; 3; 5; 7; 11; 13; 17; 19; 23; 29; 31; 37; 41; 43; 47; 53;
    59; 61; 67; 71; 73; 79; 83; 89; 97; 101; 103; 107; 109; 113; 127; 131;
    137; 139; 149; 151; 157; 163; 167; 173; 179; 181; 191; 193; 197; 199; 211; 223;
    227; 229; 233; 239; 241; 251; 257; 263; 269; 271; 277; 281; 283; 293; 307; 311 ].

(** The integer cube root of [x < 2^(3n)], one bit at a time from bit
    [n - 1] down, on top of the bits [r] found so far. *)
Fixpoint cube_root_bits (n : nat) (x r : Z) : Z :=
  match n with
  | O => r
  | S n' =>
      let r' := Z.lor r (Z.shiftl 1 (Z.of_nat n')) in
      if r' * r' * r' <=? x then cube_root_bits n' x r' else cube_root_bits n' x r
  end.

(** The first 32 bits of the fractional part of the cube root of [p]. *)
Definition cube_root_fraction (p : Z) : Z :=
  mask32 (cube_root_bits 36 (Z.shiftl p 96) 0).

(** The first 32 bits of the fractional part of the square root of [p]. *)
Definition square_root_fraction (p : Z) : Z :=
  mask32 (Z.sqrt (Z.shiftl p 64)).

(** The constants K of the sixty-four rounds (FIPS 180-4, 4.2.2): the cube
    roots of the primes. *)
Definition round_constants : list Z := map cube_root_fraction primes.

(** The eight working variables a..h, also the running hash value. *)
Record state := State {
  sa : Z; sb : Z; sc : Z; sd : Z; se : Z; sf : Z; sg : Z; sh : Z }.

(** The initial hash value (FIPS 180-4, 5.3.3): the square roots of the
    first eight primes. *)
Definition initial : state :=
  State (square_root_fraction 2) (square_root_fraction 3)
        (square_root_fraction 5) (square_root_fraction 7)
        (square_root_fraction 11) (square_root_fraction 13)
        (square_root_fraction 17) (square_root_fraction 19).

(** Padding: the byte 0x80, zero bytes up to 56 modulo 64, and the length
    of the message in bits as a 64-bit big-endian integer. *)
Fixpoint be_bytes (n : nat) (x : Z) : list Z :=
  match n with
  | O => []
  | S n' => Z.land (Z.shiftr x (8 * Z.of_nat n')) 255 :: be_bytes n' x
  end.

Definition pad (msg : list Z) : list Z :=
  let l := Z.of_nat (List.length msg) in
  msg ++ 128 :: repeat 0 (Z.to_nat ((55 - l) mod 64)) ++ be_bytes 8 (8 * l).

(** Big-endian 32-bit words of a byte sequence. *)
Fixpoint words (bs : list Z) : list Z :=
  match bs with
  | b0 :: b1 :: b2 :: b3 :: bs' =>
      Z.lor (Z.shiftl b0 24) (Z.lor (Z.shiftl b1 16) (Z.lor (Z.shiftl b2 8) b3))
      :: words bs'
  | _ => []
  end.

(** The message schedule: [win] holds the last sixteen words, oldest first. *)
Fixpoint extend (n : nat) (win : list Z) : list Z :=
  match n with
  | O => []
  | S n' =>
      let w := add32 (add32 (add32 (ssig1 (nth 14 win 0)) (nth 9 win 0))
                            (ssig0 (nth 1 win 0))) (nth 0 win 0) in
      w :: extend n' (tl win ++ [w])
  end.

Definition schedule (block : list Z) : list Z := block ++ extend 48 block.

Definition round (s : state) (kw : Z * Z) : state :=
  let (k, w) := kw in
  let t1 := add32 (add32 (add32 (add32 (sh s) (bsig1 (se s)))
                                (ch (se s) (sf s) (sg s))) k) w in
  let t2 := add32 (bsig0 (sa s)) (maj (sa s) (sb s) (sc s)) in
  State (add32 t1 t2) (sa s) (sb s) (sc s) (add32 (sd s) t1) (se s) (sf s) (sg s).

Definition compress (h : state) (block : list Z) : state :=
  let s := fold_left round (combine round_constants (schedule block)) h in
  State (add32 (sa h) (sa s)) (add32 (sb h) (sb s))
        (add32 (sc h) (sc s)) (add32 (sd h) (sd s))
        (add32 (se h) (se s)) (add32 (sf h) (sf s))
        (add32 (sg h) (sg s)) (add32 (sh h) (sh s)).

(** One compression per sixteen words of the padded message. *)
Fixpoint blocks (n : nat) (h : state) (ws : list Z) : state :=
  match n with
  | O => h
  | S n' => blocks n' (compress h (firstn 16 ws)) (skipn 16 ws)
  end.

Definition digest_state (msg : list Z) : state :=
  let ws := words (pad msg) in
  blocks (List.length ws / 16) initial ws.

(** The digest as one 256-bit big-endian number. *)
Definition digest_Z (msg : list Z) : Z :=
  let s := digest_state msg in
  fold_left (fun acc w => Z.lor (Z.shiftl acc 32) w)
    [sa s; sb s; sc s; sd s; se s; sf s; sg s; sh s] 0.

Definition hex_digit (d : Z) : ascii :=
  nth (Z.to_nat d) (list_ascii_of_string "0123456789abcdef") "0"%char.

(** [n] lower-case hexadecimal digits of [x], most significant first. *)
Fixpoint hex (n : nat) (x : Z) : string :=
  match n with
  | O => EmptyString
  | S n' => String (hex_digit (Z.land (Z.shiftr x (4 * Z.of_nat n')) 15)) (hex n' x)
  end.

(** [hashlib.sha256(msg).hexdigest()]. *)
Definition hexdigest (msg : list Z) : string := hex 64 (digest_Z msg).

End Sha256.

(** ** Outcomes of a call

    A call returns, raises, or is still inside the proof-of-work loop when
    the fuel given to it is spent. [ValueError] is what the interpreter
    raises when it refuses to convert between an [int] and its decimal
    digits; [JSONDecodeError], a subclass of it in Python, is kept apart.
    [Untyped] marks a run of [load_from_file] that leaves this typed model: a
    field of a block would hold a value that is not of its annotated type.
    Python goes on there; nothing is stated about such runs. *)

Inductive exn : Type :=
| IndexError
| KeyError (k : string)
| TypeError
| ValueError
| JSONDecodeError.

Inductive outcome (A : Type) : Type :=
| Returns (a : A)
| Raises (e : exn)
| Running
| Untyped.

Arguments Returns {A} a.
Arguments Raises {A} e.
Arguments Running {A}.
Arguments Untyped {A}.

Definition bind {A B : Type} (m : outcome A) (k : A -> outcome B) : outcome B :=
  match m with
  | Returns a => k a
  | Raises e => Raises e
  | Running => Running
  | Untyped => Untyped
  end.

Notation "x <- m ;; k" := (bind m (fun x => k))
  (at level 61, m at next level, right associativity).

(** ** JSON values and [json.dumps(v, sort_keys=True)]

    The values [json.load] returns and [json.dumps] accepts, without floats;
    a Python [dict] with [str] keys is the list of its items in insertion
    order. What the interpreter runs out of on a value (memory, or the depth
    of recursion on lists and dicts nested by the hundreds) is left out;
    the limit it sets on the digits of an integer is not. *)

#[local] Set Warnings "-register-all".

Inductive json : Type :=
| JNull
| JBool (b : bool)
| JInt (z : Z)
| JStr (s : string)
| JList (l : list json)
| JDict (items : list (string * json)).

Definition dict : Type := list (string * json).

Module Json.

Definition dquote : ascii := ascii_of_nat 34.
Definition backslash : ascii := ascii_of_nat 92.

(** One character under [ensure_ascii=True]: the short escapes, the
    printable ASCII characters as they are, [\u00xx] for the others. *)
Definition escape_char (c : ascii) : string :=
  let n := nat_of_ascii c in
  if (n =? 34)%nat then String backslash (String dquote EmptyString)
  else if (n =? 92)%nat then String backslash (String backslash EmptyString)
  else if (n =? 10)%nat then String backslash "n"
  else if (n =? 13)%nat then String backslash "r"
  else if (n =? 9)%nat then String backslash "t"
  else if (n =? 12)%nat then String backslash "f"
  else if (n =? 8)%nat then String backslash "b"
  else if ((32 <=? n) && (n <=? 126))%nat then String c EmptyString
  else String backslash ("u00" ++ Sha256.hex 2 (Z.of_nat n)).

Fixpoint escape (s : string) : string :=
  match s with
  | EmptyString => EmptyString
  | String c s' => escape_char c ++ escape s'
  end.

Definition encode_string (s : string) : string :=
  String dquote (escape s ++ String dquote EmptyString).

(** [repr] of an [int]: its decimal digits. *)
Definition decimal (z : Z) : string := NilZero.string_of_int (Z.to_int z).

(** The interpreter converts an [int] to its decimal digits, and decimal
    digits to an [int], only up to [sys.get_int_max_str_digits()] digits,
    4300 when the program does not set it, and this one does not; beyond
    that the conversion raises [ValueError]. An integer has at most 4300
    digits when its absolute value is below 10^4300. *)
Definition max_str_digits : Z := 4300.

Definition int_limit : Z := 10 ^ max_str_digits.

Definition int_fits (z : Z) : bool := Z.abs z <? int_limit.

(** [sorted(d.items())] on items already paired with their encoded values:
    a stable insertion sort by key. *)
Fixpoint insert_item (x : string * string) (l : list (string * string))
  : list (string * string) :=
  match l with
  | [] => [x]
  | y :: l' => if PyStr.ltb (fst y) (fst x) then y :: insert_item x l' else x :: l
  end.

Definition sort_items (l : list (string * string)) : list (string * string) :=
  fold_right insert_item [] l.

Definition encode_item (kv : string * string) : string :=
  encode_string (fst kv) ++ ": " ++ snd kv.

(** The text [json.dumps(v, sort_keys=True)] writes, with the default
    separators, once every integer of [v] has been converted. *)
Fixpoint text (v : json) : string :=
  match v with
  | JNull => "null"
  | JBool true => "true"
  | JBool false => "false"
  | JInt z => decimal z
  | JStr s => encode_string s
  | JList l => "[" ++ PyStr.join ", " (map text l) ++ "]"
  | JDict items =>
      "{" ++ PyStr.join ", "
               (map encode_item
                  (sort_items
                     (map (fun kv => match kv with (k, x) => (k, text x) end) items)))
          ++ "}"
  end.

(** The values all of whose integers can be converted, at any depth. *)
Fixpoint fits (v : json) : bool :=
  match v with
  | JInt z => int_fits z
  | JList l => forallb fits l
  | JDict items => forallb (fun kv => match kv with (_, x) => fits x end) items
  | _ => true
  end.

(** [json.dumps(v, sort_keys=True)]: the text, or the [ValueError] of the
    first integer that cannot be converted; the values of this model give it
    no other reason to raise. *)
Definition dumps (v : json) : outcome string :=
  if fits v then Returns (text v) else Raises ValueError.

(** [d.get(k)]: [None] when the key is absent. *)
Fixpoint get (k : string) (d : dict) : option json :=
  match d with
  | [] => None
  | (k', x) :: d' => if String.eqb k' k then Some x else get k d'
  end.

End Json.

(** ** [class Block] *)

Record Block : Type := mkBlock {
  index : Z;
  timestamp : string;
  data : dict;
  previous_hash : string;
  nonce : Z;
  hash : string }.

Definition set_nonce (b : Block) (n : Z) : Block :=
  mkBlock (index b) (timestamp b) (data b) (previous_hash b) n (hash b).

Definition set_hash (b : Block) (h : string) : Block :=
  mkBlock (index b) (timestamp b) (data b) (previous_hash b) (nonce b) h.

Definition set_data (b : Block) (d : dict) : Block :=
  mkBlock (index b) (timestamp b) d (previous_hash b) (nonce b) (hash b).


(** The dictionary [calculate_hash] serializes. *)
Definition hashed_fields (self : Block) : json :=
  JDict [ ("index", JInt (index self));
          ("timestamp", JStr (timestamp self));
          ("data", JDict (data self));
          ("previous_hash", JStr (previous_hash self));
          ("nonce", JInt (nonce self)) ].

Definition calculate_hash (self : Block) : outcome string :=
  block_string <- Json.dumps (hashed_fields self) ;;
  Returns (Sha256.hexdigest (PyStr.encode block_string)).

(** [Block(index, timestamp, data, previous_hash)]. *)
Definition Block_init (index : Z) (timestamp : string) (data : dict)
    (previous_hash : string) : outcome Block :=
  let self := mkBlock index timestamp data previous_hash 0 EmptyString in
  h <- calculate_hash self ;;
  Returns (set_hash self h).

(** [fuel] bounds the number of times the loop condition is evaluated. *)
Fixpoint mine_block (fuel : nat) (difficulty : Z) (self : Block) : outcome Block :=
  match fuel with
  | O => Running
  | S fuel' =>
      let target := PyStr.mul "0" difficulty in
      if negb (String.eqb (PyStr.slice_to (hash self) difficulty) target) then
        let self := set_nonce self (nonce self + 1) in
        h <- calculate_hash self ;;
        mine_block fuel' difficulty (set_hash self h)
      else Returns self
  end.

Definition to_dict (self : Block) : dict :=
  [ ("index", JInt (index self));
    ("timestamp", JStr (timestamp self));
    ("data", JDict (data self));
    ("previous_hash", JStr (previous_hash self));
    ("nonce", JInt (nonce self));
    ("hash", JStr (hash self)) ].

(** ** [class DocumentBlockchain]

    The clock [datetime.now().isoformat()] is an input of the calls that
    read it. *)

Record DocumentBlockchain : Type := mkChain {
  chain : list Block;
  difficulty : Z;
  pending_documents : list dict }.

Definition set_chain (self : DocumentBlockchain) (c : list Block) : DocumentBlockchain :=
  mkChain c (difficulty self) (pending_documents self).

Definition genesis_data : dict :=
  [ ("type", JStr "genesis");
    ("message", JStr "Genesis Block - DocuChain System") ].

Definition create_genesis_block (fuel : nat) (now : string)
    (self : DocumentBlockchain) : outcome DocumentBlockchain :=
  genesis_block <- Block_init 0 now genesis_data "0" ;;
  genesis_block <- mine_block fuel (difficulty self) genesis_block ;;
  Returns (set_chain self (chain self ++ [genesis_block])).

(** [DocumentBlockchain(difficulty)]. *)
Definition DocumentBlockchain_init (fuel : nat) (difficulty : Z) (now : string)
  : outcome DocumentBlockchain :=
  create_genesis_block fuel now (mkChain [] difficulty []).

(** [self.chain[-1]]. *)
Definition get_latest_block (self : DocumentBlockchain) : outcome Block :=
  match List.length (chain self) with
  | O => Raises IndexError
  | S n =>
      match nth_error (chain self) n with
      | Some b => Returns b
      | None => Raises IndexError
      end
  end.

Record receipt : Type := mkReceipt {
  success : bool;
  block_number : Z;
  block_hash : string;
  receipt_timestamp : string }.

(** The arguments of the constructor are evaluated first, [self.chain[-1]]
    among them. The ledger is changed by the [append] alone, so a call that
    raises has left it as it was. *)
Definition add_document (fuel : nat) (now : string) (document_data : dict)
    (self : DocumentBlockchain) : outcome (DocumentBlockchain * receipt) :=
  let new_index := Z.of_nat (List.length (chain self)) in
  latest <- get_latest_block self ;;
  new_block <- Block_init new_index now document_data (hash latest) ;;
  new_block <- mine_block fuel (difficulty self) new_block ;;
  Returns (set_chain self (chain self ++ [new_block]),
           mkReceipt true (index new_block) (hash new_block) (timestamp new_block)).

Record verification : Type := mkVerification {
  valid : bool;
  found_block_number : Z;
  found_timestamp : string;
  found_data : dict }.

(** [block.data.get("document_hash") == document_hash]. *)
Definition has_document_hash (block : Block) (document_hash : string) : bool :=
  match Json.get "document_hash" (data block) with
  | Some (JStr s) => String.eqb s document_hash
  | _ => false
  end.

Fixpoint verify_loop (blocks : list Block) (document_hash : string)
  : option verification :=
  match blocks with
  | [] => None
  | block :: blocks' =>
      if has_document_hash block document_hash
      then Some (mkVerification true (index block) (timestamp block) (data block))
      else verify_loop blocks' document_hash
  end.

(** The loop runs over [self.chain[1:]]. *)
Definition verify_document (self : DocumentBlockchain) (document_hash : string)
  : option verification :=
  verify_loop (tl (chain self)) document_hash.

(** The loop of [is_chain_valid] over the pairs [(chain[i-1], chain[i])],
    [i] from 1 to [len(chain) - 1]. *)
Fixpoint check_links (pairs : list (Block * Block)) : outcome bool :=
  match pairs with
  | [] => Returns true
  | (previous_block, current_block) :: pairs' =>
      h <- calculate_hash current_block ;;
      if negb (String.eqb (hash current_block) h)
      then Returns false
      else if negb (String.eqb (previous_hash current_block) (hash previous_block))
      then Returns false
      else check_links pairs'
  end.

Definition is_chain_valid (self : DocumentBlockchain) : outcome bool :=
  check_links (combine (chain self) (tl (chain self))).

(** ** The persisted ledger

    The text of a file is represented by the value [json.load] reads from
    it: [json.dump] followed by [json.load] gives back the value written,
    for the values of type [json] whose integers can be converted.
    [Garbled] is a file whose text is not JSON. *)

Inductive file : Type :=
| Missing
| Garbled
| Parsed (v : json).

Definition filesystem : Type := string -> file.

Definition put_file (fs : filesystem) (filename : string) (f : file) : filesystem :=
  fun name => if String.eqb name filename then f else fs name.

Definition write (fs : filesystem) (filename : string) (v : json) : filesystem :=
  put_file fs filename (Parsed v).

(** What the call returns or raises, and the files after it. [json.dump]
    writes the text piece by piece into the file opened for writing: when it
    raises, at an integer it cannot convert, the file is left with the
    beginning of the text, from the opening bracket on, which is not
    JSON. *)
Definition save_to_file (self : DocumentBlockchain) (filename : string)
    (fs : filesystem) : outcome unit * filesystem :=
  let chain_data := JList (map (fun block => JDict (to_dict block)) (chain self)) in
  if Json.fits chain_data then (Returns tt, write fs filename chain_data)
  else (Raises ValueError, put_file fs filename Garbled).

(** [block_data[k]]. *)
Definition getitem (block_data : json) (k : string) : outcome json :=
  match block_data with
  | JDict d =>
      match Json.get k d with
      | Some v => Returns v
      | None => Raises (KeyError k)
      end
  | _ => Raises TypeError
  end.

Definition as_int (v : json) : outcome Z :=
  match v with JInt z => Returns z | _ => Untyped end.

Definition as_str (v : json) : outcome string :=
  match v with JStr s => Returns s | _ => Untyped end.

Definition as_dict (v : json) : outcome dict :=
  match v with JDict d => Returns d | _ => Untyped end.

(** One turn of the loop of [load_from_file], up to the [append]. *)
Definition load_block (block_data : json) : outcome Block :=
  i <- getitem block_data "index" ;;
  t <- getitem block_data "timestamp" ;;
  d <- getitem block_data "data" ;;
  p <- getitem block_data "previous_hash" ;;
  i <- as_int i ;;
  t <- as_str t ;;
  d <- as_dict d ;;
  p <- as_str p ;;
  block <- Block_init i t d p ;;
  n <- getitem block_data "nonce" ;;
  n <- as_int n ;;
  let block := set_nonce block n in
  h <- getitem block_data "hash" ;;
  h <- as_str h ;;
  Returns (set_hash block h).

(** The loop, with the chain built so far; the chain is kept as it stands
    when a turn raises. *)
Fixpoint load_blocks (chain_data : list json) (chain : list Block)
  : outcome unit * list Block :=
  match chain_data with
  | [] => (Returns tt, chain)
  | block_data :: chain_data' =>
      match load_block block_data with
      | Returns block => load_blocks chain_data' (chain ++ [block])
      | Raises e => (Raises e, chain)
      | Running => (Running, chain)
      | Untyped => (Untyped, chain)
      end
  end.

(** What [for block_data in chain_data] iterates over: the elements of a
    list, the keys of a dict, the characters of a string. *)
Definition iterate (chain_data : json) : outcome (list json) :=
  match chain_data with
  | JList l => Returns l
  | JDict d => Returns (map (fun kv => JStr (fst kv)) d)
  | JStr s => Returns (map (fun c => JStr (String c EmptyString)) (list_ascii_of_string s))
  | _ => Raises TypeError
  end.

(** The result and the ledger after the call. [FileNotFoundError] is caught
    and gives [False]; every other exception leaves the method. [json.load]
    raises before the chain is touched: [JSONDecodeError] on text that is
    not JSON, [ValueError] on an integer of more digits than the
    interpreter converts. *)
Definition load_from_file (self : DocumentBlockchain) (filename : string)
    (fs : filesystem) : outcome bool * DocumentBlockchain :=
  match fs filename with
  | Missing => (Returns false, self)
  | Garbled => (Raises JSONDecodeError, self)
  | Parsed chain_data =>
      if Json.fits chain_data then
        let self := set_chain self [] in
        match iterate chain_data with
        | Returns l =>
            let (r, c) := load_blocks l [] in
            (_ <- r ;; Returns true, set_chain self c)
        | Raises e => (Raises e, self)
        | Running => (Running, self)
        | Untyped => (Untyped, self)
        end
      else (Raises ValueError, self)
  end.

(** ** Ledgers built by the program *)

(** The ledgers a run can hold: the fresh one, and those reached from it by
    [add_document]. *)
Inductive built : DocumentBlockchain -> Prop :=
| built_fresh fuel difficulty now self :
    DocumentBlockchain_init fuel difficulty now = Returns self ->
    built self
| built_append fuel now document_data self self' r :
    built self ->
    add_document fuel now document_data self = Returns (self', r) ->
    built self'.

(** [add_document] once per document of a sequence, each with the reading
    of the clock at its call. *)
Fixpoint add_documents (fuel : nat) (documents : list (string * dict))
    (self : DocumentBlockchain) : outcome DocumentBlockchain :=
  match documents with
  | [] => Returns self
  | (now, document_data) :: documents' =>
      r <- add_document fuel now document_data self ;;
      add_documents fuel documents' (fst r)
  end.

(** ** Tampering and equality of payloads *)

(** [l[i] = x], for [i] in range; out of range the list is left alone
    (Python raises [IndexError] there). *)
Fixpoint update_at {A : Type} (i : nat) (x : A) (l : list A) : list A :=
  match l, i with
  | [], _ => []
  | _ :: l', O => x :: l'
  | y :: l', S i' => y :: update_at i' x l'
  end.

(** [d[k] = v] on a dict: the item keeps its place when the key is there
    and is added at the end when it is not. *)
Fixpoint dict_set (k : string) (v : json) (d : dict) : dict :=
  match d with
  | [] => [(k, v)]
  | (k', x) :: d' => if String.eqb k' k then (k', v) :: d' else (k', x) :: dict_set k v d'
  end.

(** [del d[k]]. *)
Definition dict_del (k : string) (d : dict) : dict :=
  filter (fun kv => negb (String.eqb (fst kv) k)) d.

Fixpoint nodupb (l : list string) : bool :=
  match l with
  | [] => true
  | k :: l' => negb (existsb (String.eqb k) l') && nodupb l'
  end.

(** The values that are Python objects: no dict holds a key twice. *)
Fixpoint well_formed (v : json) : bool :=
  match v with
  | JList l => forallb well_formed l
  | JDict items =>
      nodupb (map fst items)
      && forallb (fun kv => match kv with (_, x) => well_formed x end) items
  | _ => true
  end.

(** Equality of values: lists item by item, dicts as mappings, whatever the
    order of insertion of their keys. (A JSON boolean and a JSON number are
    different values.) *)
Fixpoint json_eqb (v w : json) : bool :=
  match v, w with
  | JNull, JNull => true
  | JBool a, JBool b => Bool.eqb a b
  | JInt a, JInt b => a =? b
  | JStr a, JStr b => String.eqb a b
  | JList l, JList m =>
      (fix list_eqb (l m : list json) : bool :=
         match l, m with
         | [], [] => true
         | x :: l', y :: m' => json_eqb x y && list_eqb l' m'
         | _, _ => false
         end) l m
  | JDict d, JDict e =>
      (List.length d =? List.length e)%nat
      && forallb (fun kv => match kv with
                            | (k, x) => match Json.get k e with
                                        | Some y => json_eqb x y
                                        | None => false
                                        end
                            end) d
  | _, _ => false
  end.

(** The fields a persisted record must have. *)
Definition record_fields : list string :=
  ["index"; "timestamp"; "data"; "previous_hash"; "nonce"; "hash"].

(** The texts [str.encode] leaves byte for character. *)
Fixpoint ascii_only (s : string) : bool :=
  match s with
  | EmptyString => true
  | String c s' => (nat_of_ascii c <? 128)%nat && ascii_only s'
  end.

(** ** The invariants of the data model *)

(** The digest [calculate_hash] returns, when it returns. *)
Definition digest (b : Block) : string :=
  Sha256.hexdigest (PyStr.encode (Json.text (hashed_fields b))).

(** The block the constructor returns, when it returns. *)
Definition constructed (index : Z) (timestamp : string) (data : dict)
    (previous_hash : string) : Block :=
  let self := mkBlock index timestamp data previous_hash 0 EmptyString in
  set_hash self (digest self).

(** I1: the stored digest is the digest of the other five fields, the one
    [calculate_hash] returns. *)
Definition I1 (b : Block) : Prop := calculate_hash b = Returns (hash b).

(** I2: the link of a block is the digest of its predecessor. *)
Definition I2 (previous b : Block) : Prop := previous_hash b = hash previous.

(** The test that ends the loop of [mine_block]. *)
Definition sealed (difficulty : Z) (b : Block) : Prop :=
  PyStr.slice_to (hash b) difficulty = PyStr.mul "0" difficulty.

(** I3: the digest begins with [difficulty] characters ['0']. *)
Definition I3 (difficulty : Z) (b : Block) : Prop :=
  exists rest, hash b = (PyStr.mul "0" difficulty ++ rest)%string.

(** One turn of the loop of [mine_block] that sets the nonce to [n]. *)
Definition renumber (b : Block) (n : Z) : outcome Block :=
  let b := set_nonce b n in
  h <- calculate_hash b ;;
  Returns (set_hash b h).

(** Items in the strict order of their keys. *)
Definition by_key (x y : string * string) : Prop := PyStr.ltb (fst x) (fst y) = true.

(** ** A run at difficulty 1 *)

Module Run.

Definition diploma : dict :=
  [ ("type", JStr "document");
    ("document_hash", JStr "deadbeef");
    ("recipient_id", JStr "alice@example.com");
    ("issuer", JStr "Acme");
    ("title", JStr "Diploma") ].

Definition genesis : Block :=
  mkBlock 0 "2024-01-01T00:00:20" genesis_data "0" 1
    "0f14b43703129772cb04e41a14f2c77253e4df4d14b73f11492cac94830a5beb".

Definition ledger0 : DocumentBlockchain := mkChain [genesis] 1 [].

Definition block1 : Block :=
  mkBlock 1 "2024-01-01T00:00:30" diploma (hash genesis) 1
    "0074a91b715ecffc47f0c9d34ac6636881fa50ed12ea57448550896b722ce916".

Definition ledger1 : DocumentBlockchain := mkChain [genesis; block1] 1 [].

Definition receipt1 : receipt :=
  mkReceipt true 1 (hash block1) "2024-01-01T00:00:30".

(** A payload with a dict inside, and the same payload with the items of
    both dicts inserted in another order. *)
Definition transcript : dict :=
  [ ("type", JStr "document");
    ("document_hash", JStr "deadbeef");
    ("grades", JDict [("algebra", JInt 17); ("logic", JInt 19)]);
    ("pages", JList [JInt 1; JInt 2]) ].

Definition transcript_reordered : dict :=
  [ ("pages", JList [JInt 1; JInt 2]);
    ("grades", JDict [("logic", JInt 19); ("algebra", JInt 17)]);
    ("document_hash", JStr "deadbeef");
    ("type", JStr "document") ].

(** [block1] with the title of the diploma changed, nothing resealed. *)
Definition forged_diploma : dict := dict_set "title" (JStr "Doctorate") diploma.

(** The diploma with its title set to the integer 10^4300, of 4301
    digits. *)
Definition oversized_diploma : dict := dict_set "title" (JInt Json.int_limit) diploma.

End Run.

(** ** Ranges of the digest *)

Definition word_ok (x : Z) : Prop := 0 <= x < 2 ^ 32.

Definition state_ok (s : Sha256.state) : Prop :=
  word_ok (Sha256.sa s) /\ word_ok (Sha256.sb s) /\ word_ok (Sha256.sc s)
  /\ word_ok (Sha256.sd s) /\ word_ok (Sha256.se s) /\ word_ok (Sha256.sf s)
  /\ word_ok (Sha256.sg s) /\ word_ok (Sha256.sh s).

(** ** Tampering with a payload *)

(** The ledger after [self.chain[i].data = d] on the block [b] found at
    position [i], nothing resealed. *)
Definition tamper_data (self : DocumentBlockchain) (i : nat) (b : Block) (d : dict)
  : DocumentBlockchain :=
  set_chain self (update_at i (set_data b d) (chain self)).


(** The block the constructor returns for position 1, after [Run.genesis],
    on the payload that registers the document hash [n]. *)
Definition numbered_block (n : nat) : Block :=
  constructed 1 "2024-01-01T00:00:30" [("document_hash", JInt (Z.of_nat n))]
    (hash Run.genesis).

(** ** Listings *)

(** The dict display [{"block_number": block.index, "timestamp":
    block.timestamp, **block.data}]: the items of the payload are set one
    after the other on the two items written first, so that a payload key
    already there takes over the value and keeps the place. *)
Definition document_record (block : Block) : dict :=
  fold_left (fun d kv => dict_set (fst kv) (snd kv) d) (data block)
    [ ("block_number", JInt (index block));
      ("timestamp", JStr (timestamp block)) ].

(** [block.data.get("type") == "document"]. *)
Definition has_type_document (block : Block) : bool :=
  match Json.get "type" (data block) with
  | Some (JStr s) => String.eqb s "document"
  | _ => false
  end.

Fixpoint get_all_documents_loop (blocks : list Block) (documents : list dict)
  : list dict :=
  match blocks with
  | [] => documents
  | block :: blocks' =>
      if has_type_document block
      then get_all_documents_loop blocks' (documents ++ [document_record block])
      else get_all_documents_loop blocks' documents
  end.

(** The loop runs over [self.chain[1:]]. *)
Definition get_all_documents (self : DocumentBlockchain) : list dict :=
  get_all_documents_loop (tl (chain self)) [].

(** [block.data.get("recipient_id") == recipient_id]. *)
Definition has_recipient_id (block : Block) (recipient_id : string) : bool :=
  match Json.get "recipient_id" (data block) with
  | Some (JStr s) => String.eqb s recipient_id
  | _ => false
  end.

Fixpoint get_documents_by_recipient_loop (blocks : list Block) (recipient_id : string)
    (documents : list dict) : list dict :=
  match blocks with
  | [] => documents
  | block :: blocks' =>
      if has_recipient_id block recipient_id
      then get_documents_by_recipient_loop blocks' recipient_id
             (documents ++ [document_record block])
      else get_documents_by_recipient_loop blocks' recipient_id documents
  end.

Definition get_documents_by_recipient (self : DocumentBlockchain)
    (recipient_id : string) : list dict :=
  get_documents_by_recipient_loop (tl (chain self)) recipient_id [].

(** The payloads that are Python dicts: no key twice, at any depth. *)
Definition payload_ok (block : Block) : Prop :=
  well_formed (JDict (data block)) = true.

(** ** Digest texts *)

Definition lower_hex_char (c : ascii) : bool :=
  existsb (Ascii.eqb c) (list_ascii_of_string "0123456789abcdef").

Fixpoint lower_hex (s : string) : bool :=
  match s with
  | EmptyString => true
  | String c s' => lower_hex_char c && lower_hex s'
  end.

(** ** Starting a session

    [DocumentCLI.__init__] and the start of [api_server.py]: a ledger of
    difficulty 2 is constructed, its genesis block mined, and then
    [load_from_file] is called on the default file; what it returns is
    dropped, what it raises leaves the start. *)

Definition blockchain_file : string := "blockchain_data.json".

Definition startup (fuel : nat) (now : string) (fs : filesystem)
  : outcome DocumentBlockchain :=
  blockchain <- DocumentBlockchain_init fuel 2 now ;;
  let loaded := load_from_file blockchain blockchain_file fs in
  _ <- fst loaded ;;
  Returns (snd loaded).

(** The two statements that end an issue, in the CLI and in the API:
    [add_document(document_data)] and then [save_to_file()]. *)
Definition add_and_save (fuel : nat) (now : string) (document_data : dict)
    (state : DocumentBlockchain * filesystem)
  : outcome (DocumentBlockchain * filesystem * receipt) :=
  let (blockchain, fs) := state in
  r <- add_document fuel now document_data blockchain ;;
  let (blockchain, result) := r in
  let saved := save_to_file blockchain blockchain_file fs in
  _ <- fst saved ;;
  Returns (blockchain, snd saved, result).

(** A session started on a clock reading for which the genesis block of
    difficulty 2 is mined at nonce 1. *)
Module Session.

Definition genesis : Block :=
  mkBlock 0 "2024-01-01T00:01:09" genesis_data "0" 1
    "00d1a0cb847b667fd15c718329af751a5b8d18e8ce18c8441d15a169a23d3f74".

Definition fresh : DocumentBlockchain := mkChain [genesis] 2 [].

(** The diploma issued in that session, at a clock reading for which the
    block is mined at nonce 1. *)
Definition block1 : Block :=
  mkBlock 1 "2024-01-01T00:03:19" Run.diploma (hash genesis) 1
    "00bf137679fdc153fec351737f789cfd272c24c4490f409e1dc6e4e1f43cb8c4".

Definition ledger1 : DocumentBlockchain := mkChain [genesis; block1] 2 [].

Definition receipt1 : receipt := mkReceipt true 1 (hash block1) "2024-01-01T00:03:19".

(** No file at the start; the ledger file after the issue. *)
Definition no_files : filesystem := fun _ => Missing.

Definition files1 : filesystem :=
  write no_files blockchain_file
    (JList (map (fun block => JDict (to_dict block)) (chain ledger1))).

(** The genesis block mined at the start of the next session, and dropped
    by the load. *)
Definition next_genesis : Block :=
  mkBlock 0 "2024-01-01T00:03:58" genesis_data "0" 1
    "0088ef0e758769597139f60d67921f93eec5b1279824645abd76da0b9ff23aed".

End Session.

(** ** [document_processor.py]

    The file system is what the calls of the program observe of it: for a
    path, whether something is there ([os.path.exists], [Path.exists]), the
    size [stat] reports, and the bytes read from it when [open(path, "rb")]
    succeeds. *)

Module DocumentProcessor.

Record disk : Type := mkDisk {
  exists_at : string -> bool;
  size_at : string -> Z;
  bytes_at : string -> option (list Z) }.

(** A call returns or raises [OSError] ([FileNotFoundError] or another of
    its subclasses). *)
Inductive os_result (A : Type) : Type :=
| Ok (a : A)
| OSError.

Arguments Ok {A} a.
Arguments OSError {A}.

Definition ALLOWED_EXTENSIONS : list string := [".pdf"; ".jpg"; ".jpeg"; ".png"].

Definition MAX_FILE_SIZE : Z := 10 * 1024 * 1024.

(** [f.read(n)] on what is left of the file: the bytes read and what is
    left after them. *)
Definition read (n : nat) (rest : list Z) : list Z * list Z :=
  (firstn n rest, skipn n rest).

(** The loop [for byte_block in iter(lambda: f.read(4096), b"")], which
    ends at the first empty read. A hash object is represented by the bytes
    it has been fed ([update(a)] then [update(b)] is [update(a + b)]);
    [turns] bounds the number of reads. *)
Fixpoint update_loop (turns : nat) (rest : list Z) (sha256_hash : list Z) : list Z :=
  match turns with
  | O => sha256_hash
  | S turns' =>
      let (byte_block, rest') := read 4096 rest in
      match byte_block with
      | [] => sha256_hash
      | _ => update_loop turns' rest' (sha256_hash ++ byte_block)
      end
  end.

(** Every read but the last takes at least one byte, so that one turn more
    than the file has bytes is enough. *)
Definition compute_file_hash (d : disk) (file_path : string) : os_result string :=
  match bytes_at d file_path with
  | None => OSError
  | Some content =>
      let sha256_hash := update_loop (S (List.length content)) content [] in
      Ok (Sha256.hexdigest sha256_hash)
  end.

(** *** [pathlib] on POSIX paths *)

(** [s.split("/")], with [cur] the characters of the current piece. *)
Fixpoint split_slash (s : string) (cur : string) : list string :=
  match s with
  | EmptyString => [cur]
  | String c s' =>
      if Ascii.eqb c "/" then cur :: split_slash s' EmptyString
      else split_slash s' (cur ++ String c EmptyString)
  end.

Fixpoint leading_slashes (s : string) : nat :=
  match s with
  | String c s' => if Ascii.eqb c "/" then S (leading_slashes s') else O
  | EmptyString => O
  end.

(** The root of a path: ["//"] for exactly two leading slashes, ["/"] for
    one or for three and more, nothing otherwise. *)
Definition path_root (file_path : string) : string :=
  match leading_slashes file_path with
  | O => ""
  | 2%nat => "//"
  | _ => "/"
  end.

(** The parts after the root: the pieces between slashes, without the
    empty ones and the ones that are ["."]. *)
Definition path_parts (file_path : string) : list string :=
  filter (fun x => negb (String.eqb x "") && negb (String.eqb x "."))
    (split_slash file_path EmptyString).

(** [str(Path(file_path))]. *)
Definition path_str (file_path : string) : string :=
  match path_root file_path, path_parts file_path with
  | EmptyString, [] => "."
  | root, parts => root ++ PyStr.join "/" parts
  end.

(** [Path(file_path).name]. *)
Definition path_name (file_path : string) : string :=
  last (path_parts file_path) "".

(** [name.rfind(".")]. *)
Fixpoint rfind_dot (name : string) : option nat :=
  match name with
  | EmptyString => None
  | String c name' =>
      match rfind_dot name' with
      | Some i => Some (S i)
      | None => if Ascii.eqb c "." then Some O else None
      end
  end.

Fixpoint drop (n : nat) (s : string) : string :=
  match n, s with
  | S n', String _ s' => drop n' s'
  | _, _ => s
  end.

(** [Path(file_path).suffix]: the name from its last dot on, when that dot
    is neither the first nor the last character of the name. *)
Definition path_suffix (file_path : string) : string :=
  let name := path_name file_path in
  match rfind_dot name with
  | Some i => if ((0 <? i) && (i <? String.length name - 1))%nat then drop i name else ""
  | None => ""
  end.

(** [c.lower()] for the code points 0..255: the letters A..Z and the
    capital letters of Latin-1. *)
Definition lower_char (c : ascii) : ascii :=
  let n := nat_of_ascii c in
  if (((65 <=? n) && (n <=? 90)) || ((192 <=? n) && (n <=? 214))
      || ((216 <=? n) && (n <=? 222)))%nat
  then ascii_of_nat (n + 32) else c.

Fixpoint lower (s : string) : string :=
  match s with
  | EmptyString => EmptyString
  | String c s' => String (lower_char c) (lower s')
  end.

(** The message of [validate_file], by the [return] that gives it: ["File
    does not exist"], ["Invalid file type. Allowed: ..."] with the allowed
    extensions in the order the set gives them, ["File too large. Maximum
    size: 10.0MB"], ["Valid"]. *)
Inductive message : Type :=
| File_does_not_exist
| Invalid_file_type
| File_too_large
| Valid.

Definition allowed (suffix : string) : bool :=
  existsb (String.eqb (lower suffix)) ALLOWED_EXTENSIONS.

Definition validate_file (d : disk) (file_path : string) : bool * message :=
  let path := path_str file_path in
  if negb (exists_at d path) then (false, File_does_not_exist)
  else if negb (allowed (path_suffix file_path)) then (false, Invalid_file_type)
  else
    let file_size := size_at d path in
    if MAX_FILE_SIZE <? file_size then (false, File_too_large)
    else (true, Valid).

End DocumentProcessor.

(** ** Storing a document *)

Module Storage.

Import DocumentProcessor.

(** [os.path.join(a, b)] on POSIX paths. *)
Definition os_path_join (a b : string) : string :=
  match b with
  | String "/" _ => b
  | _ =>
      if String.eqb a "" then b
      else if String.eqb (drop (String.length a - 1) a) "/" then a ++ b
      else a ++ "/" ++ b
  end.

(** [save_document(file_path, storage_dir)]: the path the call returns and
    the disk after it, or that it raises. The two calls that change the
    disk, [os.makedirs(storage_dir, exist_ok=True)] and
    [shutil.copy2(file_path, new_path)], are the functions [makedirs] and
    [copy2], of which the theorems say what they need. *)
Definition save_document (makedirs : string -> disk -> os_result disk)
    (copy2 : string -> string -> disk -> os_result disk)
    (d : disk) (file_path storage_dir : string) : os_result (string * disk) :=
  match makedirs storage_dir d with
  | OSError => OSError
  | Ok d =>
      match compute_file_hash d file_path with
      | OSError => OSError
      | Ok file_hash =>
          let new_filename := file_hash ++ path_suffix file_path in
          let new_path := os_path_join storage_dir new_filename in
          if negb (exists_at d new_path) then
            match copy2 file_path new_path d with
            | Ok d => Ok (new_path, d)
            | OSError => OSError
            end
          else Ok (new_path, d)
      end
  end.

(** What the theorems need of [os.makedirs]: it keeps what is read from
    every path, and what exists goes on existing. *)
Definition keeps_files (makedirs : string -> disk -> os_result disk) : Prop :=
  forall name d d',
    makedirs name d = Ok d' ->
    (forall p, bytes_at d' p = bytes_at d p)
    /\ (forall p, exists_at d p = true -> exists_at d' p = true).

(** What the theorems need of [shutil.copy2], for a destination at which
    nothing exists, the one case in which [save_document] calls it: when it
    returns, something exists at the destination, the bytes read there are
    the ones the source gave, and the source gives them still. *)
Definition copies_content (copy2 : string -> string -> disk -> os_result disk) : Prop :=
  forall src dst d d' content,
    exists_at d dst = false ->
    copy2 src dst d = Ok d' ->
    bytes_at d src = Some content ->
    exists_at d' dst = true
    /\ bytes_at d' dst = Some content
    /\ bytes_at d' src = Some content.

(** A [makedirs] that notes the directory as existing. *)
Definition note_directory (name : string) (d : disk) : os_result disk :=
  Ok (mkDisk (fun p => if String.eqb p name then true else exists_at d p)
        (size_at d) (bytes_at d)).

(** A [copy2] for a disk on which no two paths spell the same file: what is
    observed at the destination becomes what a file of the content of the
    source shows, and nothing else changes. *)
Definition copy_plain (src dst : string) (d : disk) : os_result disk :=
  match bytes_at d src with
  | Some content =>
      Ok (mkDisk
            (fun p => if String.eqb p dst then true else exists_at d p)
            (fun p => if String.eqb p dst then Z.of_nat (List.length content)
                      else size_at d p)
            (fun p => if String.eqb p dst then Some content else bytes_at d p))
  | None => OSError
  end.

(** A disk with one file, of the three bytes of [abc]. *)
Definition one_file : disk :=
  mkDisk (fun p => String.eqb p "in/Diploma.PDF")
    (fun _ => 3)
    (fun p => if String.eqb p "in/Diploma.PDF" then Some [97; 98; 99] else None).

End Storage.

(** ** The payload of an issue

    The dict [document_data] that [issue_document] builds, in the CLI and
    in the API, from the digest of the file and the fields given. *)

Definition issue_document_data (document_hash issuer doc_type title recipient_name
    recipient_id filename : string) : dict :=
  [ ("type", JStr "document");
    ("document_hash", JStr document_hash);
    ("issuer", JStr issuer);
    ("doc_type", JStr doc_type);
    ("title", JStr title);
    ("recipient_name", JStr recipient_name);
    ("recipient_id", JStr recipient_id);
    ("filename", JStr filename) ].

(** The issue of the file of [Storage.one_file] on the ledger
    [Run.ledger0], at a clock reading for which the block is mined at
    nonce 1. *)
Module Issue.

Definition document_hash : string :=
  "ba7816bf8f01cfea414140de5dae2223b00361a396177a9cb410ff61f20015ad".

Definition document_data : dict :=
  issue_document_data document_hash "Acme" "diploma" "Diploma" "Alice"
    "alice@example.com" "Diploma.PDF".

Definition block1 : Block :=
  mkBlock 1 "2024-01-01T00:01:20" document_data (hash Run.genesis) 1
    "083f3c8176d6d268352e6c81385345d6567826b5dc929c8e9ff4c10c58024ca2".

Definition ledger1 : DocumentBlockchain := mkChain [Run.genesis; block1] 1 [].

Definition receipt1 : receipt := mkReceipt true 1 (hash block1) "2024-01-01T00:01:20".

End Issue.

(** A ledger of difficulty 0 whose chain does not pass validation: the
    ledger [Run.ledger1] with the title of its diploma changed; and the
    same after one more document. *)
Module Forged.

Definition ledger : DocumentBlockchain :=
  mkChain [Run.genesis; set_data Run.block1 Run.forged_diploma] 0 [].

Definition block2 : Block :=
  constructed 2 "2024-01-01T00:01:20" Issue.document_data (hash Run.block1).

Definition ledger2 : DocumentBlockchain :=
  mkChain [Run.genesis; set_data Run.block1 Run.forged_diploma; block2] 0 [].

End Forged.


(** * Properties *)

Local Open Scope list_scope.

Arguments calculate_hash : simpl never.
Arguments Json.int_fits : simpl never.

(** ** The library functions on known values *)

(** The test vector of FIPS 180-4 for the message [abc]. *)
Lemma hexdigest_abc :
  Sha256.hexdigest (PyStr.encode "abc")
  = "ba7816bf8f01cfea414140de5dae2223b00361a396177a9cb410ff61f20015ad".
Proof. vm_compute. reflexivity. Qed.

Lemma round_constants_ends :
  nth 0 Sha256.round_constants 0 = 0x428a2f98
  /\ nth 63 Sha256.round_constants 0 = 0xc67178f2
  /\ Sha256.sa Sha256.initial = 0x6a09e667
  /\ Sha256.sh Sha256.initial = 0x5be0cd19.
Proof. vm_compute. repeat split. Qed.

(** ** The limit on the digits of an integer *)

Lemma int_limit_pos : 0 < Json.int_limit.
Proof.
  unfold Json.int_limit, Json.max_str_digits. apply Z.pow_pos_nonneg; lia.
Qed.

Lemma int_fits_iff (z : Z) : Json.int_fits z = true <-> Z.abs z < Json.int_limit.
Proof. unfold Json.int_fits. apply Z.ltb_lt. Qed.

(** What fits goes on fitting towards zero. *)
Lemma int_fits_between (k n : Z) :
  0 <= k <= n -> Json.int_fits n = true -> Json.int_fits k = true.
Proof. rewrite !int_fits_iff. lia. Qed.

Lemma int_fits_0 : Json.int_fits 0 = true.
Proof. apply int_fits_iff. pose proof int_limit_pos. simpl. lia. Qed.

(** The integer 10^4300, of 4301 digits, is the first that does not fit. *)
Lemma int_limit_unfit : Json.int_fits Json.int_limit = false.
Proof.
  unfold Json.int_fits. pose proof int_limit_pos.
  rewrite Z.abs_eq by lia. apply Z.ltb_irrefl.
Qed.

Lemma digests_fit : 2 ^ 256 < Json.int_limit.
Proof.
  unfold Json.int_limit, Json.max_str_digits.
  apply Z.lt_le_trans with (10 ^ 256).
  - apply Z.pow_lt_mono_l; lia.
  - apply Z.pow_le_mono_r; lia.
Qed.

(** The integers [calculate_hash] has to convert are the index, the nonce
    and those of the payload. *)
Lemma fits_hashed_fields (b : Block) :
  Json.fits (hashed_fields b)
  = Json.int_fits (index b) && (Json.fits (JDict (data b)) && Json.int_fits (nonce b)).
Proof.
  unfold hashed_fields. cbn [Json.fits forallb andb]. rewrite !andb_true_r. reflexivity.
Qed.

(** ** The run at difficulty 1 *)

Lemma run_fresh :
  DocumentBlockchain_init 5 1 "2024-01-01T00:00:20" = Returns Run.ledger0.
Proof. vm_compute. reflexivity. Qed.

Lemma run_append :
  add_document 5 "2024-01-01T00:00:30" Run.diploma Run.ledger0
  = Returns (Run.ledger1, Run.receipt1).
Proof. vm_compute. reflexivity. Qed.

Lemma run_built0 : built Run.ledger0.
Proof. exact (built_fresh _ _ _ _ run_fresh). Qed.

Lemma run_built1 : built Run.ledger1.
Proof. exact (built_append _ _ _ _ _ _ run_built0 run_append). Qed.

(** ** Outcomes *)

Lemma bind_returns {A B : Type} (m : outcome A) (k : A -> outcome B) (b : B) :
  bind m k = Returns b -> exists a, m = Returns a /\ k a = Returns b.
Proof.
  destruct m as [a | e | |]; simpl; intros H; try discriminate.
  exists a. split; [reflexivity | exact H].
Qed.

Lemma bind_raises {A B : Type} (m : outcome A) (k : A -> outcome B) (e : exn) :
  bind m k = Raises e -> m = Raises e \/ exists a, m = Returns a /\ k a = Raises e.
Proof.
  destruct m as [a | e' | |]; simpl; intros H; try discriminate.
  - right. exists a. split; [reflexivity | exact H].
  - left. injection H as ->. reflexivity.
Qed.

(** ** What [calculate_hash] returns and raises *)

(** The digest when every integer of the block can be converted, and the
    [ValueError] of [json.dumps] otherwise. *)
Lemma calculate_hash_outcome (b : Block) :
  calculate_hash b
  = if Json.fits (hashed_fields b) then Returns (digest b) else Raises ValueError.
Proof.
  unfold calculate_hash, Json.dumps, digest.
  destruct (Json.fits (hashed_fields b)); reflexivity.
Qed.

Lemma calculate_hash_returns (b : Block) (h : string) :
  calculate_hash b = Returns h ->
  h = digest b /\ Json.fits (hashed_fields b) = true.
Proof.
  rewrite calculate_hash_outcome.
  destruct (Json.fits (hashed_fields b)); intros H; [| discriminate].
  injection H as <-. split; reflexivity.
Qed.

Lemma calculate_hash_raises (b : Block) (e : exn) :
  calculate_hash b = Raises e ->
  e = ValueError /\ Json.fits (hashed_fields b) = false.
Proof.
  rewrite calculate_hash_outcome.
  destruct (Json.fits (hashed_fields b)); intros H; [discriminate |].
  injection H as <-. split; reflexivity.
Qed.

Lemma calculate_hash_fits (b : Block) :
  Json.fits (hashed_fields b) = true -> calculate_hash b = Returns (digest b).
Proof. intros H. rewrite calculate_hash_outcome, H. reflexivity. Qed.

(** The stored digest has no part in the digest. *)
Lemma calculate_hash_set_hash (b : Block) (h : string) :
  calculate_hash (set_hash b h) = calculate_hash b.
Proof. reflexivity. Qed.

(** The constructor: the block with nonce 0 and its digest, or the
    [ValueError] of [calculate_hash]. *)
Lemma Block_init_outcome (i : Z) (t : string) (d : dict) (p : string) :
  Block_init i t d p
  = if Json.int_fits i && Json.fits (JDict d)
    then Returns (constructed i t d p) else Raises ValueError.
Proof.
  unfold Block_init, constructed. cbv zeta.
  rewrite calculate_hash_outcome, fits_hashed_fields.
  cbn [index data nonce]. rewrite int_fits_0, andb_true_r.
  destruct (Json.int_fits i && Json.fits (JDict d)); reflexivity.
Qed.

Lemma Block_init_returns (i : Z) (t : string) (d : dict) (p : string) (b : Block) :
  Block_init i t d p = Returns b ->
  b = constructed i t d p
  /\ Json.int_fits i = true /\ Json.fits (JDict d) = true.
Proof.
  rewrite Block_init_outcome.
  destruct (Json.int_fits i && Json.fits (JDict d)) eqn:E; intros H; [| discriminate].
  injection H as <-. apply andb_true_iff in E. destruct E. repeat split; assumption.
Qed.

Lemma Block_init_raises (i : Z) (t : string) (d : dict) (p : string) (e : exn) :
  Block_init i t d p = Raises e ->
  e = ValueError /\ (Json.int_fits i = false \/ Json.fits (JDict d) = false).
Proof.
  rewrite Block_init_outcome.
  destruct (Json.int_fits i && Json.fits (JDict d)) eqn:E; intros H; [discriminate |].
  injection H as <-. split; [reflexivity |]. apply andb_false_iff, E.
Qed.

Lemma constructed_I1 (i : Z) (t : string) (d : dict) (p : string) :
  Json.int_fits i = true -> Json.fits (JDict d) = true -> I1 (constructed i t d p).
Proof.
  intros Hi Hd. unfold I1, constructed. cbv zeta.
  rewrite calculate_hash_set_hash, calculate_hash_fits; [reflexivity |].
  rewrite fits_hashed_fields. cbn [index data nonce].
  rewrite Hi, Hd, int_fits_0. reflexivity.
Qed.

Lemma Block_init_I1 (i : Z) (t : string) (d : dict) (p : string) (b : Block) :
  Block_init i t d p = Returns b -> I1 b.
Proof.
  intros H. apply Block_init_returns in H. destruct H as (-> & Hi & Hd).
  apply constructed_I1; assumption.
Qed.

(** ** Sealing *)

(** The loop of [mine_block] leaves when the slice of the digest is the
    target, touches neither index, timestamp, payload nor link, and every
    turn of it stores the digest of the block it has just renumbered. *)
Lemma mine_block_returns (fuel : nat) (d : Z) :
  forall b b' : Block,
    mine_block fuel d b = Returns b' ->
    PyStr.slice_to (hash b') d = PyStr.mul "0" d
    /\ index b' = index b /\ timestamp b' = timestamp b
    /\ data b' = data b /\ previous_hash b' = previous_hash b
    /\ (b' = b \/ (I1 b' /\ nonce b < nonce b')).
Proof.
  induction fuel as [| fuel IH]; intros b b' H; cbn [mine_block] in H; [discriminate |].
  destruct (String.eqb (PyStr.slice_to (hash b) d) (PyStr.mul "0" d)) eqn:E;
    cbn [negb] in H.
  - injection H as <-. apply String.eqb_eq in E. repeat split; auto.
  - apply bind_returns in H. destruct H as (h & Hh & H).
    apply IH in H. cbn [index timestamp data previous_hash nonce set_hash set_nonce] in H.
    destruct H as (Hs & Hi & Ht & Hd & Hp & Hn).
    repeat split; auto. right.
    destruct Hn as [-> | [Hh' Hlt]].
    + split; [| cbn [nonce set_hash set_nonce]; lia].
      unfold I1. rewrite calculate_hash_set_hash. exact Hh.
    + split; [exact Hh' | lia].
Qed.

(** The one exception [mine_block] raises is the [ValueError] of
    [calculate_hash]. *)
Lemma mine_block_raises (fuel : nat) (d : Z) :
  forall (b : Block) (e : exn), mine_block fuel d b = Raises e -> e = ValueError.
Proof.
  induction fuel as [| fuel IH]; intros b e H; cbn [mine_block] in H; [discriminate |].
  destruct (String.eqb _ _); cbn [negb] in H; [discriminate |].
  apply bind_raises in H. destruct H as [H | (h & _ & H)].
  - apply calculate_hash_raises in H. tauto.
  - exact (IH _ _ H).
Qed.

(** It raises nothing while the nonces it tries can be converted. *)
Lemma mine_block_never_raises (fuel : nat) (d : Z) :
  forall (b : Block) (e : exn),
    Json.int_fits (index b) = true ->
    Json.fits (JDict (data b)) = true ->
    0 <= nonce b ->
    Json.int_fits (nonce b + Z.of_nat fuel) = true ->
    mine_block fuel d b <> Raises e.
Proof.
  induction fuel as [| fuel IH]; intros b e Hi Hd Hn Hf; cbn [mine_block];
    [discriminate |].
  destruct (String.eqb _ _); cbn [negb]; [discriminate |].
  rewrite calculate_hash_fits.
  - cbn [bind]. apply IH; cbn [index data nonce set_hash set_nonce]; try assumption;
      [lia |].
    replace (nonce b + 1 + Z.of_nat fuel) with (nonce b + Z.of_nat (S fuel)) by lia.
    exact Hf.
  - rewrite fits_hashed_fields. cbn [index data nonce set_nonce].
    rewrite Hi, Hd.
    rewrite (int_fits_between (nonce b + 1) (nonce b + Z.of_nat (S fuel)));
      [reflexivity | lia | exact Hf].
Qed.

(** More fuel does not change what a run that returned has returned. *)
Lemma mine_block_more_fuel (fuel : nat) (d : Z) :
  forall (b b' : Block) (extra : nat),
    mine_block fuel d b = Returns b' ->
    mine_block (fuel + extra) d b = Returns b'.
Proof.
  induction fuel as [| fuel IH]; intros b b' extra H; cbn [mine_block] in H;
    [discriminate |].
  cbn [Nat.add mine_block]. destruct (String.eqb _ _); cbn [negb] in *; [exact H |].
  apply bind_returns in H. destruct H as (h & Hh & H).
  rewrite Hh. cbn [bind]. apply IH, H.
Qed.

Lemma take_mul_prefix (c : ascii) (n : nat) :
  forall s : string,
    PyStr.take n s = PyStr.repeat_char c n ->
    exists rest, s = (PyStr.repeat_char c n ++ rest)%string.
Proof.
  induction n as [| n IH]; intros s H; simpl in *.
  - exists s. reflexivity.
  - destruct s as [| a s]; [discriminate |].
    injection H as -> H. destruct (IH s H) as [rest ->].
    exists rest. reflexivity.
Qed.

(** For a difficulty that is not negative, the exit test of the loop says
    that the digest begins with that many zeros. *)
Lemma sealed_prefix (d : Z) (h : string) :
  0 <= d ->
  PyStr.slice_to h d = PyStr.mul "0" d ->
  exists rest, h = (PyStr.mul "0" d ++ rest)%string.
Proof.
  intros Hd H. unfold PyStr.slice_to in H.
  destruct (Z.ltb_spec d 0) as [Hneg | _]; [lia |].
  unfold PyStr.mul in *. eapply take_mul_prefix, H.
Qed.

(** C7, as stated, fails: [mine_block] returns at once on a block whose
    stored digest already meets the target, whether or not that digest is
    the digest of the block. *)
Lemma mine_block_keeps_stale_digest :
  let b := mkBlock 1 "2024-01-01T00:00:30" Run.diploma "0" 0 "0" in
  0 <= 1 /\ mine_block 1 1 b = Returns b /\ calculate_hash b <> Returns (hash b).
Proof.
  cbv zeta. split; [lia |]. split; [reflexivity |].
  vm_compute. discriminate.
Qed.

(** C7, amended: for a difficulty [d >= 0] and a block whose digest is the
    digest of its fields when [mine_block] is called (every block fresh from
    the constructor), if [mine_block d] returns then the digest begins with
    [d] characters ['0'], it is the digest of the block with its final nonce,
    and index, timestamp, payload and link are the ones on entry. *)
Theorem mine_block_seals (fuel : nat) (d : Z) (b b' : Block) :
  0 <= d ->
  I1 b ->
  mine_block fuel d b = Returns b' ->
  I3 d b' /\ I1 b'
  /\ index b' = index b /\ timestamp b' = timestamp b
  /\ data b' = data b /\ previous_hash b' = previous_hash b.
Proof.
  intros Hd Hb H. apply mine_block_returns in H.
  destruct H as (Hs & Hi & Ht & Hda & Hp & Hn).
  split; [apply sealed_prefix; assumption |].
  split; [| auto].
  destruct Hn as [-> | [Hh _]]; assumption.
Qed.

Lemma mine_block_seals_witness :
  I3 1 Run.genesis /\ I1 Run.genesis
  /\ index Run.genesis = 0 /\ timestamp Run.genesis = "2024-01-01T00:00:20"
  /\ data Run.genesis = genesis_data /\ previous_hash Run.genesis = "0".
Proof.
  apply (mine_block_seals 5 1 (constructed 0 "2024-01-01T00:00:20" genesis_data "0")).
  - lia.
  - apply constructed_I1; reflexivity.
  - vm_compute. reflexivity.
Defined.

(** A turn of the loop returns the block with the digest of its new
    nonce. *)
Lemma renumber_returns (b : Block) (n : Z) (b' : Block) :
  renumber b n = Returns b' ->
  b' = set_hash (set_nonce b n) (digest (set_nonce b n))
  /\ Json.int_fits (index b) = true
  /\ Json.fits (JDict (data b)) = true
  /\ Json.int_fits n = true.
Proof.
  unfold renumber. cbv zeta. intros H.
  apply bind_returns in H. destruct H as (h & Hh & H). injection H as <-.
  apply calculate_hash_returns in Hh. destruct Hh as [-> Hf].
  rewrite fits_hashed_fields in Hf. cbn [index data nonce set_nonce] in Hf.
  apply andb_true_iff in Hf. destruct Hf as [Hi Hf].
  apply andb_true_iff in Hf. destruct Hf as [Hd Hn].
  repeat split; assumption.
Qed.

Lemma renumber_fits (b : Block) (n : Z) :
  Json.int_fits (index b) = true ->
  Json.fits (JDict (data b)) = true ->
  Json.int_fits n = true ->
  renumber b n = Returns (set_hash (set_nonce b n) (digest (set_nonce b n))).
Proof.
  intros Hi Hd Hn. unfold renumber. cbv zeta.
  rewrite calculate_hash_fits; [reflexivity |].
  rewrite fits_hashed_fields. cbn [index data nonce set_nonce].
  rewrite Hi, Hd, Hn. reflexivity.
Qed.

(** Renumbering twice is renumbering once. *)
Lemma renumber_renumber (b b1 : Block) (k n : Z) :
  renumber b k = Returns b1 -> renumber b1 n = renumber b n.
Proof.
  intros H. apply renumber_returns in H. destruct H as (-> & _). reflexivity.
Qed.

(** The search ends as soon as some nonce ahead gives a digest that meets
    the target. *)
Lemma mine_block_finds (d : Z) (k : nat) :
  forall b bk : Block,
    0 <= nonce b ->
    renumber b (nonce b + Z.of_nat (S k)) = Returns bk ->
    sealed d bk ->
    exists b', mine_block (S (S k)) d b = Returns b'.
Proof.
  induction k as [| k IH]; intros b bk Hn Hr Hs.
  - cbn [mine_block].
    destruct (String.eqb (PyStr.slice_to (hash b) d) (PyStr.mul "0" d)) eqn:E;
      cbn [negb]; [eexists; reflexivity |].
    change (Z.of_nat 1) with 1 in Hr. unfold renumber in Hr. cbv zeta in Hr.
    apply bind_returns in Hr. destruct Hr as (h & Hh & Hr). injection Hr as <-.
    rewrite Hh. cbn [bind]. red in Hs. apply String.eqb_eq in Hs.
    rewrite Hs. cbn [negb]. eexists; reflexivity.
  - remember (S (S k)) as f eqn:Hf in |- *. cbn [mine_block].
    destruct (String.eqb (PyStr.slice_to (hash b) d) (PyStr.mul "0" d)) eqn:E;
      cbn [negb]; [eexists; reflexivity |].
    pose proof (renumber_returns _ _ _ Hr) as (_ & Hi & Hd & Hk).
    assert (H1 : Json.int_fits (nonce b + 1) = true)
      by (apply (int_fits_between _ (nonce b + Z.of_nat (S (S k)))); [lia | exact Hk]).
    pose proof (renumber_fits b (nonce b + 1) Hi Hd H1) as Hr1.
    unfold renumber in Hr1. cbv zeta in Hr1.
    apply bind_returns in Hr1. destruct Hr1 as (h & Hh & Hr1).
    rewrite Hh. cbn [bind]. subst f.
    apply (IH _ bk); cbn [nonce set_hash set_nonce]; [lia | | exact Hs].
    replace (nonce b + 1 + Z.of_nat (S k)) with (nonce b + Z.of_nat (S (S k))) by lia.
    rewrite <- Hr. reflexivity.
Qed.

(** ** Validation *)

Lemma check_links_Forall (pairs : list (Block * Block)) :
  check_links pairs = Returns true
  <-> Forall (fun pc => I1 (snd pc) /\ I2 (fst pc) (snd pc)) pairs.
Proof.
  induction pairs as [| [p c] pairs IH]; cbn [check_links].
  - split; [constructor | reflexivity].
  - unfold I1 in *. cbn [fst snd].
    destruct (calculate_hash c) as [h | e | |] eqn:Hc; cbn [bind];
      try (split; [discriminate |];
           intros H; inversion H as [| ? ? [H1 _] _]; cbn [fst snd] in H1;
           rewrite Hc in H1; discriminate H1).
    destruct (String.eqb (hash c) h) eqn:E1; cbn [negb].
    + apply String.eqb_eq in E1. subst h.
      destruct (String.eqb (previous_hash c) (hash p)) eqn:E2; cbn [negb].
      * apply String.eqb_eq in E2. rewrite IH. split.
        -- intros H. constructor; [split; [exact Hc | exact E2] | exact H].
        -- intros H. inversion H; assumption.
      * apply String.eqb_neq in E2. split; [discriminate |].
        intros H. inversion H as [| ? ? [_ H2] _]. contradiction.
    + apply String.eqb_neq in E1. split; [discriminate |].
      intros H. inversion H as [| ? ? [H1 _] _]. cbn [fst snd] in H1.
      rewrite Hc in H1. injection H1 as H1. congruence.
Qed.

(** Validation returns, or raises the [ValueError] of [calculate_hash]. *)
Lemma check_links_outcomes (pairs : list (Block * Block)) :
  (exists r, check_links pairs = Returns r) \/ check_links pairs = Raises ValueError.
Proof.
  induction pairs as [| [p c] pairs IH]; cbn [check_links]; [left; eexists; reflexivity |].
  rewrite calculate_hash_outcome.
  destruct (Json.fits (hashed_fields c)); cbn [bind]; [| right; reflexivity].
  destruct (negb _); [left; eexists; reflexivity |].
  destruct (negb _); [left; eexists; reflexivity | exact IH].
Qed.

(** The pairs the loop visits are the neighbours of the chain. *)
Lemma nth_error_neighbours {A : Type} (l : list A) :
  forall (i : nat) (p c : A),
    nth_error (combine l (tl l)) i = Some (p, c)
    <-> nth_error l i = Some p /\ nth_error l (S i) = Some c.
Proof.
  induction l as [| a l IH]; intros i p c.
  - destruct i; simpl; split; intros H; try discriminate; destruct H; discriminate.
  - destruct l as [| b l].
    + destruct i as [| i]; simpl; split; intros H; try discriminate.
      * destruct H as [_ H]. discriminate.
      * destruct H as [H _]. destruct i; discriminate.
    + destruct i as [| i].
      * simpl. split.
        -- intros H. injection H as -> ->. split; reflexivity.
        -- intros [H1 H2]. injection H1 as ->. injection H2 as ->. reflexivity.
      * change (nth_error (combine (a :: b :: l) (tl (a :: b :: l))) (S i))
          with (nth_error (combine (b :: l) (tl (b :: l))) i).
        rewrite IH. reflexivity.
Qed.

Lemma is_chain_valid_positions (self : DocumentBlockchain) :
  is_chain_valid self = Returns true
  <-> forall (i : nat) (cur prev : Block),
        (1 <= i)%nat ->
        nth_error (chain self) i = Some cur ->
        nth_error (chain self) (i - 1) = Some prev ->
        I1 cur /\ I2 prev cur.
Proof.
  unfold is_chain_valid. rewrite check_links_Forall, Forall_forall. split.
  - intros H i cur prev Hi Hc Hp.
    destruct i as [| i]; [lia |].
    replace (S i - 1)%nat with i in Hp by lia.
    assert (Hn : nth_error (combine (chain self) (tl (chain self))) i = Some (prev, cur))
      by (apply nth_error_neighbours; split; assumption).
    apply nth_error_In in Hn. exact (H _ Hn).
  - intros H [p c] Hin. simpl.
    apply In_nth_error in Hin. destruct Hin as [i Hi].
    apply nth_error_neighbours in Hi. destruct Hi as [Hp Hc].
    apply (H (S i)); [lia | exact Hc |].
    replace (S i - 1)%nat with i by lia. exact Hp.
Qed.

(** C1: [is_chain_valid] returns true exactly when every block at a
    position [i >= 1] has I1 (its stored digest is the digest recomputed
    from index, timestamp, payload, link and nonce) and I2 (its link is the
    digest of the block at [i - 1]). Nothing else is looked at. The result
    does not depend on the difficulty of the ledger: no zero prefix (I3) is
    checked. The genesis block is never the block under check: a chain of
    the genesis block alone is valid whatever that block holds, its digest
    is never recomputed, and in a longer chain the genesis block counts
    only as the link target of position 1 (I2 there), so that it can be
    replaced by any block that stores the same digest. *)
Theorem is_chain_valid_iff (self : DocumentBlockchain) :
  (is_chain_valid self = Returns true
   <-> forall (i : nat) (cur prev : Block),
         (1 <= i)%nat ->
         nth_error (chain self) i = Some cur ->
         nth_error (chain self) (i - 1) = Some prev ->
         I1 cur /\ I2 prev cur)
  /\ (forall (d : Z) (pending : list dict),
        is_chain_valid (mkChain (chain self) d pending) = is_chain_valid self)
  /\ (forall g : Block, is_chain_valid (set_chain self [g]) = Returns true)
  /\ (forall (g g' : Block) (rest : list Block),
        chain self = g :: rest ->
        hash g' = hash g ->
        is_chain_valid (set_chain self (g' :: rest)) = is_chain_valid self).
Proof.
  split; [apply is_chain_valid_positions |].
  split; [reflexivity |].
  split; [reflexivity |].
  intros g g' rest Hc Hh. unfold is_chain_valid, set_chain. cbn [chain]. rewrite Hc.
  destruct rest as [| b rest]; cbn [tl combine check_links]; [reflexivity |].
  rewrite Hh. reflexivity.
Qed.

(** A ledger of difficulty 4 that [is_chain_valid] accepts although no
    digest in it begins with a zero and the digest stored in its genesis
    block is not the digest of that block. *)
Lemma unsealed_chain_is_valid :
  let g := mkBlock 0 "2024-01-01T00:00:20" genesis_data "0" 0 "f00d" in
  let b := constructed 1 "2024-01-01T00:00:30" Run.diploma "f00d" in
  is_chain_valid (mkChain [g; b] 4 []) = Returns true
  /\ calculate_hash g <> Returns (hash g)
  /\ ~ I3 4 g /\ ~ I3 4 b.
Proof.
  cbv zeta. split; [vm_compute; reflexivity |].
  split; [vm_compute; discriminate |].
  split; intros [rest H]; vm_compute in H; discriminate.
Qed.

(** ** Appending *)

Lemma get_latest_block_tip (self : DocumentBlockchain) (front : list Block) (tip : Block) :
  chain self = front ++ [tip] -> get_latest_block self = Returns tip.
Proof.
  intros H. unfold get_latest_block. rewrite H, length_app. simpl.
  replace (List.length front + 1)%nat with (S (List.length front)) by lia.
  rewrite nth_error_app2 by lia. rewrite Nat.sub_diag. reflexivity.
Qed.

Lemma get_latest_block_empty (self : DocumentBlockchain) :
  chain self = [] -> get_latest_block self = Raises IndexError.
Proof. intros H. unfold get_latest_block. rewrite H. reflexivity. Qed.

Lemma neighbours_snoc {A : Type} (front : list A) (tip b : A) :
  combine (front ++ [tip; b]) (tl (front ++ [tip; b]))
  = combine (front ++ [tip]) (tl (front ++ [tip])) ++ [(tip, b)].
Proof.
  induction front as [| a front IH]; [reflexivity |].
  destruct front as [| a' front]; [reflexivity |].
  change (combine ((a :: a' :: front) ++ [tip; b]) (tl ((a :: a' :: front) ++ [tip; b])))
    with ((a, a') :: combine ((a' :: front) ++ [tip; b]) (tl ((a' :: front) ++ [tip; b]))).
  rewrite IH. reflexivity.
Qed.

(** A block that has I1 and is linked to the tip keeps a valid chain valid. *)
Lemma is_chain_valid_snoc (self : DocumentBlockchain) (front : list Block) (tip b : Block) :
  chain self = front ++ [tip] ->
  is_chain_valid self = Returns true ->
  I1 b -> I2 tip b ->
  is_chain_valid (set_chain self (chain self ++ [b])) = Returns true.
Proof.
  intros Hc Hv H1 H2. unfold is_chain_valid in *. simpl. rewrite Hc in *.
  rewrite <- app_assoc. simpl. rewrite neighbours_snoc.
  apply check_links_Forall, Forall_app. split.
  - apply check_links_Forall, Hv.
  - constructor; [split; assumption | constructor].
Qed.

(** What [add_document] has done when it returns. *)
Lemma add_document_returns (fuel : nat) (now : string) (p : dict)
    (self self' : DocumentBlockchain) (r : receipt) :
  add_document fuel now p self = Returns (self', r) ->
  exists (front : list Block) (tip b : Block),
    chain self = front ++ [tip]
    /\ Json.int_fits (Z.of_nat (List.length (chain self))) = true
    /\ Json.fits (JDict p) = true
    /\ mine_block fuel (difficulty self)
         (constructed (Z.of_nat (List.length (chain self))) now p (hash tip)) = Returns b
    /\ self' = set_chain self (chain self ++ [b])
    /\ r = mkReceipt true (index b) (hash b) (timestamp b).
Proof.
  intros H. unfold add_document in H.
  apply bind_returns in H. destruct H as (tip & Htip & H).
  apply bind_returns in H. destruct H as (b0 & Hb0 & H).
  apply bind_returns in H. destruct H as (b & Hb & H).
  injection H as <- <-.
  apply Block_init_returns in Hb0. destruct Hb0 as (-> & Hi & Hp).
  assert (Hcase : chain self = [] \/ chain self <> [])
    by (destruct (chain self); [left; reflexivity | right; discriminate]).
  destruct Hcase as [Hc | Hne].
  - rewrite (get_latest_block_empty self Hc) in Htip. discriminate.
  - destruct (exists_last Hne) as (front & a & Hc).
    rewrite (get_latest_block_tip self front a Hc) in Htip.
    injection Htip as ->. exists front, tip, b. auto 7.
Qed.

(** Every integer of a dict can be converted when those of its values can;
    one that cannot, set at a key, makes the dict one that cannot. *)
Lemma fits_dict_set (k : string) (v : json) (d : dict) :
  Json.fits v = false -> Json.fits (JDict (dict_set k v d)) = false.
Proof.
  intros Hv. induction d as [| [k' x] d IH]; cbn [dict_set].
  - cbn [Json.fits forallb]. rewrite Hv. reflexivity.
  - destruct (String.eqb k' k).
    + cbn [Json.fits forallb]. rewrite Hv. reflexivity.
    + cbn [Json.fits forallb] in *. rewrite IH. apply andb_false_r.
Qed.

Lemma oversized_diploma_unfit : Json.fits (JDict Run.oversized_diploma) = false.
Proof. apply fits_dict_set. exact int_limit_unfit. Qed.

(** On a chain that is not empty, a payload with an integer that cannot
    be converted stops [add_document] in the constructor of the block. *)
Lemma add_document_unfit (fuel : nat) (now : string) (p : dict)
    (self : DocumentBlockchain) :
  chain self <> [] ->
  Json.fits (JDict p) = false ->
  add_document fuel now p self = Raises ValueError.
Proof.
  intros Hne Hp. unfold add_document.
  destruct (exists_last Hne) as (front & tip & Hc).
  rewrite (get_latest_block_tip self front tip Hc). cbn [bind].
  rewrite Block_init_outcome, Hp, andb_false_r. reflexivity.
Qed.

(** C6, as stated, fails: on a payload that holds an integer of more than
    4300 digits, here the diploma with the integer 10^4300 as its title,
    [add_document] raises the [ValueError] of [json.dumps] and returns no
    receipt. *)
Lemma add_document_refuses_long_integer :
  chain Run.ledger0 <> []
  /\ add_document 5 "2024-01-01T00:00:30" Run.oversized_diploma Run.ledger0
     = Raises ValueError.
Proof.
  assert (Hne : chain Run.ledger0 <> []) by discriminate.
  split; [exact Hne |].
  exact (add_document_unfit 5 _ _ _ Hne oversized_diploma_unfit).
Qed.

(** C6, amended: on a ledger whose chain is not empty, a call of
    [add_document] that returns has appended exactly one block: its index
    is the length of the chain before the call, its timestamp the reading
    of the clock, its payload the one given, its link the digest of the tip
    before the call; it is sealed at the difficulty of the ledger (the test
    of the sealing loop holds, so for a difficulty [>= 0] the digest begins
    with that many zeros) and its digest is the digest of its fields; the
    receipt carries its index, digest and timestamp. On a payload whose
    integers have at most 4300 digits the call does not raise (as long as
    the length of the chain and the number of nonces tried have at most
    4300 digits too), and it returns, given enough fuel, as soon as some
    nonce seals the new block. On a payload with a longer integer it raises
    [ValueError]. *)
Theorem add_document_appends (fuel : nat) (now : string) (p : dict)
    (self : DocumentBlockchain) :
  chain self <> [] ->
  (forall self' r,
      add_document fuel now p self = Returns (self', r) ->
      exists (front : list Block) (tip b : Block),
        chain self = front ++ [tip]
        /\ chain self' = front ++ [tip; b]
        /\ difficulty self' = difficulty self
        /\ index b = Z.of_nat (List.length (chain self))
        /\ timestamp b = now
        /\ data b = p
        /\ previous_hash b = hash tip
        /\ sealed (difficulty self) b
        /\ (0 <= difficulty self -> I3 (difficulty self) b)
        /\ I1 b
        /\ r = mkReceipt true (index b) (hash b) (timestamp b))
  /\ (Json.fits (JDict p) = true ->
      Json.int_fits (Z.of_nat (List.length (chain self))) = true ->
      Json.int_fits (Z.of_nat fuel) = true ->
      forall e, add_document fuel now p self <> Raises e)
  /\ (forall (front : list Block) (tip b0 bn : Block) (n : nat),
        chain self = front ++ [tip] ->
        Block_init (Z.of_nat (List.length (chain self))) now p (hash tip) = Returns b0 ->
        renumber b0 (Z.of_nat n) = Returns bn ->
        sealed (difficulty self) bn ->
        exists self' r, add_document (S (S n)) now p self = Returns (self', r))
  /\ (Json.fits (JDict p) = false ->
      add_document fuel now p self = Raises ValueError).
Proof.
  intros Hne. split; [| split; [| split]].
  - intros self' r H.
    apply add_document_returns in H.
    destruct H as (front & tip & b & Hc & Hfi & Hfp & Hm & -> & ->).
    pose proof (mine_block_returns _ _ _ _ Hm) as (Hs & Hi & Ht & Hd & Hp & Hn).
    exists front, tip, b. cbn [chain set_chain difficulty constructed index timestamp
      data previous_hash set_hash] in *.
    split; [exact Hc |].
    split; [rewrite Hc, <- app_assoc; reflexivity |].
    split; [reflexivity |].
    repeat (split; [assumption |]).
    split; [intros H0; apply sealed_prefix; assumption |].
    split; [| reflexivity].
    destruct Hn as [-> | [Hh _]]; [apply constructed_I1; assumption | exact Hh].
  - intros Hp Hi Hf e H. unfold add_document in H.
    destruct (exists_last Hne) as (front & tip & Hc).
    rewrite (get_latest_block_tip self front tip Hc) in H. cbn [bind] in H.
    rewrite Block_init_outcome, Hi, Hp in H. cbn [andb bind] in H.
    apply bind_raises in H. destruct H as [H | (b & _ & H)]; [| discriminate].
    revert H. apply mine_block_never_raises;
      cbn [constructed index data nonce set_hash]; try assumption; lia.
  - intros front tip b0 bn n Hc Hb0 Hr Hs. unfold add_document.
    rewrite (get_latest_block_tip self front tip Hc). cbn [bind].
    rewrite Hb0. cbn [bind].
    apply Block_init_returns in Hb0. destruct Hb0 as (Hb0 & Hi & Hp).
    assert (Hn0 : nonce b0 = 0) by (rewrite Hb0; reflexivity).
    assert (Hm : exists b', mine_block (S (S n)) (difficulty self) b0 = Returns b').
    { destruct n as [| n].
      - cbn [mine_block].
        assert (Hbn : bn = b0).
        { apply renumber_returns in Hr. destruct Hr as (-> & _).
          rewrite Hb0. reflexivity. }
        subst bn. red in Hs. apply String.eqb_eq in Hs. rewrite Hs.
        eexists; reflexivity.
      - destruct (mine_block_finds (difficulty self) n b0 bn) as [b' Hm];
          [lia | rewrite Hn0; exact Hr | exact Hs |].
        exists b'. apply (mine_block_more_fuel _ _ _ _ 1%nat) in Hm.
        replace (S (S n) + 1)%nat with (S (S (S n))) in Hm by lia. exact Hm. }
    destruct Hm as [b' Hm]. rewrite Hm. cbn [bind]. eauto.
  - apply add_document_unfit, Hne.
Qed.

Lemma add_document_appends_witness :
  chain Run.ledger0 <> []
  /\ (exists (front : list Block) (tip b : Block),
        chain Run.ledger0 = front ++ [tip]
        /\ chain Run.ledger1 = front ++ [tip; b]
        /\ difficulty Run.ledger1 = difficulty Run.ledger0
        /\ index b = Z.of_nat (List.length (chain Run.ledger0))
        /\ timestamp b = "2024-01-01T00:00:30"
        /\ data b = Run.diploma
        /\ previous_hash b = hash tip
        /\ sealed (difficulty Run.ledger0) b
        /\ (0 <= difficulty Run.ledger0 -> I3 (difficulty Run.ledger0) b)
        /\ I1 b
        /\ Run.receipt1 = mkReceipt true (index b) (hash b) (timestamp b))
  /\ (forall e, add_document 5 "2024-01-01T00:00:30" Run.diploma Run.ledger0 <> Raises e)
  /\ add_document 5 "2024-01-01T00:00:30" Run.oversized_diploma Run.ledger0
     = Raises ValueError.
Proof.
  assert (Hne : chain Run.ledger0 <> []) by discriminate.
  pose proof (add_document_appends 5 "2024-01-01T00:00:30" Run.diploma Run.ledger0 Hne)
    as (Hret & Hno & _).
  split; [exact Hne |].
  split; [exact (Hret _ _ run_append) |].
  split; [apply Hno; reflexivity |].
  apply (proj2 (proj2 (proj2 (add_document_appends 5 "2024-01-01T00:00:30"
                                Run.oversized_diploma Run.ledger0 Hne)))).
  exact oversized_diploma_unfit.
Defined.

Lemma built_valid (self : DocumentBlockchain) :
  built self -> is_chain_valid self = Returns true.
Proof.
  induction 1 as [fuel d now self H | fuel now p self self' r Hb IH H].
  - unfold DocumentBlockchain_init, create_genesis_block in H.
    apply bind_returns in H. destruct H as (g0 & _ & H).
    apply bind_returns in H. destruct H as (g & _ & H).
    injection H as <-. reflexivity.
  - apply add_document_returns in H.
    destruct H as (front & tip & b & Hc & Hfi & Hfp & Hm & -> & _).
    pose proof (mine_block_returns _ _ _ _ Hm) as (_ & _ & _ & _ & Hp & Hn).
    apply (is_chain_valid_snoc self front tip b Hc IH).
    + destruct Hn as [-> | [Hh _]]; [apply constructed_I1; assumption | exact Hh].
    + exact Hp.
Qed.

(** A run that got through a sequence of documents got through every
    prefix of it, and the ledger it held then is one of a run. *)
Lemma add_documents_prefix (fuel : nat) (documents1 documents2 : list (string * dict)) :
  forall self self' : DocumentBlockchain,
    built self ->
    add_documents fuel (documents1 ++ documents2) self = Returns self' ->
    exists mid, add_documents fuel documents1 self = Returns mid /\ built mid.
Proof.
  induction documents1 as [| [now p] documents1 IH]; intros self self' Hb H.
  - exists self. split; [reflexivity | exact Hb].
  - cbn [app add_documents] in *.
    apply bind_returns in H. destruct H as ([next r] & Ha & H).
    rewrite Ha. cbn [bind fst] in *.
    apply (IH next self'); [| exact H].
    exact (built_append _ _ _ _ _ _ Hb Ha).
Qed.

(** C4: every ledger of a run, the fresh one with its mined genesis block
    and the one after each [add_document], is accepted by [is_chain_valid];
    so, for every sequence of payloads, is the ledger held after each
    append of a run through the sequence. *)
Theorem built_is_chain_valid :
  (forall self : DocumentBlockchain, built self -> is_chain_valid self = Returns true)
  /\ (forall (fuel : nat) (difficulty : Z) (now : string)
             (documents1 documents2 : list (string * dict))
             (fresh self' : DocumentBlockchain),
         DocumentBlockchain_init fuel difficulty now = Returns fresh ->
         add_documents fuel (documents1 ++ documents2) fresh = Returns self' ->
         exists mid,
           add_documents fuel documents1 fresh = Returns mid
           /\ is_chain_valid mid = Returns true).
Proof.
  split; [exact built_valid |].
  intros fuel d now documents1 documents2 fresh self' Hf H.
  destruct (add_documents_prefix fuel documents1 documents2 fresh self'
              (built_fresh _ _ _ _ Hf) H) as (mid & Hm & Hb).
  exists mid. split; [exact Hm | exact (built_valid mid Hb)].
Qed.

Lemma built_is_chain_valid_witness :
  DocumentBlockchain_init 5 1 "2024-01-01T00:00:20" = Returns Run.ledger0
  /\ add_documents 5 ([("2024-01-01T00:00:30", Run.diploma)] ++ []) Run.ledger0
     = Returns Run.ledger1
  /\ exists mid,
       add_documents 5 [("2024-01-01T00:00:30", Run.diploma)] Run.ledger0 = Returns mid
       /\ is_chain_valid mid = Returns true.
Proof.
  assert (Ha : add_documents 5 ([("2024-01-01T00:00:30", Run.diploma)] ++ []) Run.ledger0
               = Returns Run.ledger1).
  { cbn [app add_documents]. rewrite run_append. reflexivity. }
  split; [exact run_fresh |]. split; [exact Ha |].
  exact (proj2 built_is_chain_valid 5%nat 1 "2024-01-01T00:00:20"
           [("2024-01-01T00:00:30", Run.diploma)] [] Run.ledger0 Run.ledger1
           run_fresh Ha).
Defined.

(** ** Lookup *)

Lemma has_document_hash_iff (b : Block) (h : string) :
  has_document_hash b h = true
  <-> Json.get "document_hash" (data b) = Some (JStr h).
Proof.
  unfold has_document_hash.
  destruct (Json.get "document_hash" (data b)) as [[| | | s | |] |];
    try (split; [discriminate | intros H; discriminate H]).
  rewrite String.eqb_eq. split; [intros -> | intros H; injection H as ->]; reflexivity.
Qed.

Lemma verify_loop_first (h : string) (l : list Block) :
  match verify_loop l h with
  | Some v =>
      exists (i : nat) (b : Block),
        nth_error l i = Some b
        /\ has_document_hash b h = true
        /\ v = mkVerification true (index b) (timestamp b) (data b)
        /\ forall (j : nat) (x : Block),
             (j < i)%nat -> nth_error l j = Some x -> has_document_hash x h = false
  | None =>
      forall (j : nat) (x : Block), nth_error l j = Some x -> has_document_hash x h = false
  end.
Proof.
  induction l as [| a l IH]; simpl.
  - intros [| j] x H; discriminate.
  - destruct (has_document_hash a h) eqn:E.
    + exists 0%nat, a. repeat split; auto. intros j x Hj. lia.
    + destruct (verify_loop l h) as [v |].
      * destruct IH as (i & b & Hn & Hh & Hv & Hfirst).
        exists (S i), b. repeat split; auto.
        intros [| j] x Hj Hx; simpl in Hx.
        -- injection Hx as <-. exact E.
        -- apply (Hfirst j); [lia | exact Hx].
      * intros [| j] x Hx; simpl in Hx.
        -- injection Hx as <-. exact E.
        -- exact (IH j x Hx).
Qed.

Lemma nth_error_tl {A : Type} (l : list A) (i : nat) :
  nth_error (tl l) i = nth_error l (S i).
Proof. destruct l; [destruct i |]; reflexivity. Qed.

(** C9: [verify_document] goes through the chain from position 1 on, in
    chain order, and returns index, timestamp and payload of the first
    block whose payload has [document_hash] equal to the string asked for;
    when no block after the genesis block has it, the result is [None].
    Nothing is raised, and the call gives no new ledger: the chain is the
    one it was. *)
Theorem verify_document_first_match (self : DocumentBlockchain) (h : string) :
  match verify_document self h with
  | Some v =>
      exists (i : nat) (b : Block),
        (1 <= i)%nat
        /\ nth_error (chain self) i = Some b
        /\ Json.get "document_hash" (data b) = Some (JStr h)
        /\ v = mkVerification true (index b) (timestamp b) (data b)
        /\ forall (j : nat) (x : Block),
             (1 <= j < i)%nat ->
             nth_error (chain self) j = Some x ->
             Json.get "document_hash" (data x) <> Some (JStr h)
  | None =>
      forall (j : nat) (x : Block),
        (1 <= j)%nat ->
        nth_error (chain self) j = Some x ->
        Json.get "document_hash" (data x) <> Some (JStr h)
  end.
Proof.
  unfold verify_document.
  pose proof (verify_loop_first h (tl (chain self))) as H.
  destruct (verify_loop (tl (chain self)) h) as [v |].
  - destruct H as (i & b & Hn & Hh & Hv & Hfirst).
    exists (S i), b. rewrite nth_error_tl in Hn.
    split; [lia |]. split; [exact Hn |].
    split; [apply has_document_hash_iff, Hh |]. split; [exact Hv |].
    intros [| j] x Hj Hx; [lia |].
    rewrite <- nth_error_tl in Hx.
    intros Hget. apply has_document_hash_iff in Hget.
    rewrite (Hfirst j x) in Hget; [discriminate | lia | exact Hx].
  - intros [| j] x Hj Hx; [lia |].
    rewrite <- nth_error_tl in Hx.
    intros Hget. apply has_document_hash_iff in Hget.
    rewrite (H j x Hx) in Hget. discriminate.
Qed.

(** The scenario of the specification: found at block 1, and a genesis
    block is not looked at even when its payload carries the hash. *)
Lemma verify_document_scenario :
  verify_document Run.ledger1 "deadbeef"
  = Some (mkVerification true 1 "2024-01-01T00:00:30" Run.diploma)
  /\ verify_document Run.ledger1 "abc" = None
  /\ verify_document Run.ledger0 "abc" = None
  /\ verify_document (mkChain [Run.block1] 1 []) "deadbeef" = None.
Proof. repeat split. Qed.

(** ** The persisted ledger *)

(** A record holds the integers [calculate_hash] converts. *)
Lemma fits_to_dict (b : Block) :
  Json.fits (JDict (to_dict b)) = Json.fits (hashed_fields b).
Proof.
  rewrite fits_hashed_fields. unfold to_dict.
  cbn [Json.fits forallb andb]. rewrite !andb_true_r. reflexivity.
Qed.

Lemma fits_records (blocks : list Block) :
  Json.fits (JList (map (fun b => JDict (to_dict b)) blocks)) = true
  <-> Forall (fun b => Json.fits (JDict (to_dict b)) = true) blocks.
Proof.
  change (Json.fits (JList (map (fun b => JDict (to_dict b)) blocks)))
    with (forallb Json.fits (map (fun b => JDict (to_dict b)) blocks)).
  rewrite forallb_forall, Forall_forall. split.
  - intros H b Hb. apply H, in_map_iff. exists b. split; [reflexivity | exact Hb].
  - intros H v Hv. apply in_map_iff in Hv. destruct Hv as (b & <- & Hb). exact (H b Hb).
Qed.

Lemma fits_app (l m : list json) :
  Json.fits (JList (l ++ m)) = Json.fits (JList l) && Json.fits (JList m).
Proof. cbn [Json.fits]. apply forallb_app. Qed.

(** A block that has I1 has a record that can be written. *)
Lemma I1_fits (b : Block) : I1 b -> Json.fits (JDict (to_dict b)) = true.
Proof.
  intros H. apply calculate_hash_returns in H. rewrite fits_to_dict. tauto.
Qed.

Lemma load_block_to_dict (b : Block) :
  Json.fits (JDict (to_dict b)) = true ->
  load_block (JDict (to_dict b)) = Returns b.
Proof.
  rewrite fits_to_dict, fits_hashed_fields. intros H.
  apply andb_true_iff in H. destruct H as [Hi H].
  apply andb_true_iff in H. destruct H as [Hd _].
  destruct b as [i t p ph n h]. cbn [index data] in Hi, Hd.
  unfold load_block, getitem, to_dict.
  cbn [Json.get String.eqb Ascii.eqb Bool.eqb index timestamp data previous_hash nonce
       hash bind as_int as_str as_dict].
  rewrite Block_init_outcome, Hi, Hd. reflexivity.
Qed.

Lemma load_blocks_app (pre : list Block) :
  Forall (fun b => Json.fits (JDict (to_dict b)) = true) pre ->
  forall (rest : list json) (acc : list Block),
    load_blocks (map (fun b => JDict (to_dict b)) pre ++ rest) acc
    = load_blocks rest (acc ++ pre).
Proof.
  induction 1 as [| b pre Hb _ IH]; intros rest acc; cbn [map app load_blocks].
  - rewrite app_nil_r. reflexivity.
  - rewrite (load_block_to_dict b Hb), IH, <- app_assoc. reflexivity.
Qed.

Lemma read_write (fs : filesystem) (filename : string) (v : json) :
  write fs filename v filename = Parsed v.
Proof. unfold write, put_file. rewrite String.eqb_refl. reflexivity. Qed.

(** A file of complete records is read back in full, block for block. *)
Lemma load_from_file_records (self : DocumentBlockchain) (filename : string)
    (fs : filesystem) (blocks : list Block) :
  Json.fits (JList (map (fun b => JDict (to_dict b)) blocks)) = true ->
  fs filename = Parsed (JList (map (fun b => JDict (to_dict b)) blocks)) ->
  load_from_file self filename fs = (Returns true, set_chain self blocks).
Proof.
  intros Hf H. unfold load_from_file. rewrite H, Hf. cbn [iterate].
  pose proof (load_blocks_app blocks (proj1 (fits_records blocks) Hf) [] []) as Hl.
  rewrite app_nil_r in Hl. rewrite Hl. reflexivity.
Qed.

(** [json.load] refuses a file with an integer it cannot convert, and the
    ledger stays as it was. *)
Lemma load_from_file_unfit (self : DocumentBlockchain) (filename : string)
    (fs : filesystem) (v : json) :
  Json.fits v = false ->
  fs filename = Parsed v ->
  load_from_file self filename fs = (Raises ValueError, self).
Proof. intros Hf H. unfold load_from_file. rewrite H, Hf. reflexivity. Qed.

(** [save_to_file] returns when the records can be written, and then the
    file holds them. *)
Lemma save_to_file_fits (self : DocumentBlockchain) (filename : string)
    (fs : filesystem) :
  Json.fits (JList (map (fun b => JDict (to_dict b)) (chain self))) = true ->
  save_to_file self filename fs
  = (Returns tt,
     write fs filename (JList (map (fun b => JDict (to_dict b)) (chain self)))).
Proof. intros H. unfold save_to_file. cbv zeta. rewrite H. reflexivity. Qed.

Lemma save_to_file_returns (self : DocumentBlockchain) (filename : string)
    (fs : filesystem) :
  fst (save_to_file self filename fs) = Returns tt ->
  Json.fits (JList (map (fun b => JDict (to_dict b)) (chain self))) = true.
Proof.
  unfold save_to_file. cbv zeta.
  destruct (Json.fits (JList (map (fun b => JDict (to_dict b)) (chain self))));
    [reflexivity | discriminate].
Qed.

Lemma load_after_save (self0 self : DocumentBlockchain) (filename : string)
    (fs : filesystem) :
  Json.fits (JList (map (fun b => JDict (to_dict b)) (chain self))) = true ->
  load_from_file self0 filename (snd (save_to_file self filename fs))
  = (Returns true, set_chain self0 (chain self)).
Proof.
  intros H. rewrite (save_to_file_fits self filename fs H). cbn [snd].
  apply load_from_file_records; [exact H | apply read_write].
Qed.

(** Every block of a ledger of a run, the genesis block too, has I1. *)
Lemma built_I1 (self : DocumentBlockchain) : built self -> Forall I1 (chain self).
Proof.
  induction 1 as [fuel d now self H | fuel now p self self' r Hb IH H].
  - unfold DocumentBlockchain_init, create_genesis_block in H.
    apply bind_returns in H. destruct H as (g0 & Hg0 & H).
    apply bind_returns in H. destruct H as (g & Hm & H).
    injection H as <-. cbn [chain set_chain app].
    constructor; [| constructor].
    pose proof (mine_block_returns _ _ _ _ Hm) as (_ & _ & _ & _ & _ & Hn).
    destruct Hn as [-> | [Hh _]]; [exact (Block_init_I1 _ _ _ _ _ Hg0) | exact Hh].
  - apply add_document_returns in H.
    destruct H as (front & tip & b & Hc & Hfi & Hfp & Hm & -> & _).
    cbn [chain set_chain]. apply Forall_app. split; [exact IH |].
    constructor; [| constructor].
    pose proof (mine_block_returns _ _ _ _ Hm) as (_ & _ & _ & _ & _ & Hn).
    destruct Hn as [-> | [Hh _]]; [apply constructed_I1; assumption | exact Hh].
Qed.

(** The records of a ledger of a run can be written. *)
Lemma built_fits (self : DocumentBlockchain) :
  built self ->
  Json.fits (JList (map (fun b => JDict (to_dict b)) (chain self))) = true.
Proof.
  intros Hb. apply fits_records.
  eapply Forall_impl; [| exact (built_I1 self Hb)].
  intros b. apply I1_fits.
Qed.

(** C2: for a ledger of a run (the fresh one, or after any number of
    [add_document]), [save_to_file] returns, and [load_from_file] on what it
    wrote returns true and leaves a chain equal to the saved one, every
    block with the same index, timestamp, payload, link, nonce and digest;
    the loader, a ledger of any difficulty, runs no sealing loop (loading
    takes no fuel and stores the persisted nonce and digest as they are),
    and [is_chain_valid] accepts the reloaded ledger. *)
Theorem save_load_round_trip (self self0 : DocumentBlockchain) (filename : string)
    (fs : filesystem) :
  built self ->
  let saved := save_to_file self filename fs in
  let result := load_from_file self0 filename (snd saved) in
  fst saved = Returns tt
  /\ fst result = Returns true
  /\ chain (snd result) = chain self
  /\ map to_dict (chain (snd result)) = map to_dict (chain self)
  /\ difficulty (snd result) = difficulty self0
  /\ is_chain_valid (snd result) = Returns true.
Proof.
  intros Hb saved result. subst saved result.
  pose proof (built_fits self Hb) as Hf.
  rewrite (load_after_save _ _ _ _ Hf), (save_to_file_fits _ _ _ Hf). cbn [fst snd].
  repeat split. exact (built_valid self Hb).
Qed.

Lemma save_load_round_trip_witness :
  built Run.ledger1
  /\ let saved := save_to_file Run.ledger1 "blockchain_data.json" (fun _ => Missing) in
     let result := load_from_file (mkChain [] 4 []) "blockchain_data.json" (snd saved) in
     fst saved = Returns tt
     /\ fst result = Returns true
     /\ chain (snd result) = chain Run.ledger1
     /\ map to_dict (chain (snd result)) = map to_dict (chain Run.ledger1)
     /\ difficulty (snd result) = 4
     /\ is_chain_valid (snd result) = Returns true.
Proof.
  split; [exact run_built1 |].
  exact (save_load_round_trip Run.ledger1 (mkChain [] 4 []) "blockchain_data.json"
           (fun _ => Missing) run_built1).
Defined.

(** C10: on a file that holds the empty JSON array, [load_from_file]
    returns true and leaves the chain empty, with no genesis block at
    position 0; on that ledger [get_latest_block] raises [IndexError], and so
    does [add_document]. *)
Theorem load_empty_array (self : DocumentBlockchain) (filename : string)
    (fs : filesystem) :
  fs filename = Parsed (JList []) ->
  let result := load_from_file self filename fs in
  fst result = Returns true
  /\ chain (snd result) = []
  /\ nth_error (chain (snd result)) 0 = None
  /\ get_latest_block (snd result) = Raises IndexError
  /\ forall fuel now document_data,
       add_document fuel now document_data (snd result) = Raises IndexError.
Proof.
  intros H result. subst result. unfold load_from_file. rewrite H.
  repeat split.
Qed.

Lemma load_empty_array_witness :
  let fs := write (fun _ => Missing) "blockchain_data.json" (JList []) in
  let result := load_from_file Run.ledger1 "blockchain_data.json" fs in
  fs "blockchain_data.json" = Parsed (JList [])
  /\ fst result = Returns true
  /\ chain (snd result) = []
  /\ nth_error (chain (snd result)) 0 = None
  /\ get_latest_block (snd result) = Raises IndexError
  /\ forall fuel now document_data,
       add_document fuel now document_data (snd result) = Raises IndexError.
Proof.
  split; [reflexivity |].
  exact (load_empty_array Run.ledger1 "blockchain_data.json"
           (write (fun _ => Missing) "blockchain_data.json" (JList [])) eq_refl).
Defined.

(** C5, as stated, fails: a file whose records carry digests that are not
    hexadecimal and indices that go down is loaded in full, and
    [load_from_file] returns true. *)
Lemma load_accepts_malformed_records :
  let r1 := JDict [ ("index", JInt 7); ("timestamp", JStr "2024-01-01T00:00:20");
                    ("data", JDict genesis_data); ("previous_hash", JStr "0");
                    ("nonce", JInt 0); ("hash", JStr "not hex") ] in
  let r2 := JDict [ ("index", JInt 3); ("timestamp", JStr "2024-01-01T00:00:30");
                    ("data", JDict Run.diploma); ("previous_hash", JStr "zz");
                    ("nonce", JInt 0); ("hash", JStr "xyz") ] in
  let fs := write (fun _ => Missing) "blockchain_data.json" (JList [r1; r2]) in
  load_from_file Run.ledger0 "blockchain_data.json" fs
  = (Returns true,
     mkChain [ mkBlock 7 "2024-01-01T00:00:20" genesis_data "0" 0 "not hex";
               mkBlock 3 "2024-01-01T00:00:30" Run.diploma "zz" 0 "xyz" ] 1 []).
Proof. vm_compute. reflexivity. Qed.

(** When a record without its [hash] follows a complete one, the call
    raises and the ledger is left with the chain read that far. *)
Lemma load_leaves_chain_read_so_far :
  let r2 := JDict [ ("index", JInt 1); ("timestamp", JStr "2024-01-01T00:00:30");
                    ("data", JDict Run.diploma);
                    ("previous_hash", JStr (hash Run.genesis)); ("nonce", JInt 1) ] in
  let fs := write (fun _ => Missing) "blockchain_data.json"
              (JList [JDict (to_dict Run.genesis); r2]) in
  load_from_file Run.ledger1 "blockchain_data.json" fs
  = (Raises (KeyError "hash"), mkChain [Run.genesis] 1 []).
Proof. vm_compute. reflexivity. Qed.

Lemma load_block_missing_field (b : Block) (k : string) :
  In k record_fields ->
  Json.fits (JDict (dict_del k (to_dict b))) = true ->
  load_block (JDict (dict_del k (to_dict b))) = Raises (KeyError k).
Proof.
  intros H Hf. destruct b as [i t p ph n h]. unfold record_fields in H.
  unfold load_block, getitem, to_dict, dict_del in *.
  cbn [index timestamp data previous_hash nonce hash] in *.
  destruct H as [<- | [<- | [<- | [<- | [<- | [<- | []]]]]]];
    cbn [filter fst negb String.eqb Ascii.eqb Bool.eqb Json.get bind
         as_int as_str as_dict Json.fits forallb andb] in *;
    try reflexivity.
  - apply andb_true_iff in Hf. destruct Hf as [Hi Hf].
    apply andb_true_iff in Hf. destruct Hf as [Hd _].
    change (Json.fits (JDict p) = true) in Hd.
    rewrite Block_init_outcome, Hi, Hd. reflexivity.
  - apply andb_true_iff in Hf. destruct Hf as [Hi Hf].
    apply andb_true_iff in Hf. destruct Hf as [Hd _].
    change (Json.fits (JDict p) = true) in Hd.
    rewrite Block_init_outcome, Hi, Hd. reflexivity.
Qed.

(** C5, amended: in a file that [json.load] reads, a record that lacks one
    of the fields [index], [timestamp], [data], [previous_hash], [nonce],
    [hash] makes [load_from_file] raise [KeyError] for that field: the call
    does not return, neither true nor the false of a missing file. The form
    of the digests and the sequence of the indices are not checked: a file
    of complete records is loaded in full, one block per record in the
    order of the file, with the stored values as they are, and the call
    returns true. *)
Theorem load_from_file_records_or_KeyError (self : DocumentBlockchain)
    (filename : string) (fs : filesystem) :
  (forall (pre : list Block) (b : Block) (k : string) (rest : list json),
      In k record_fields ->
      let chain_data := JList (map (fun x => JDict (to_dict x)) pre
                               ++ JDict (dict_del k (to_dict b)) :: rest) in
      Json.fits chain_data = true ->
      fs filename = Parsed chain_data ->
      fst (load_from_file self filename fs) = Raises (KeyError k))
  /\ (forall blocks : list Block,
        let chain_data := JList (map (fun x => JDict (to_dict x)) blocks) in
        Json.fits chain_data = true ->
        fs filename = Parsed chain_data ->
        load_from_file self filename fs = (Returns true, set_chain self blocks))
  /\ (fs filename = Missing ->
        load_from_file self filename fs = (Returns false, self)).
Proof.
  split; [| split].
  - intros pre b k rest Hk chain_data Hf H. subst chain_data.
    unfold load_from_file. rewrite H, Hf. cbn [iterate].
    rewrite fits_app in Hf. apply andb_true_iff in Hf. destruct Hf as [Hpre Hrest].
    rewrite load_blocks_app by (apply fits_records, Hpre). cbn [load_blocks].
    rewrite (load_block_missing_field b k Hk); [reflexivity |].
    cbn [Json.fits forallb] in Hrest. apply andb_true_iff in Hrest. tauto.
  - intros blocks chain_data Hf H. apply load_from_file_records; assumption.
  - intros H. unfold load_from_file. rewrite H. reflexivity.
Qed.

Lemma load_from_file_records_or_KeyError_witness :
  let chain_data := JList (map (fun x => JDict (to_dict x)) [Run.genesis]
                           ++ JDict (dict_del "nonce" (to_dict Run.block1)) :: []) in
  let fs := write (fun _ => Missing) "blockchain_data.json" chain_data in
  In "nonce" record_fields
  /\ Json.fits chain_data = true
  /\ fst (load_from_file Run.ledger0 "blockchain_data.json" fs) = Raises (KeyError "nonce").
Proof.
  assert (Hk : In "nonce" record_fields) by (simpl; tauto).
  split; [exact Hk |]. split; [reflexivity |].
  exact (proj1 (load_from_file_records_or_KeyError Run.ledger0 "blockchain_data.json" _)
           [Run.genesis] Run.block1 "nonce" [] Hk eq_refl eq_refl).
Defined.

(** ** The canonical serialization *)

Lemma nat_of_ascii_inj (a b : ascii) : nat_of_ascii a = nat_of_ascii b -> a = b.
Proof.
  intros H. rewrite <- (ascii_nat_embedding a), <- (ascii_nat_embedding b), H.
  reflexivity.
Qed.

Lemma ltb_irrefl (s : string) : PyStr.ltb s s = false.
Proof.
  induction s as [| a s IH]; simpl; [reflexivity |].
  rewrite Nat.ltb_irrefl. exact IH.
Qed.

Lemma ltb_trans (s : string) :
  forall t u : string,
    PyStr.ltb s t = true -> PyStr.ltb t u = true -> PyStr.ltb s u = true.
Proof.
  induction s as [| a s IH]; intros [| b t] [| c u]; simpl; try discriminate; auto.
  destruct (Nat.ltb_spec (nat_of_ascii a) (nat_of_ascii b)),
    (Nat.ltb_spec (nat_of_ascii b) (nat_of_ascii a)),
    (Nat.ltb_spec (nat_of_ascii b) (nat_of_ascii c)),
    (Nat.ltb_spec (nat_of_ascii c) (nat_of_ascii b)),
    (Nat.ltb_spec (nat_of_ascii a) (nat_of_ascii c)),
    (Nat.ltb_spec (nat_of_ascii c) (nat_of_ascii a));
    try discriminate; try lia; auto.
  apply IH.
Qed.

Lemma ltb_total (s : string) :
  forall t : string, PyStr.ltb s t = false -> PyStr.ltb t s = false -> s = t.
Proof.
  induction s as [| a s IH]; intros [| b t]; simpl; try discriminate; auto.
  destruct (Nat.ltb_spec (nat_of_ascii a) (nat_of_ascii b)),
    (Nat.ltb_spec (nat_of_ascii b) (nat_of_ascii a));
    try discriminate; try lia.
  intros H1 H2. f_equal; [apply nat_of_ascii_inj; lia | apply IH; assumption].
Qed.

Lemma insert_item_Permutation (x : string * string) (l : list (string * string)) :
  Permutation (Json.insert_item x l) (x :: l).
Proof.
  induction l as [| y l IH]; simpl; [reflexivity |].
  destruct (PyStr.ltb (fst y) (fst x)); [| reflexivity].
  rewrite IH. apply perm_swap.
Qed.

Lemma sort_items_Permutation (l : list (string * string)) :
  Permutation (Json.sort_items l) l.
Proof.
  induction l as [| x l IH]; simpl; [reflexivity |].
  rewrite insert_item_Permutation. constructor. exact IH.
Qed.

Lemma insert_item_sorted (x : string * string) (l : list (string * string)) :
  ~ In (fst x) (map fst l) ->
  StronglySorted by_key l ->
  StronglySorted by_key (Json.insert_item x l).
Proof.
  intros Hx Hs. induction Hs as [| y l Hs IH Hy]; simpl.
  - constructor; constructor.
  - simpl in Hx. destruct (PyStr.ltb (fst y) (fst x)) eqn:E.
    + constructor; [apply IH; tauto |].
      rewrite Forall_forall. intros z Hz.
      apply (Permutation_in _ (insert_item_Permutation x l)) in Hz.
      destruct Hz as [<- | Hz]; [exact E |].
      rewrite Forall_forall in Hy. exact (Hy z Hz).
    + assert (Hxy : by_key x y).
      { unfold by_key. destruct (PyStr.ltb (fst x) (fst y)) eqn:E'; [reflexivity |].
        exfalso. apply Hx. left. symmetry. apply ltb_total; assumption. }
      constructor; [constructor; assumption |].
      constructor; [exact Hxy |].
      rewrite Forall_forall in *. intros z Hz.
      eapply ltb_trans; [exact Hxy | exact (Hy z Hz)].
Qed.

Lemma sort_items_sorted (l : list (string * string)) :
  NoDup (map fst l) -> StronglySorted by_key (Json.sort_items l).
Proof.
  induction l as [| x l IH]; simpl; intros Hn; [constructor |].
  inversion Hn as [| ? ? Hx Hn']; subst.
  apply insert_item_sorted; [| apply IH, Hn'].
  intros Hin. apply Hx.
  apply (Permutation_in _ (Permutation_map fst (sort_items_Permutation l))), Hin.
Qed.

(** There is one way to put items with distinct keys in order. *)
Lemma sorted_unique (l : list (string * string)) :
  forall l' : list (string * string),
    StronglySorted by_key l -> StronglySorted by_key l' ->
    Permutation l l' -> l = l'.
Proof.
  induction l as [| x l IH]; intros l' Hs Hs' Hp.
  - apply Permutation_nil in Hp. subst. reflexivity.
  - destruct l' as [| y l'].
    + apply Permutation_sym, Permutation_nil in Hp. discriminate.
    + inversion Hs as [| ? ? Hsl Hx]; inversion Hs' as [| ? ? Hsl' Hy]; subst.
      rewrite Forall_forall in Hx, Hy.
      assert (Hxy : x = y).
      { assert (Hin : In x (y :: l')) by (apply (Permutation_in _ Hp); left; reflexivity).
        assert (Hin' : In y (x :: l))
          by (apply (Permutation_in _ (Permutation_sym Hp)); left; reflexivity).
        destruct Hin as [-> | Hin]; [reflexivity |].
        destruct Hin' as [-> | Hin']; [reflexivity |].
        pose proof (ltb_trans _ _ _ (Hx y Hin') (Hy x Hin)) as Hc.
        rewrite ltb_irrefl in Hc. discriminate. }
      subst y. f_equal. apply IH; try assumption.
      exact (Permutation_cons_inv Hp).
Qed.

(** [sorted(items)] does not depend on the order of insertion. *)
Lemma sort_items_order_free (l l' : list (string * string)) :
  NoDup (map fst l) -> Permutation l l' -> Json.sort_items l = Json.sort_items l'.
Proof.
  intros Hn Hp. apply sorted_unique.
  - apply sort_items_sorted, Hn.
  - apply sort_items_sorted.
    exact (Permutation_NoDup (Permutation_map fst Hp) Hn).
  - rewrite (sort_items_Permutation l), Hp, (sort_items_Permutation l'). reflexivity.
Qed.

Lemma nodupb_NoDup (l : list string) : nodupb l = true -> NoDup l.
Proof.
  induction l as [| k l IH]; simpl; intros H; [constructor |].
  apply andb_true_iff in H. destruct H as [Hk Hl].
  constructor; [| apply IH, Hl].
  intros Hin. apply negb_true_iff in Hk.
  assert (He : existsb (String.eqb k) l = true)
    by (apply existsb_exists; exists k; split; [exact Hin | apply String.eqb_refl]).
  rewrite He in Hk. discriminate.
Qed.

Lemma get_In (k : string) (d : dict) (x : json) :
  Json.get k d = Some x -> In (k, x) d.
Proof.
  induction d as [| [k' y] d IH]; simpl; [discriminate |].
  destruct (String.eqb k' k) eqn:E.
  - apply String.eqb_eq in E. subst. intros H. injection H as ->. left. reflexivity.
  - intros H. right. apply IH, H.
Qed.

(** Induction on a value, with the property for every value below it. *)
Lemma json_induction (P : json -> Prop) :
  P JNull ->
  (forall b, P (JBool b)) ->
  (forall z, P (JInt z)) ->
  (forall s, P (JStr s)) ->
  (forall l, Forall P l -> P (JList l)) ->
  (forall d, Forall (fun kv => P (snd kv)) d -> P (JDict d)) ->
  forall v, P v.
Proof.
  intros Hnull Hbool Hint Hstr Hlist Hdict.
  fix IH 1. intros [| b | z | s | l | d].
  - exact Hnull.
  - apply Hbool.
  - apply Hint.
  - apply Hstr.
  - apply Hlist. induction l as [| x l IHl]; constructor; [apply IH | exact IHl].
  - apply Hdict. induction d as [| [k x] d IHd]; constructor; [apply IH | exact IHd].
Qed.


Lemma map_fst_encoded (d : dict) :
  map fst (map (fun kv : string * json => match kv with (k, x) => (k, Json.text x) end) d)
  = map fst d.
Proof.
  induction d as [| [k x] d IH]; simpl; [reflexivity |]. rewrite IH. reflexivity.
Qed.

Lemma text_dict (d : dict) :
  Json.text (JDict d)
  = ("{" ++ PyStr.join ", "
             (map Json.encode_item
                (Json.sort_items
                   (map (fun kv : string * json =>
                           match kv with (k, x) => (k, Json.text x) end) d)))
         ++ "}")%string.
Proof. reflexivity. Qed.

Lemma text_list (l : list json) :
  Json.text (JList l) = ("[" ++ PyStr.join ", " (map Json.text l) ++ "]")%string.
Proof. reflexivity. Qed.

Lemma well_formed_dict (d : dict) :
  well_formed (JDict d) = true ->
  NoDup (map fst d) /\ forall k x, In (k, x) d -> well_formed x = true.
Proof.
  simpl. intros H. apply andb_true_iff in H. destruct H as [Hn Hf].
  split; [apply nodupb_NoDup, Hn |].
  intros k x Hin. rewrite forallb_forall in Hf. exact (Hf (k, x) Hin).
Qed.

Lemma forallb_Permutation {A : Type} (f : A -> bool) (l l' : list A) :
  Permutation l l' -> forallb f l = forallb f l'.
Proof.
  induction 1 as [| x l l' _ IH | x y l | l l' l'' _ IH1 _ IH2]; cbn [forallb].
  - reflexivity.
  - rewrite IH. reflexivity.
  - rewrite !andb_assoc, (andb_comm (f y) (f x)). reflexivity.
  - rewrite IH1. exact IH2.
Qed.

(** Equal dicts have, item for item in some order, equal texts and the same
    answer on whether their integers can be converted. *)
Lemma items_Permutation (d e : dict) (enc : json -> string * bool) :
  NoDup (map fst d) ->
  List.length d = List.length e ->
  (forall k x, In (k, x) d -> exists y, In (k, y) e /\ enc x = enc y) ->
  Permutation (map (fun kv : string * json => (fst kv, enc (snd kv))) d)
              (map (fun kv : string * json => (fst kv, enc (snd kv))) e).
Proof.
  intros Hnd Hlen Hall. apply NoDup_Permutation_bis.
  - apply (NoDup_map_inv fst). rewrite map_map. cbn [fst]. exact Hnd.
  - rewrite !length_map. lia.
  - intros ks Hin. apply in_map_iff in Hin.
    destruct Hin as ([k x] & <- & Hin). cbn [fst snd].
    destruct (Hall k x Hin) as (y & Hy & Hxy). rewrite Hxy.
    apply in_map_iff. exists (k, y). split; [reflexivity | exact Hy].
Qed.

Lemma forallb_fits_items (l : dict) :
  forallb (fun kv : string * json => match kv with (_, x) => Json.fits x end) l
  = forallb (fun t : string * (string * bool) => snd (snd t))
      (map (fun kv : string * json => (fst kv, (Json.text (snd kv), Json.fits (snd kv))))
         l).
Proof.
  induction l as [| [k x] l IH]; cbn [forallb map fst snd]; [reflexivity |].
  rewrite IH. reflexivity.
Qed.

(** Equal values have one serialization, and the integers of the one can be
    converted when those of the other can. *)
Lemma json_eqb_serialized (v : json) :
  forall w : json,
    well_formed v = true -> well_formed w = true ->
    json_eqb v w = true ->
    Json.text v = Json.text w /\ Json.fits v = Json.fits w.
Proof.
  induction v as [| a | z | s | l IH | d IH] using json_induction;
    intros [| b | z' | s' | m | e] Hv Hw He; simpl in He; try discriminate.
  - split; reflexivity.
  - apply Bool.eqb_prop in He. subst. split; reflexivity.
  - apply Z.eqb_eq in He. subst. split; reflexivity.
  - apply String.eqb_eq in He. subst. split; reflexivity.
  - enough (Hmap : map Json.text l = map Json.text m
                   /\ forallb Json.fits l = forallb Json.fits m).
    { destruct Hmap as [Ht Hf]. split; [rewrite !text_list, Ht; reflexivity | exact Hf]. }
    simpl in Hv, Hw. revert m Hw He.
    induction IH as [| x l Hx _ IHl]; intros [| y m] Hw He; try discriminate;
      [split; reflexivity |].
    simpl in Hv, Hw. apply andb_true_iff in Hv, Hw, He.
    destruct Hv as [Hvx Hvl], Hw as [Hwy Hwm], He as [Hxy Hlm].
    destruct (Hx y Hvx Hwy Hxy) as [Htx Hfx].
    destruct (IHl Hvl m Hwm Hlm) as [Htl Hfl].
    cbn [map forallb]. rewrite Htx, Hfx, Htl, Hfl. split; reflexivity.
  - apply andb_true_iff in He. destruct He as [Hlen Hall].
    apply Nat.eqb_eq in Hlen. rewrite forallb_forall in Hall.
    apply well_formed_dict in Hv, Hw.
    destruct Hv as [Hnd Hwd], Hw as [Hne Hwe].
    rewrite Forall_forall in IH.
    assert (Heach : forall k x, In (k, x) d ->
              exists y, In (k, y) e
                        /\ (Json.text x, Json.fits x) = (Json.text y, Json.fits y)).
    { intros k x Hin. specialize (Hall (k, x) Hin). cbn in Hall.
      destruct (Json.get k e) as [y |] eqn:Hg; [| discriminate].
      apply get_In in Hg. exists y. split; [exact Hg |].
      destruct (IH (k, x) Hin y (Hwd k x Hin) (Hwe k y Hg) Hall) as [Ht Hf].
      cbn [snd] in Ht, Hf. rewrite Ht, Hf. reflexivity. }
    pose proof (items_Permutation d e (fun x => (Json.text x, Json.fits x))
                  Hnd Hlen Heach) as Hperm.
    split.
    + rewrite !text_dict.
      enough (Hsort : Json.sort_items
                        (map (fun kv : string * json =>
                                match kv with (k, x) => (k, Json.text x) end) d)
                      = Json.sort_items
                          (map (fun kv : string * json =>
                                  match kv with (k, x) => (k, Json.text x) end) e))
        by (rewrite Hsort; reflexivity).
      apply sort_items_order_free; [rewrite map_fst_encoded; exact Hnd |].
      apply (Permutation_map (fun t : string * (string * bool) => (fst t, fst (snd t))))
        in Hperm.
      rewrite !map_map in Hperm. cbn [fst snd] in Hperm.
      assert (Hm : forall l : dict,
                map (fun kv : string * json =>
                       match kv with (k, x) => (k, Json.text x) end) l
                = map (fun kv : string * json => (fst kv, Json.text (snd kv))) l)
        by (intros l0; apply map_ext; intros [k x]; reflexivity).
      rewrite !Hm. exact Hperm.
    + cbn [Json.fits]. rewrite !forallb_fits_items.
      apply forallb_Permutation, Hperm.
Qed.

Lemma text_hashed_fields (b : Block) :
  Json.text (hashed_fields b)
  = ("{" ++ PyStr.join ", "
             (map Json.encode_item
                (Json.sort_items
                   [ ("index", Json.decimal (index b));
                     ("timestamp", Json.encode_string (timestamp b));
                     ("data", Json.text (JDict (data b)));
                     ("previous_hash", Json.encode_string (previous_hash b));
                     ("nonce", Json.decimal (nonce b)) ]))
         ++ "}")%string.
Proof. reflexivity. Qed.

(** ** The serialization is ASCII text

    [json.dumps] escapes what is not printable ASCII, so the bytes hashed by
    [calculate_hash] are the characters of the text. *)

Lemma ascii_only_app (s t : string) :
  ascii_only (s ++ t) = ascii_only s && ascii_only t.
Proof.
  induction s as [| c s IH]; simpl; [reflexivity |].
  rewrite IH, andb_assoc. reflexivity.
Qed.

Lemma escape_char_ascii (c : ascii) : ascii_only (Json.escape_char c) = true.
Proof. destruct c as [[] [] [] [] [] [] [] []]; reflexivity. Qed.

Lemma encode_string_ascii (s : string) : ascii_only (Json.encode_string s) = true.
Proof.
  unfold Json.encode_string. cbn [ascii_only].
  rewrite ascii_only_app. simpl. rewrite andb_true_r.
  induction s as [| c s IH]; simpl; [reflexivity |].
  rewrite ascii_only_app, escape_char_ascii, IH. reflexivity.
Qed.

Lemma decimal_ascii (z : Z) : ascii_only (Json.decimal z) = true.
Proof.
  assert (Hu : forall d, ascii_only (NilEmpty.string_of_uint d) = true)
    by (induction d; simpl; auto).
  assert (Hz : forall d, ascii_only (NilZero.string_of_uint d) = true)
    by (intros []; simpl; auto; apply Hu).
  unfold Json.decimal, NilZero.string_of_int.
  destruct (Z.to_int z); simpl; apply Hz.
Qed.

Lemma join_ascii (sep : string) (l : list string) :
  ascii_only sep = true ->
  Forall (fun s => ascii_only s = true) l ->
  ascii_only (PyStr.join sep l) = true.
Proof.
  intros Hsep Hl. induction Hl as [| s l Hs Hl IH]; [reflexivity |].
  destruct l as [| t l]; [exact Hs |].
  change (PyStr.join sep (s :: t :: l)) with (s ++ sep ++ PyStr.join sep (t :: l))%string.
  rewrite !ascii_only_app, Hs, Hsep, IH. reflexivity.
Qed.

Lemma text_ascii (v : json) : ascii_only (Json.text v) = true.
Proof.
  induction v as [| [] | z | s | l IH | d IH] using json_induction;
    try reflexivity.
  - apply decimal_ascii.
  - apply encode_string_ascii.
  - rewrite text_list, !ascii_only_app. simpl. rewrite andb_true_r.
    apply join_ascii; [reflexivity |].
    rewrite Forall_forall in *. intros s Hs.
    apply in_map_iff in Hs. destruct Hs as (x & <- & Hx). exact (IH x Hx).
  - rewrite text_dict, !ascii_only_app. simpl. rewrite andb_true_r.
    apply join_ascii; [reflexivity |].
    rewrite Forall_forall in *. intros s Hs.
    apply in_map_iff in Hs. destruct Hs as ([k e] & <- & Hke).
    apply (Permutation_in _ (sort_items_Permutation _)) in Hke.
    apply in_map_iff in Hke. destruct Hke as ([k' x] & Heq & Hx).
    injection Heq as <- <-.
    unfold Json.encode_item. cbn [fst snd].
    rewrite !ascii_only_app, encode_string_ascii. simpl.
    exact (IH (k', x) Hx).
Qed.

Lemma encode_ascii (s : string) :
  ascii_only s = true ->
  PyStr.encode s = map (fun c => Z.of_nat (nat_of_ascii c)) (list_ascii_of_string s).
Proof.
  unfold PyStr.encode. induction s as [| c s IH]; simpl; [reflexivity |].
  intros H. apply andb_true_iff in H. destruct H as [Hc Hs].
  rewrite (IH Hs). unfold PyStr.encode_char.
  apply Nat.ltb_lt in Hc.
  destruct (Z.ltb_spec (Z.of_nat (nat_of_ascii c)) 128); [reflexivity | lia].
Qed.

(** The bytes [calculate_hash] digests are the code points of the text. *)
Lemma calculate_hash_bytes (b : Block) :
  PyStr.encode (Json.text (hashed_fields b))
  = map (fun c => Z.of_nat (nat_of_ascii c))
        (list_ascii_of_string (Json.text (hashed_fields b))).
Proof. apply encode_ascii, text_ascii. Qed.

Lemma encode_e_acute : PyStr.encode (String (ascii_of_nat 233) "") = [195; 169].
Proof. reflexivity. Qed.

(** C8: [calculate_hash] is a function of index, timestamp, payload, link
    and nonce alone. Two blocks that agree on index, timestamp, link and
    nonce and whose payloads are equal as values (the same keys with equal
    values, dicts inside them compared likewise) have the same digest; in
    particular the digest does not change when the items of the payload are
    inserted in another order. The stored digest has no part in it, and the
    block read back from its persisted record has the digest of the block
    that was written. *)
Theorem calculate_hash_canonical :
  (forall b1 b2 : Block,
      well_formed (JDict (data b1)) = true ->
      well_formed (JDict (data b2)) = true ->
      index b1 = index b2 ->
      timestamp b1 = timestamp b2 ->
      json_eqb (JDict (data b1)) (JDict (data b2)) = true ->
      previous_hash b1 = previous_hash b2 ->
      nonce b1 = nonce b2 ->
      calculate_hash b1 = calculate_hash b2)
  /\ (forall (b : Block) (d : dict),
        well_formed (JDict (data b)) = true ->
        Permutation (data b) d ->
        calculate_hash (set_data b d) = calculate_hash b)
  /\ (forall (b : Block) (h : string),
        calculate_hash (set_hash b h) = calculate_hash b)
  /\ (forall (b : Block) (h : string),
        calculate_hash b = Returns h ->
        exists b', load_block (JDict (to_dict b)) = Returns b'
                   /\ calculate_hash b' = Returns h).
Proof.
  split; [| split; [| split]].
  - intros b1 b2 Hw1 Hw2 Hi Ht Hd Hp Hn.
    destruct (json_eqb_serialized _ _ Hw1 Hw2 Hd) as [Htext Hfits].
    rewrite !calculate_hash_outcome, !fits_hashed_fields, Hi, Hn, Hfits.
    unfold digest. rewrite !text_hashed_fields, Hi, Ht, Hp, Hn, Htext. reflexivity.
  - intros b d Hw Hp.
    apply well_formed_dict in Hw. destruct Hw as [Hn _].
    rewrite !calculate_hash_outcome, !fits_hashed_fields.
    cbn [set_data index timestamp data previous_hash nonce].
    assert (Hfits : Json.fits (JDict d) = Json.fits (JDict (data b))).
    { cbn [Json.fits]. symmetry. apply forallb_Permutation, Hp. }
    rewrite Hfits. unfold digest. rewrite !text_hashed_fields, !text_dict.
    cbn [set_data index timestamp data previous_hash nonce].
    rewrite (sort_items_order_free
               (map (fun kv : string * json =>
                       match kv with (k, x) => (k, Json.text x) end) (data b))
               (map (fun kv : string * json =>
                       match kv with (k, x) => (k, Json.text x) end) d)).
    + reflexivity.
    + rewrite map_fst_encoded. exact Hn.
    + apply Permutation_map, Hp.
  - reflexivity.
  - intros b h H. exists b. split; [| exact H].
    apply load_block_to_dict. rewrite fits_to_dict.
    apply calculate_hash_returns in H. tauto.
Qed.

Lemma calculate_hash_canonical_witness :
  calculate_hash (mkBlock 1 "2024-01-01T00:00:30" Run.transcript "0" 5 "")
  = calculate_hash (mkBlock 1 "2024-01-01T00:00:30" Run.transcript_reordered "0" 5 "0").
Proof.
  apply (proj1 calculate_hash_canonical); reflexivity.
Defined.

(** ** The digest is one of 2^256 values *)

Lemma mask32_ok (x : Z) : word_ok (Sha256.mask32 x).
Proof.
  unfold word_ok, Sha256.mask32.
  rewrite Z.land_ones by lia. apply Z.mod_pos_bound. lia.
Qed.

Lemma compress_ok (h : Sha256.state) (block : list Z) :
  state_ok (Sha256.compress h block).
Proof.
  unfold Sha256.compress, state_ok. cbn [Sha256.sa Sha256.sb Sha256.sc Sha256.sd
    Sha256.se Sha256.sf Sha256.sg Sha256.sh].
  repeat split; apply mask32_ok.
Qed.

Lemma blocks_ok (n : nat) :
  forall (h : Sha256.state) (ws : list Z),
    state_ok h -> state_ok (Sha256.blocks n h ws).
Proof.
  induction n as [| n IH]; intros h ws Hh; simpl; [exact Hh |].
  apply IH, compress_ok.
Qed.

Lemma digest_state_ok (msg : list Z) : state_ok (Sha256.digest_state msg).
Proof.
  unfold Sha256.digest_state. apply blocks_ok.
  unfold Sha256.initial, state_ok. cbn [Sha256.sa Sha256.sb Sha256.sc Sha256.sd
    Sha256.se Sha256.sf Sha256.sg Sha256.sh].
  repeat split; apply mask32_ok.
Qed.

Lemma lor_below (n a b : Z) :
  0 < n -> 0 <= a < 2 ^ n -> 0 <= b < 2 ^ n -> 0 <= Z.lor a b < 2 ^ n.
Proof.
  intros Hn Ha Hb. split; [apply Z.lor_nonneg; lia |].
  assert (Hl : forall x, 0 <= x < 2 ^ n -> Z.log2 x < n).
  { intros x Hx. destruct (Z.eq_dec x 0) as [-> | Hx0]; [simpl; lia |].
    apply Z.log2_lt_pow2; lia. }
  destruct (Z.eq_dec (Z.lor a b) 0) as [-> | H0].
  - apply Z.pow_pos_nonneg; lia.
  - assert (Hpos : 0 < Z.lor a b)
      by (assert (0 <= Z.lor a b) by (apply Z.lor_nonneg; lia); lia).
    apply Z.log2_lt_pow2; [exact Hpos |].
    rewrite Z.log2_lor by lia.
    apply Z.max_lub_lt; apply Hl; assumption.
Qed.

Lemma push_word (k acc w : Z) :
  0 <= k -> 0 <= acc < 2 ^ k -> word_ok w ->
  0 <= Z.lor (Z.shiftl acc 32) w < 2 ^ (k + 32).
Proof.
  intros Hk Ha Hw. unfold word_ok in Hw. apply lor_below; [lia | |].
  - rewrite Z.shiftl_mul_pow2 by lia. rewrite Z.pow_add_r by lia.
    split; [apply Z.mul_nonneg_nonneg; lia |].
    apply Z.mul_lt_mono_pos_r; lia.
  - split; [lia |]. apply Z.lt_le_trans with (2 ^ 32); [lia |].
    apply Z.pow_le_mono_r; lia.
Qed.

Lemma digest_Z_below (msg : list Z) : 0 <= Sha256.digest_Z msg < 2 ^ 256.
Proof.
  unfold Sha256.digest_Z. cbv zeta.
  destruct (digest_state_ok msg) as (Ha & Hb & Hc & Hd & He & Hf & Hg & Hh).
  cbn [fold_left].
  change 256 with (0 + 32 + 32 + 32 + 32 + 32 + 32 + 32 + 32).
  repeat (apply push_word; [lia | | assumption]).
  simpl. lia.
Qed.

(** Among [n + 1] numbers below [n], two are equal. *)
Lemma pigeonhole (n : nat) :
  forall f : nat -> Z,
    (forall i, (i <= n)%nat -> 0 <= f i < Z.of_nat n) ->
    exists i j, (i < j <= n)%nat /\ f i = f j.
Proof.
  induction n as [| n IH]; intros f Hf.
  - specialize (Hf 0%nat (Nat.le_refl 0)). simpl in Hf. lia.
  - set (v := f (S n)).
    assert (Hsearch : forall m, (exists i, (i <= m)%nat /\ f i = v)
                                \/ (forall i, (i <= m)%nat -> f i <> v)).
    { induction m as [| m [IHm | IHm]].
      - destruct (Z.eq_dec (f 0%nat) v) as [E | E].
        + left. exists 0%nat. split; [lia | exact E].
        + right. intros i Hi. replace i with 0%nat by lia. exact E.
      - left. destruct IHm as (i & Hi & E). exists i. split; [lia | exact E].
      - destruct (Z.eq_dec (f (S m)) v) as [E | E].
        + left. exists (S m). split; [lia | exact E].
        + right. intros i Hi. destruct (Nat.eq_dec i (S m)) as [-> | Hne];
            [exact E | apply IHm; lia]. }
    destruct (Hsearch n) as [(i & Hi & E) | Hfresh].
    + exists i, (S n). split; [lia | exact E].
    + pose proof (Hf (S n) (Nat.le_refl _)) as Hv. fold v in Hv.
      destruct (IH (fun i => if f i <? v then f i else f i - 1)) as (i & j & Hij & E).
      * intros i Hi. pose proof (Hf i (Nat.le_trans _ _ _ Hi (Nat.le_succ_diag_r n))) as Hfi.
        pose proof (Hfresh i Hi) as Hne.
        destruct (Z.ltb_spec (f i) v); lia.
      * exists i, j. split; [lia |].
        pose proof (Hfresh i ltac:(lia)) as Hi. pose proof (Hfresh j ltac:(lia)) as Hj.
        destruct (Z.ltb_spec (f i) v), (Z.ltb_spec (f j) v); lia.
Qed.

(** A sequence of numbers below a bound takes some value twice among its
    first [bound + 1] items. *)
Lemma bounded_sequence_collides (bound : Z) (f : nat -> Z) :
  (forall i, 0 <= f i < bound) ->
  exists i j, (i < j <= Z.to_nat bound)%nat /\ f i = f j.
Proof.
  intros Hf.
  destruct (pigeonhole (Z.to_nat bound) f) as (i & j & Hij & E).
  - intros i _. specialize (Hf i). rewrite Z2Nat.id by lia. exact Hf.
  - exists i, j. split; [lia | exact E].
Qed.

(** Two of the blocks [numbered_block n], [n] up to 2^256, have the same
    digest. *)
Lemma numbered_blocks_collide :
  exists i j, (i < j <= Z.to_nat (2 ^ 256))%nat
              /\ hash (numbered_block i) = hash (numbered_block j).
Proof.
  destruct (bounded_sequence_collides (2 ^ 256)
              (fun n => Sha256.digest_Z
                          (PyStr.encode (Json.text (hashed_fields (numbered_block n))))))
    as (i & j & Hij & E).
  - intros i. apply digest_Z_below.
  - exists i, j. split; [exact Hij |].
    change (digest (numbered_block i) = digest (numbered_block j)).
    unfold digest, Sha256.hexdigest. rewrite E. reflexivity.
Qed.

Lemma numbered_block_I1 (n : nat) :
  (n <= Z.to_nat (2 ^ 256))%nat -> I1 (numbered_block n).
Proof.
  intros Hn. apply constructed_I1; [reflexivity |].
  cbn [Json.fits forallb]. rewrite andb_true_r. apply int_fits_iff.
  pose proof digests_fit. rewrite Z.abs_eq by lia.
  apply Z.le_lt_trans with (2 ^ 256); [| assumption].
  rewrite <- (Z2Nat.id (2 ^ 256)) by lia. lia.
Qed.

(** ** Tampering *)






(** Not every change of a payload that can be serialized is detected:
    the blocks [numbered_block n], which differ in one field of the payload
    only, are more than the digests, so two of them have one digest, and the
    change from the one to the other passes validation. Which two is not
    known. *)
Lemma some_payload_change_undetected :
  exists (self : DocumentBlockchain) (b : Block) (old new : json),
    is_chain_valid self = Returns true
    /\ nth_error (chain self) 1 = Some b
    /\ Json.get "document_hash" (data b) = Some old
    /\ json_eqb old new = false
    /\ Json.fits new = true
    /\ is_chain_valid (tamper_data self 1 b (dict_set "document_hash" new (data b)))
       = Returns true.
Proof.
  destruct numbered_blocks_collide as (i & j & Hij & E).
  pose proof (numbered_block_I1 i ltac:(lia)) as Hi.
  pose proof (numbered_block_I1 j ltac:(lia)) as Hj.
  exists (mkChain [Run.genesis; numbered_block i] 1 []), (numbered_block i),
    (JInt (Z.of_nat i)), (JInt (Z.of_nat j)).
  split; [| split; [reflexivity | split; [reflexivity | split; [| split]]]].
  - unfold is_chain_valid. apply check_links_Forall.
    constructor; [| constructor]. split; [exact Hi | reflexivity].
  - simpl. apply Z.eqb_neq. lia.
  - apply calculate_hash_returns in Hj. destruct Hj as [_ Hj].
    rewrite fits_hashed_fields in Hj. apply andb_true_iff in Hj. destruct Hj as [_ Hj].
    apply andb_true_iff in Hj. destruct Hj as [Hj _].
    cbn [numbered_block constructed data set_hash Json.fits forallb] in Hj.
    rewrite andb_true_r in Hj. exact Hj.
  - unfold is_chain_valid, tamper_data. apply check_links_Forall.
    constructor; [| constructor]. split; [| reflexivity].
    red. cbn [snd]. red in Hj.
    change (calculate_hash (numbered_block j) = Returns (hash (numbered_block i))).
    rewrite E. exact Hj.
Qed.

Lemma run_valid1 : is_chain_valid Run.ledger1 = Returns true.
Proof. exact (built_valid Run.ledger1 run_built1). Qed.





(** * The rest of the ledger *)

(** ** Records of the listings *)

Lemma get_dict_set (k q : string) (v : json) (d : dict) :
  Json.get q (dict_set k v d) = if String.eqb k q then Some v else Json.get q d.
Proof.
  induction d as [| [k' x] d IH]; simpl.
  - destruct (String.eqb k q); reflexivity.
  - destruct (String.eqb k' k) eqn:E; simpl.
    + apply String.eqb_eq in E. subst k'.
      destruct (String.eqb k q); reflexivity.
    + destruct (String.eqb k' q) eqn:E'.
      * apply String.eqb_eq in E'. subst k'.
        rewrite String.eqb_sym, E. reflexivity.
      * exact IH.
Qed.

Lemma get_absent (q : string) (d : dict) :
  ~ In q (map fst d) -> Json.get q d = None.
Proof.
  induction d as [| [k x] d IH]; simpl; intros H; [reflexivity |].
  destruct (String.eqb k q) eqn:E.
  - apply String.eqb_eq in E. tauto.
  - apply IH. tauto.
Qed.

(** Items set one after the other on a dict: the item of a key is the one
    set, and the one of the dict for the keys that were not set. *)
Lemma get_items_set (q : string) (items : dict) :
  NoDup (map fst items) ->
  forall base : dict,
    Json.get q (fold_left (fun d kv => dict_set (fst kv) (snd kv) d) items base)
    = match Json.get q items with
      | Some v => Some v
      | None => Json.get q base
      end.
Proof.
  induction items as [| [k v] items IH]; intros Hn base; simpl; [reflexivity |].
  inversion Hn as [| ? ? Hk Hn']; subst.
  rewrite (IH Hn'), get_dict_set.
  destruct (String.eqb k q) eqn:E.
  - apply String.eqb_eq in E. subst q. rewrite (get_absent k items Hk). reflexivity.
  - reflexivity.
Qed.

Lemma document_record_lookup (block : Block) (k : string) :
  payload_ok block ->
  Json.get k (document_record block)
  = match Json.get k (data block) with
    | Some v => Some v
    | None =>
        if String.eqb "block_number" k then Some (JInt (index block))
        else if String.eqb "timestamp" k then Some (JStr (timestamp block))
        else None
    end.
Proof.
  intros Hp. apply well_formed_dict in Hp. destruct Hp as [Hn _].
  unfold document_record. rewrite (get_items_set k (data block) Hn). reflexivity.
Qed.

(** X1: in a record of a listing, a key of the payload has the value the
    payload gives it, also when the key is [block_number] or [timestamp]:
    the payload masks the index and the timestamp of the block. The two
    keys give the index and the timestamp of the block when the payload
    does not have them, and the record has no other key. *)
Theorem document_record_get (block : Block) (k : string) :
  payload_ok block ->
  Json.get k (document_record block)
  = match Json.get k (data block) with
    | Some v => Some v
    | None =>
        if String.eqb "block_number" k then Some (JInt (index block))
        else if String.eqb "timestamp" k then Some (JStr (timestamp block))
        else None
    end.
Proof.
  intros Hp. apply well_formed_dict in Hp. destruct Hp as [Hn _].
  unfold document_record. rewrite (get_items_set k (data block) Hn). reflexivity.
Qed.

Lemma document_record_get_witness :
  let block := mkBlock 4 "2024-01-01T00:00:30"
                 [("type", JStr "document"); ("block_number", JInt 1)] "0" 0 "" in
  payload_ok block
  /\ Json.get "block_number" (document_record block) = Some (JInt 1)
  /\ Json.get "timestamp" (document_record block) = Some (JStr "2024-01-01T00:00:30").
Proof.
  assert (Hp : payload_ok (mkBlock 4 "2024-01-01T00:00:30"
                 [("type", JStr "document"); ("block_number", JInt 1)] "0" 0 ""))
    by reflexivity.
  split; [exact Hp |]. split.
  - exact (document_record_get _ "block_number" Hp).
  - exact (document_record_get _ "timestamp" Hp).
Defined.

(** ** The listings *)

Lemma get_all_documents_loop_filter (blocks : list Block) :
  forall documents : list dict,
    get_all_documents_loop blocks documents
    = documents ++ map document_record (filter has_type_document blocks).
Proof.
  induction blocks as [| b blocks IH]; intros documents; simpl.
  - rewrite app_nil_r. reflexivity.
  - destruct (has_type_document b); rewrite IH; [| reflexivity].
    rewrite <- app_assoc. reflexivity.
Qed.

Lemma get_documents_by_recipient_loop_filter (recipient_id : string)
    (blocks : list Block) :
  forall documents : list dict,
    get_documents_by_recipient_loop blocks recipient_id documents
    = documents
      ++ map document_record (filter (fun b => has_recipient_id b recipient_id) blocks).
Proof.
  induction blocks as [| b blocks IH]; intros documents; simpl.
  - rewrite app_nil_r. reflexivity.
  - destruct (has_recipient_id b recipient_id); rewrite IH; [| reflexivity].
    rewrite <- app_assoc. reflexivity.
Qed.

Lemma has_type_document_iff (b : Block) :
  has_type_document b = true <-> Json.get "type" (data b) = Some (JStr "document").
Proof.
  unfold has_type_document.
  destruct (Json.get "type" (data b)) as [[| | | s | |] |];
    try (split; [discriminate | intros H; discriminate H]).
  rewrite String.eqb_eq. split; [intros -> | intros H; injection H as ->]; reflexivity.
Qed.

Lemma has_recipient_id_iff (b : Block) (r : string) :
  has_recipient_id b r = true <-> Json.get "recipient_id" (data b) = Some (JStr r).
Proof.
  unfold has_recipient_id.
  destruct (Json.get "recipient_id" (data b)) as [[| | | s | |] |];
    try (split; [discriminate | intros H; discriminate H]).
  rewrite String.eqb_eq. split; [intros -> | intros H; injection H as ->]; reflexivity.
Qed.

Lemma length_filter_le {A : Type} (f : A -> bool) (l : list A) :
  (List.length (filter f l) <= List.length l)%nat.
Proof.
  induction l as [| a l IH]; simpl; [lia |]. destruct (f a); simpl; lia.
Qed.

(** X2: [get_all_documents] returns, in chain order, one record for each
    block after the genesis block whose payload has [type] equal to
    ["document"], and nothing else: never more records than blocks after
    the genesis block, none for a chain of at most one block, and every
    record it returns has [type] ["document"] when the payloads are
    dicts. *)
Theorem get_all_documents_lists (self : DocumentBlockchain) :
  get_all_documents self
  = map document_record (filter has_type_document (tl (chain self)))
  /\ (List.length (get_all_documents self) <= List.length (chain self) - 1)%nat
  /\ ((List.length (chain self) <= 1)%nat -> get_all_documents self = [])
  /\ (Forall payload_ok (chain self) ->
      forall record, In record (get_all_documents self) ->
                     Json.get "type" record = Some (JStr "document")).
Proof.
  assert (He : get_all_documents self
               = map document_record (filter has_type_document (tl (chain self))))
    by (unfold get_all_documents; apply get_all_documents_loop_filter).
  split; [exact He |]. rewrite He. split; [| split].
  - rewrite length_map.
    pose proof (length_filter_le has_type_document (tl (chain self))) as H.
    destruct (chain self); simpl in *; lia.
  - intros H. destruct (chain self) as [| g [| b rest]]; simpl in *; try reflexivity; lia.
  - intros Hok record Hin. apply in_map_iff in Hin.
    destruct Hin as (b & <- & Hb). apply filter_In in Hb. destruct Hb as [Hb Ht].
    assert (Hpb : payload_ok b).
    { rewrite Forall_forall in Hok. apply Hok.
      destruct (chain self); simpl in *; [contradiction | right; exact Hb]. }
    rewrite (document_record_lookup b "type" Hpb).
    apply has_type_document_iff in Ht. rewrite Ht. reflexivity.
Qed.

(** X3: [get_documents_by_recipient] returns, in chain order, one record
    for each block after the genesis block whose payload has
    [recipient_id] equal to the identifier asked for, whatever the [type]
    of the payload; every record it returns has that [recipient_id] when
    the payloads are dicts. *)
Theorem get_documents_by_recipient_lists (self : DocumentBlockchain)
    (recipient_id : string) :
  get_documents_by_recipient self recipient_id
  = map document_record
      (filter (fun b => has_recipient_id b recipient_id) (tl (chain self)))
  /\ ((List.length (chain self) <= 1)%nat ->
      get_documents_by_recipient self recipient_id = [])
  /\ (Forall payload_ok (chain self) ->
      forall record, In record (get_documents_by_recipient self recipient_id) ->
                     Json.get "recipient_id" record = Some (JStr recipient_id)).
Proof.
  assert (He : get_documents_by_recipient self recipient_id
               = map document_record
                   (filter (fun b => has_recipient_id b recipient_id) (tl (chain self))))
    by (unfold get_documents_by_recipient; apply get_documents_by_recipient_loop_filter).
  split; [exact He |]. rewrite He. split.
  - intros H. destruct (chain self) as [| g [| b rest]]; simpl in *; try reflexivity; lia.
  - intros Hok record Hin. apply in_map_iff in Hin.
    destruct Hin as (b & <- & Hb). apply filter_In in Hb. destruct Hb as [Hb Ht].
    assert (Hpb : payload_ok b).
    { rewrite Forall_forall in Hok. apply Hok.
      destruct (chain self); simpl in *; [contradiction | right; exact Hb]. }
    rewrite (document_record_lookup b "recipient_id" Hpb).
    apply has_recipient_id_iff in Ht. rewrite Ht. reflexivity.
Qed.



Lemma get_all_documents_witness :
  get_all_documents Run.ledger1 = [document_record Run.block1]
  /\ get_documents_by_recipient Run.ledger1 "alice@example.com"
     = [document_record Run.block1]
  /\ Json.get "type" (document_record Run.block1) = Some (JStr "document").
Proof.
  split; [reflexivity |]. split; [reflexivity |].
  apply (proj2 (proj2 (proj2 (get_all_documents_lists Run.ledger1)))).
  - repeat constructor.
  - left. reflexivity.
Defined.

Lemma get_documents_by_recipient_witness :
  Json.get "recipient_id" (document_record Run.block1) = Some (JStr "alice@example.com").
Proof.
  apply (proj2 (proj2 (get_documents_by_recipient_lists Run.ledger1 "alice@example.com"))).
  - repeat constructor.
  - left. reflexivity.
Defined.

(** ** Digests are 64 hexadecimal digits *)

Lemma hex_length (n : nat) (x : Z) : String.length (Sha256.hex n x) = n.
Proof. induction n as [| n IH]; simpl; [reflexivity | rewrite IH; reflexivity]. Qed.

Lemma hex_digit_lower (x : Z) :
  lower_hex_char (Sha256.hex_digit (Z.land x 15)) = true.
Proof.
  assert (H : 0 <= Z.land x 15 < 16).
  { change 15 with (Z.ones 4). rewrite Z.land_ones by lia.
    apply Z.mod_pos_bound. lia. }
  remember (Z.land x 15) as d eqn:Heqd. clear Heqd.
  assert (Hd : d = 0 \/ d = 1 \/ d = 2 \/ d = 3 \/ d = 4 \/ d = 5 \/ d = 6 \/ d = 7
               \/ d = 8 \/ d = 9 \/ d = 10 \/ d = 11 \/ d = 12 \/ d = 13 \/ d = 14
               \/ d = 15) by lia.
  repeat (destruct Hd as [-> | Hd]; [reflexivity |]). subst d. reflexivity.
Qed.

Lemma hex_lower (n : nat) (x : Z) : lower_hex (Sha256.hex n x) = true.
Proof.
  induction n as [| n IH]; simpl; [reflexivity |].
  rewrite hex_digit_lower, IH. reflexivity.
Qed.

Lemma digest_format (b : Block) :
  String.length (digest b) = 64%nat /\ lower_hex (digest b) = true.
Proof.
  unfold digest, Sha256.hexdigest. split; [apply hex_length | apply hex_lower].
Qed.

(** X4: the digest [calculate_hash] returns is a text of 64 lower-case
    hexadecimal digits, for every block; when it does not return, it raises
    [ValueError]. *)
Theorem calculate_hash_format (b : Block) :
  match calculate_hash b with
  | Returns h => String.length h = 64%nat /\ lower_hex h = true
  | Raises e => e = ValueError
  | Running | Untyped => False
  end.
Proof.
  rewrite calculate_hash_outcome.
  destruct (Json.fits (hashed_fields b)); [| reflexivity].
  unfold digest, Sha256.hexdigest. split; [apply hex_length | apply hex_lower].
Qed.

(** ** The search of [mine_block] *)

Lemma mine_block_search (fuel : nat) (d : Z) :
  forall b b' : Block,
    mine_block fuel d b = Returns b' ->
    sealed d b'
    /\ (nonce b' - nonce b < Z.of_nat fuel)
    /\ ((b' = b)
        \/ (nonce b < nonce b'
            /\ renumber b (nonce b') = Returns b'
            /\ ~ sealed d b
            /\ forall k, nonce b < k < nonce b' ->
                         exists bk, renumber b k = Returns bk /\ ~ sealed d bk)).
Proof.
  induction fuel as [| fuel IH]; intros b b' H; [discriminate |].
  cbn [mine_block] in H.
  destruct (String.eqb (PyStr.slice_to (hash b) d) (PyStr.mul "0" d)) eqn:E;
    cbn [negb] in H.
  - injection H as <-. apply String.eqb_eq in E.
    split; [exact E |]. split; [lia | left; reflexivity].
  - apply String.eqb_neq in E.
    apply bind_returns in H. destruct H as (h & Hh & H).
    assert (Hr1 : renumber b (nonce b + 1)
                  = Returns (set_hash (set_nonce b (nonce b + 1)) h))
      by (unfold renumber; cbv zeta; rewrite Hh; reflexivity).
    apply IH in H. destruct H as (Hs & Hf & Hcase).
    cbn [nonce set_hash set_nonce] in Hf, Hcase.
    split; [exact Hs |]. split; [lia |]. right.
    destruct Hcase as [-> | (Hlt & Hb' & Hns & Hk)].
    + cbn [nonce set_hash set_nonce].
      split; [lia |]. split; [exact Hr1 |]. split; [exact E |].
      intros k Hk. lia.
    + split; [lia |].
      split; [rewrite <- (renumber_renumber _ _ _ (nonce b') Hr1); exact Hb' |].
      split; [exact E |].
      intros k Hk'. destruct (Z.eq_dec k (nonce b + 1)) as [-> | Hne].
      * eexists. split; [exact Hr1 | exact Hns].
      * destruct (Hk k ltac:(lia)) as (bk & Hbk & Hnk).
        exists bk. split; [| exact Hnk].
        rewrite <- (renumber_renumber _ _ _ k Hr1). exact Hbk.
Qed.

(** X5: on a block whose digest is the digest of its fields, [mine_block]
    returns the block renumbered with the least nonce, from the nonce on
    entry upwards, whose digest meets the target: no nonce below it does.
    The loop has then tested one digest per nonce tried. *)
Theorem mine_block_least_nonce (fuel : nat) (d : Z) (b b' : Block) :
  I1 b ->
  mine_block fuel d b = Returns b' ->
  nonce b <= nonce b'
  /\ renumber b (nonce b') = Returns b'
  /\ sealed d b'
  /\ (forall k, nonce b <= k < nonce b' ->
                exists bk, renumber b k = Returns bk /\ ~ sealed d bk)
  /\ nonce b' - nonce b < Z.of_nat fuel.
Proof.
  intros Hb H. apply mine_block_search in H. destruct H as (Hs & Hf & Hcase).
  assert (Hself : renumber b (nonce b) = Returns b).
  { unfold renumber. cbv zeta. red in Hb. destruct b as [i t p ph n h].
    cbn [nonce hash] in *. unfold set_nonce. cbn [index timestamp data previous_hash hash].
    rewrite Hb. reflexivity. }
  destruct Hcase as [-> | (Hlt & Hb' & Hns & Hk)].
  - split; [lia |]. split; [exact Hself |]. split; [exact Hs |].
    split; [intros k Hk; lia | exact Hf].
  - split; [lia |]. split; [exact Hb' |]. split; [exact Hs |].
    split; [| exact Hf].
    intros k Hk'. destruct (Z.eq_dec k (nonce b)) as [-> | Hne].
    + exists b. split; [exact Hself | exact Hns].
    + apply Hk. lia.
Qed.

Lemma mine_block_least_nonce_witness :
  let b := constructed 0 "2024-01-01T00:01:09" genesis_data "0" in
  I1 b
  /\ nonce b <= nonce Session.genesis
  /\ renumber b (nonce Session.genesis) = Returns Session.genesis
  /\ sealed 2 Session.genesis
  /\ (forall k, nonce b <= k < nonce Session.genesis ->
                exists bk, renumber b k = Returns bk /\ ~ sealed 2 bk)
  /\ nonce Session.genesis - nonce b < Z.of_nat 3.
Proof.
  assert (Hb : I1 (constructed 0 "2024-01-01T00:01:09" genesis_data "0"))
    by (apply constructed_I1; reflexivity).
  split; [exact Hb |].
  apply (mine_block_least_nonce 3 2 (constructed 0 "2024-01-01T00:01:09" genesis_data "0")).
  - exact Hb.
  - vm_compute. reflexivity.
Defined.

(** ** Difficulties the digest cannot meet *)


Lemma take_length (n : nat) :
  forall s : string, String.length (PyStr.take n s) = Nat.min n (String.length s).
Proof.
  induction n as [| n IH]; intros [| c s]; simpl; try reflexivity.
  rewrite IH. reflexivity.
Qed.







Lemma genesis_constructed (now : string) :
  Block_init 0 now genesis_data "0" = Returns (constructed 0 now genesis_data "0").
Proof. rewrite Block_init_outcome, int_fits_0. reflexivity. Qed.



(** ** What every ledger of a run satisfies *)

Lemma nth_error_snoc {A : Type} (l : list A) (x y : A) (i : nat) :
  nth_error (l ++ [x]) i = Some y ->
  (i < List.length l)%nat /\ nth_error l i = Some y \/ i = List.length l /\ y = x.
Proof.
  intros H. destruct (Nat.lt_ge_cases i (List.length l)) as [Hlt | Hge].
  - left. rewrite nth_error_app1 in H by exact Hlt. split; assumption.
  - right. rewrite nth_error_app2 in H by exact Hge.
    destruct (i - List.length l)%nat as [| n] eqn:E; simpl in H.
    + injection H as <-. split; [lia | reflexivity].
    + destruct n; discriminate.
Qed.

Lemma built_structure (self : DocumentBlockchain) :
  built self ->
  (exists g rest, chain self = g :: rest
                  /\ index g = 0 /\ previous_hash g = "0" /\ data g = genesis_data)
  /\ (forall i b, nth_error (chain self) i = Some b ->
                  index b = Z.of_nat i /\ I1 b /\ sealed (difficulty self) b)
  /\ pending_documents self = [].
Proof.
  induction 1 as [fuel d now self H | fuel now p self self' r Hb IH H].
  - unfold DocumentBlockchain_init, create_genesis_block in H.
    rewrite genesis_constructed in H. cbn [bind] in H.
    apply bind_returns in H. destruct H as (g & Hm & H).
    injection H as <-. cbn [chain set_chain difficulty pending_documents app] in *.
    pose proof (mine_block_returns _ _ _ _ Hm) as (Hs & Hi & _ & Hd & Hp & Hn).
    cbn [constructed index data previous_hash set_hash] in Hi, Hd, Hp.
    split; [exists g, []; repeat split; assumption |].
    split; [| reflexivity].
    intros [| i] b Hnth; simpl in Hnth; [| destruct i; discriminate].
    injection Hnth as <-. repeat split.
    + exact Hi.
    + destruct Hn as [-> | [Hh _]]; [apply constructed_I1; reflexivity | exact Hh].
    + exact Hs.
  - destruct IH as ((g & rest & Hc & Hg) & Hall & Hpend).
    apply add_document_returns in H.
    destruct H as (front & tip & b & Hf & Hfi & Hfp & Hm & -> & _).
    pose proof (mine_block_returns _ _ _ _ Hm) as (Hs & Hi & _ & _ & _ & Hn).
    cbn [constructed index set_hash] in Hi.
    cbn [chain set_chain difficulty pending_documents].
    split; [| split; [| exact Hpend]].
    + exists g, (rest ++ [b]). rewrite Hc. split; [reflexivity | exact Hg].
    + intros i x Hnth. apply nth_error_snoc in Hnth.
      destruct Hnth as [[_ Hnth] | [-> ->]]; [exact (Hall i x Hnth) |].
      repeat split.
      * exact Hi.
      * destruct Hn as [-> | [Hh _]]; [apply constructed_I1; assumption | exact Hh].
      * exact Hs.
Qed.

(** X7: in every ledger of a run the chain begins with the genesis block
    (index 0, link ["0"], the genesis payload), and the index of every
    block is its position in the chain. *)
Theorem built_indices (self : DocumentBlockchain) :
  built self ->
  (exists g rest, chain self = g :: rest
                  /\ index g = 0 /\ previous_hash g = "0" /\ data g = genesis_data)
  /\ forall i b, nth_error (chain self) i = Some b -> index b = Z.of_nat i.
Proof.
  intros Hb. destruct (built_structure self Hb) as (Hg & Hall & _).
  split; [exact Hg |]. intros i b Hnth. exact (proj1 (Hall i b Hnth)).
Qed.

Lemma built_indices_witness :
  built Run.ledger1
  /\ (exists g rest, chain Run.ledger1 = g :: rest
                     /\ index g = 0 /\ previous_hash g = "0" /\ data g = genesis_data)
  /\ forall i b, nth_error (chain Run.ledger1) i = Some b -> index b = Z.of_nat i.
Proof.
  split; [exact run_built1 | exact (built_indices Run.ledger1 run_built1)].
Defined.

(** X8: in every ledger of a run every block, the genesis block included,
    stores the digest of its own fields (I1), a text of 64 lower-case
    hexadecimal digits, and is sealed at the difficulty of the ledger: for
    a difficulty that is not negative the digest begins with that many
    zeros (I3). *)
Theorem built_blocks_sealed (self : DocumentBlockchain) (b : Block) :
  built self ->
  In b (chain self) ->
  I1 b
  /\ String.length (hash b) = 64%nat /\ lower_hex (hash b) = true
  /\ sealed (difficulty self) b
  /\ (0 <= difficulty self -> I3 (difficulty self) b).
Proof.
  intros Hb Hin. apply In_nth_error in Hin. destruct Hin as [i Hi].
  destruct (built_structure self Hb) as (_ & Hall & _).
  destruct (Hall i b Hi) as (_ & H1 & Hs).
  split; [exact H1 |].
  pose proof (calculate_hash_returns _ _ H1) as [Hh _].
  split; [rewrite Hh; apply digest_format |].
  split; [rewrite Hh; apply digest_format |].
  split; [exact Hs |].
  intros Hd. apply sealed_prefix; assumption.
Qed.

Lemma built_blocks_sealed_witness :
  built Run.ledger1 /\ In Run.block1 (chain Run.ledger1)
  /\ I1 Run.block1
  /\ String.length (hash Run.block1) = 64%nat /\ lower_hex (hash Run.block1) = true
  /\ sealed (difficulty Run.ledger1) Run.block1
  /\ (0 <= difficulty Run.ledger1 -> I3 (difficulty Run.ledger1) Run.block1).
Proof.
  assert (Hin : In Run.block1 (chain Run.ledger1)) by (right; left; reflexivity).
  split; [exact run_built1 |]. split; [exact Hin |].
  exact (built_blocks_sealed Run.ledger1 Run.block1 run_built1 Hin).
Defined.

(** ** Appending and the queries *)

Lemma verify_loop_snoc (h : string) (b : Block) (l : list Block) :
  verify_loop (l ++ [b]) h
  = match verify_loop l h with
    | Some v => Some v
    | None =>
        if has_document_hash b h
        then Some (mkVerification true (index b) (timestamp b) (data b))
        else None
    end.
Proof.
  induction l as [| a l IH]; simpl.
  - destruct (has_document_hash b h); reflexivity.
  - destruct (has_document_hash a h); [reflexivity | exact IH].
Qed.

Lemma tl_snoc {A : Type} (l : list A) (x : A) :
  l <> [] -> tl (l ++ [x]) = tl l ++ [x].
Proof. destruct l; [contradiction | reflexivity]. Qed.

(** The block a returning [add_document] has appended. *)
Lemma add_document_block (fuel : nat) (now : string) (p : dict)
    (self self' : DocumentBlockchain) (r : receipt) :
  add_document fuel now p self = Returns (self', r) ->
  exists b : Block,
    chain self <> []
    /\ chain self' = chain self ++ [b]
    /\ index b = Z.of_nat (List.length (chain self))
    /\ timestamp b = now /\ data b = p
    /\ r = mkReceipt true (index b) (hash b) (timestamp b).
Proof.
  intros H. apply add_document_returns in H.
  destruct H as (front & tip & b & Hc & _ & _ & Hm & -> & ->).
  pose proof (mine_block_returns _ _ _ _ Hm) as (_ & Hi & Ht & Hd & _ & _).
  exists b. repeat split; try assumption.
  rewrite Hc. destruct front; discriminate.
Qed.

(** X9: after an [add_document] that returned, [verify_document] answers
    as before for every hash it found before: a document registered twice
    is reported at its first block. A hash it did not find is found at the
    new block, with the block number and timestamp of the receipt and the
    payload given, when the payload has it as [document_hash], and is still
    not found otherwise. *)
Theorem verify_document_after_add (fuel : nat) (now : string) (p : dict)
    (self self' : DocumentBlockchain) (r : receipt) (h : string) :
  add_document fuel now p self = Returns (self', r) ->
  (forall v, verify_document self h = Some v -> verify_document self' h = Some v)
  /\ (verify_document self h = None ->
      Json.get "document_hash" p = Some (JStr h) ->
      verify_document self' h
      = Some (mkVerification true (block_number r) (receipt_timestamp r) p)
      /\ block_number r = Z.of_nat (List.length (chain self)))
  /\ (verify_document self h = None ->
      Json.get "document_hash" p <> Some (JStr h) ->
      verify_document self' h = None).
Proof.
  intros H. apply add_document_block in H.
  destruct H as (b & Hne & Hc & Hi & Ht & Hd & ->).
  unfold verify_document. rewrite Hc, (tl_snoc _ _ Hne), verify_loop_snoc.
  cbn [block_number receipt_timestamp].
  split; [| split].
  - intros v Hv. rewrite Hv. reflexivity.
  - intros Hv Hg. rewrite Hv.
    assert (Hb : has_document_hash b h = true)
      by (apply has_document_hash_iff; rewrite Hd; exact Hg).
    rewrite Hb, Hd. split; [reflexivity | exact Hi].
  - intros Hv Hg. rewrite Hv.
    destruct (has_document_hash b h) eqn:Hb; [| reflexivity].
    apply has_document_hash_iff in Hb. rewrite Hd in Hb. contradiction.
Qed.

Lemma verify_document_after_add_witness :
  add_document 5 "2024-01-01T00:00:30" Run.diploma Run.ledger0
  = Returns (Run.ledger1, Run.receipt1)
  /\ verify_document Run.ledger0 "deadbeef" = None
  /\ verify_document Run.ledger1 "deadbeef"
     = Some (mkVerification true (block_number Run.receipt1)
               (receipt_timestamp Run.receipt1) Run.diploma)
  /\ block_number Run.receipt1 = Z.of_nat (List.length (chain Run.ledger0)).
Proof.
  split; [exact run_append |]. split; [reflexivity |].
  exact (proj1 (proj2 (verify_document_after_add 5 "2024-01-01T00:00:30" Run.diploma
                         Run.ledger0 Run.ledger1 Run.receipt1 "deadbeef" run_append))
           eq_refl eq_refl).
Defined.

(** X10: an [add_document] that returned adds to each listing at most one
    record, at the end, and changes no record that was there: the record of
    the new block is added to [get_all_documents] when the payload has
    [type] ["document"], and to [get_documents_by_recipient] for the
    recipient of the payload, and for no other recipient. *)
Theorem listings_after_add (fuel : nat) (now : string) (p : dict)
    (self self' : DocumentBlockchain) (r : receipt) :
  add_document fuel now p self = Returns (self', r) ->
  exists b : Block,
    chain self' = chain self ++ [b]
    /\ index b = block_number r /\ timestamp b = receipt_timestamp r /\ data b = p
    /\ get_all_documents self'
       = get_all_documents self
         ++ (if has_type_document b then [document_record b] else [])
    /\ forall recipient_id,
         get_documents_by_recipient self' recipient_id
         = get_documents_by_recipient self recipient_id
           ++ (if has_recipient_id b recipient_id then [document_record b] else []).
Proof.
  intros H. apply add_document_block in H.
  destruct H as (b & Hne & Hc & Hi & Ht & Hd & ->).
  exists b. cbn [block_number receipt_timestamp].
  split; [exact Hc |]. repeat (split; [first [reflexivity | assumption] |]).
  split.
  - unfold get_all_documents.
    rewrite !get_all_documents_loop_filter, Hc, (tl_snoc _ _ Hne), filter_app, map_app.
    cbn [app filter]. destruct (has_type_document b); reflexivity.
  - intros recipient_id. unfold get_documents_by_recipient.
    rewrite !get_documents_by_recipient_loop_filter, Hc, (tl_snoc _ _ Hne),
      filter_app, map_app.
    cbn [app filter]. destruct (has_recipient_id b recipient_id); reflexivity.
Qed.

Lemma listings_after_add_witness :
  exists b : Block,
    chain Run.ledger1 = chain Run.ledger0 ++ [b]
    /\ index b = block_number Run.receipt1
    /\ timestamp b = receipt_timestamp Run.receipt1 /\ data b = Run.diploma
    /\ get_all_documents Run.ledger1
       = get_all_documents Run.ledger0
         ++ (if has_type_document b then [document_record b] else [])
    /\ forall recipient_id,
         get_documents_by_recipient Run.ledger1 recipient_id
         = get_documents_by_recipient Run.ledger0 recipient_id
           ++ (if has_recipient_id b recipient_id then [document_record b] else []).
Proof.
  exact (listings_after_add 5 "2024-01-01T00:00:30" Run.diploma
           Run.ledger0 Run.ledger1 Run.receipt1 run_append).
Defined.

(** ** Reading the ledger file *)

(** X11: [load_from_file] takes from a record the six fields of a block and
    nothing else: a dict that gives these six keys the values of the record
    of a block is read as that block, whatever the order of its keys and
    whatever other keys it has. (The index and the payload are those of a
    file [json.load] has read: their integers can be converted.) *)
Theorem load_block_six_fields (d : dict) (b : Block) :
  (forall k, In k record_fields -> Json.get k d = Json.get k (to_dict b)) ->
  Json.int_fits (index b) = true ->
  Json.fits (JDict (data b)) = true ->
  load_block (JDict d) = Returns b.
Proof.
  intros H Hfi Hfd. destruct b as [i t p ph n h].
  pose proof (H "index" ltac:(simpl; tauto)) as Hi.
  pose proof (H "timestamp" ltac:(simpl; tauto)) as Ht.
  pose proof (H "data" ltac:(simpl; tauto)) as Hd.
  pose proof (H "previous_hash" ltac:(simpl; tauto)) as Hp.
  pose proof (H "nonce" ltac:(simpl; tauto)) as Hn.
  pose proof (H "hash" ltac:(simpl; tauto)) as Hh.
  cbn in Hi, Ht, Hd, Hp, Hn, Hh. cbn [index data] in Hfi, Hfd.
  unfold load_block, getitem. rewrite Hi, Ht, Hd, Hp, Hn, Hh.
  cbn [bind as_int as_str as_dict]. rewrite Block_init_outcome, Hfi, Hfd. reflexivity.
Qed.

Lemma load_block_six_fields_witness :
  let d := [ ("hash", JStr (hash Run.block1)); ("nonce", JInt 1);
             ("note", JStr "kept by hand"); ("data", JDict Run.diploma);
             ("timestamp", JStr "2024-01-01T00:00:30"); ("index", JInt 1);
             ("previous_hash", JStr (hash Run.genesis)) ] in
  (forall k, In k record_fields -> Json.get k d = Json.get k (to_dict Run.block1))
  /\ load_block (JDict d) = Returns Run.block1.
Proof.
  cbv zeta.
  assert (H : forall k, In k record_fields ->
                Json.get k [ ("hash", JStr (hash Run.block1)); ("nonce", JInt 1);
                             ("note", JStr "kept by hand"); ("data", JDict Run.diploma);
                             ("timestamp", JStr "2024-01-01T00:00:30"); ("index", JInt 1);
                             ("previous_hash", JStr (hash Run.genesis)) ]
                = Json.get k (to_dict Run.block1)).
  { intros k Hk. unfold record_fields in Hk. simpl in Hk.
    repeat (destruct Hk as [<- | Hk]; [reflexivity |]). contradiction. }
  split; [exact H | exact (load_block_six_fields _ Run.block1 H eq_refl eq_refl)].
Defined.

(** X12: what [load_from_file] does with a file that is not a JSON array
    of records. Text that is not JSON raises [JSONDecodeError], JSON with
    an integer of more than 4300 digits raises [ValueError], and in both
    cases the ledger is as before the call. For JSON that [json.load]
    reads, the chain is emptied first: [null], a boolean or a number then
    raises [TypeError]; the empty object and the empty string are read as
    an array without records, and the call returns true with an empty
    chain; an object or a string that is not empty raises [TypeError], as
    does an array whose first item is not an object. *)
Theorem load_from_file_not_records (self : DocumentBlockchain) (filename : string)
    (fs : filesystem) :
  (fs filename = Garbled ->
   load_from_file self filename fs = (Raises JSONDecodeError, self))
  /\ (forall v, fs filename = Parsed v ->
        Json.fits v = false ->
        load_from_file self filename fs = (Raises ValueError, self))
  /\ (forall v, fs filename = Parsed v ->
        Json.fits v = true ->
        v = JNull \/ (exists b, v = JBool b) \/ (exists z, v = JInt z) ->
        load_from_file self filename fs = (Raises TypeError, set_chain self []))
  /\ (forall v, fs filename = Parsed v ->
        v = JDict [] \/ v = JStr "" ->
        load_from_file self filename fs = (Returns true, set_chain self []))
  /\ (forall v, fs filename = Parsed v ->
        Json.fits v = true ->
        (exists kv d, v = JDict (kv :: d)) \/ (exists c s, v = JStr (String c s)) ->
        load_from_file self filename fs = (Raises TypeError, set_chain self []))
  /\ (forall x rest, fs filename = Parsed (JList (x :: rest)) ->
        Json.fits (JList (x :: rest)) = true ->
        (forall d, x <> JDict d) ->
        load_from_file self filename fs = (Raises TypeError, set_chain self [])).
Proof.
  unfold load_from_file. repeat split.
  - intros H. rewrite H. reflexivity.
  - intros v H Hf. rewrite H, Hf. reflexivity.
  - intros v H Hf Hv. rewrite H, Hf.
    destruct Hv as [-> | [[b ->] | [z ->]]]; reflexivity.
  - intros v H Hv. rewrite H. destruct Hv as [-> | ->]; reflexivity.
  - intros v H Hf Hv. rewrite H, Hf.
    destruct Hv as [([k x] & d & ->) | (c & s & ->)]; reflexivity.
  - intros x rest H Hf Hx. rewrite H, Hf.
    destruct x as [| b | z | s | l | d]; try reflexivity.
    exfalso. exact (Hx d eq_refl).
Qed.

Lemma load_from_file_not_records_witness :
  let fs := write Session.no_files blockchain_file (JInt 7) in
  let fs' := write Session.no_files blockchain_file (JInt Json.int_limit) in
  fs blockchain_file = Parsed (JInt 7)
  /\ load_from_file Run.ledger1 blockchain_file fs
     = (Raises TypeError, set_chain Run.ledger1 [])
  /\ load_from_file Run.ledger1 blockchain_file fs' = (Raises ValueError, Run.ledger1).
Proof.
  cbv zeta. split; [reflexivity |]. split.
  - apply (proj1 (proj2 (proj2 (load_from_file_not_records Run.ledger1 blockchain_file _)))
             (JInt 7) eq_refl eq_refl).
    right. right. exists 7. reflexivity.
  - exact (proj1 (proj2 (load_from_file_not_records Run.ledger1 blockchain_file _))
             (JInt Json.int_limit) eq_refl int_limit_unfit).
Defined.

(** X13: when the turn of the loading loop for some record raises, the
    records after it are not read and the exception leaves
    [load_from_file] with the chain holding the blocks of the records
    before it: what the ledger held before the call is gone, and the
    persisted chain is there in part. *)
Theorem load_from_file_stops_at_bad_record (self : DocumentBlockchain)
    (filename : string) (fs : filesystem) (pre : list Block) (bad : json)
    (rest : list json) (e : exn) :
  load_block bad = Raises e ->
  Json.fits (JList (map (fun b => JDict (to_dict b)) pre ++ bad :: rest)) = true ->
  fs filename = Parsed (JList (map (fun b => JDict (to_dict b)) pre ++ bad :: rest)) ->
  load_from_file self filename fs = (Raises e, set_chain self pre).
Proof.
  intros Hbad Hf H. unfold load_from_file. rewrite H, Hf. cbn [iterate].
  rewrite fits_app in Hf. apply andb_true_iff in Hf. destruct Hf as [Hpre _].
  rewrite load_blocks_app by (apply fits_records, Hpre).
  cbn [load_blocks app]. rewrite Hbad. reflexivity.
Qed.

Lemma load_from_file_stops_at_bad_record_witness :
  let bad := JDict (dict_del "nonce" (to_dict Run.block1)) in
  let fs := write Session.no_files blockchain_file
              (JList (map (fun b => JDict (to_dict b)) [Run.genesis] ++ bad :: [])) in
  load_block bad = Raises (KeyError "nonce")
  /\ load_from_file Session.ledger1 blockchain_file fs
     = (Raises (KeyError "nonce"), set_chain Session.ledger1 [Run.genesis]).
Proof.
  cbv zeta. split; [vm_compute; reflexivity |].
  apply (load_from_file_stops_at_bad_record Session.ledger1 blockchain_file _
           [Run.genesis] (JDict (dict_del "nonce" (to_dict Run.block1))) []
           (KeyError "nonce")).
  - vm_compute. reflexivity.
  - reflexivity.
  - reflexivity.
Defined.

(** ** Sessions *)

Lemma session_fresh :
  DocumentBlockchain_init 3 2 "2024-01-01T00:01:09" = Returns Session.fresh.
Proof. vm_compute. reflexivity. Qed.

Lemma session_append :
  add_document 3 "2024-01-01T00:03:19" Run.diploma Session.fresh
  = Returns (Session.ledger1, Session.receipt1).
Proof. vm_compute. reflexivity. Qed.

Lemma session_next :
  DocumentBlockchain_init 3 2 "2024-01-01T00:03:58"
  = Returns (mkChain [Session.next_genesis] 2 []).
Proof. vm_compute. reflexivity. Qed.

(** The ledger the constructor returns. *)
Lemma DocumentBlockchain_init_returns (fuel : nat) (d : Z) (now : string)
    (fresh : DocumentBlockchain) :
  DocumentBlockchain_init fuel d now = Returns fresh ->
  exists g, fresh = mkChain [g] d [].
Proof.
  unfold DocumentBlockchain_init, create_genesis_block. intros H.
  apply bind_returns in H. destruct H as (g0 & _ & H).
  apply bind_returns in H. destruct H as (g & _ & H). injection H as <-.
  exists g. reflexivity.
Qed.

Lemma startup_on_saved (fuel : nat) (now : string) (fs : filesystem)
    (fresh saved : DocumentBlockchain) :
  DocumentBlockchain_init fuel 2 now = Returns fresh ->
  Json.fits (JList (map (fun b => JDict (to_dict b)) (chain saved))) = true ->
  fs blockchain_file = Parsed (JList (map (fun b => JDict (to_dict b)) (chain saved))) ->
  startup fuel now fs = Returns (mkChain (chain saved) 2 []).
Proof.
  intros Hf Hfit H. unfold startup. rewrite Hf. cbn [bind].
  destruct (DocumentBlockchain_init_returns _ _ _ _ Hf) as [g ->].
  rewrite (load_from_file_records _ _ _ _ Hfit H). reflexivity.
Qed.

(** X14: the start of a session. When the genesis block of difficulty 2
    is mined: with no ledger file the session holds the fresh ledger; with
    the file a ledger was saved to, it holds the saved chain, block for
    block, at difficulty 2 whatever the difficulty of the saved ledger, and
    the genesis block just mined is dropped; with a file that is not JSON
    the start raises [JSONDecodeError], and with one that holds an integer
    of more than 4300 digits, [ValueError]. The saved chain is taken as it
    is, valid or not. *)
Theorem startup_loads (fuel : nat) (now : string) (fs : filesystem)
    (fresh : DocumentBlockchain) :
  DocumentBlockchain_init fuel 2 now = Returns fresh ->
  (fs blockchain_file = Missing -> startup fuel now fs = Returns fresh)
  /\ (fs blockchain_file = Garbled -> startup fuel now fs = Raises JSONDecodeError)
  /\ (forall v, fs blockchain_file = Parsed v -> Json.fits v = false ->
        startup fuel now fs = Raises ValueError)
  /\ (forall saved : DocumentBlockchain,
        fs blockchain_file
        = Parsed (JList (map (fun b => JDict (to_dict b)) (chain saved))) ->
        Json.fits (JList (map (fun b => JDict (to_dict b)) (chain saved))) = true ->
        startup fuel now fs = Returns (mkChain (chain saved) 2 [])
        /\ is_chain_valid (mkChain (chain saved) 2 []) = is_chain_valid saved).
Proof.
  intros Hf. unfold startup. rewrite Hf. cbn [bind].
  destruct (DocumentBlockchain_init_returns _ _ _ _ Hf) as [g ->].
  split; [| split; [| split]].
  - intros H. unfold load_from_file. rewrite H. reflexivity.
  - intros H. unfold load_from_file. rewrite H. reflexivity.
  - intros v H Hv. rewrite (load_from_file_unfit _ _ _ _ Hv H). reflexivity.
  - intros saved H Hfit. rewrite (load_from_file_records _ _ _ _ Hfit H).
    split; reflexivity.
Qed.

Lemma startup_loads_witness :
  DocumentBlockchain_init 3 2 "2024-01-01T00:01:09" = Returns Session.fresh
  /\ startup 3 "2024-01-01T00:01:09" Session.no_files = Returns Session.fresh
  /\ startup 3 "2024-01-01T00:01:09" Session.files1 = Returns Session.ledger1.
Proof.
  split; [exact session_fresh |].
  destruct (startup_loads 3 "2024-01-01T00:01:09" Session.no_files Session.fresh
              session_fresh) as (Hmissing & _).
  split; [exact (Hmissing eq_refl) |].
  exact (proj1 (proj2 (proj2 (proj2 (startup_loads 3 "2024-01-01T00:01:09" Session.files1
                                       Session.fresh session_fresh)))
                  Session.ledger1 eq_refl eq_refl)).
Defined.

(** X15: what is issued in one session is there in the next. After
    [add_document] and [save_to_file] have returned, a session started on
    the files left behind holds the chain of the ledger that was saved, so
    [verify_document] and the two listings answer as they did at the end
    of the first session; no file but the ledger file has changed. *)
Theorem issued_documents_persist (fuel fuel' : nat) (now now' : string)
    (document_data : dict) (blockchain blockchain' fresh : DocumentBlockchain)
    (fs fs' : filesystem) (r : receipt) :
  add_and_save fuel now document_data (blockchain, fs) = Returns (blockchain', fs', r) ->
  DocumentBlockchain_init fuel' 2 now' = Returns fresh ->
  exists restarted : DocumentBlockchain,
    startup fuel' now' fs' = Returns restarted
    /\ chain restarted = chain blockchain'
    /\ (forall h, verify_document restarted h = verify_document blockchain' h)
    /\ get_all_documents restarted = get_all_documents blockchain'
    /\ (forall recipient_id,
          get_documents_by_recipient restarted recipient_id
          = get_documents_by_recipient blockchain' recipient_id)
    /\ is_chain_valid restarted = is_chain_valid blockchain'
    /\ (forall name, name <> blockchain_file -> fs' name = fs name).
Proof.
  intros H Hf. unfold add_and_save in H.
  apply bind_returns in H. destruct H as ([b' r'] & Ha & H). cbv zeta in H.
  apply bind_returns in H. destruct H as ([] & Hs & H).
  injection H as <- <- <-.
  pose proof (save_to_file_returns _ _ _ Hs) as Hfit.
  rewrite (save_to_file_fits _ _ _ Hfit). cbn [snd].
  exists (mkChain (chain b') 2 []).
  split; [| repeat split].
  - apply (startup_on_saved fuel' now' _ fresh b' Hf Hfit). apply read_write.
  - intros name Hn. unfold write, put_file.
    apply String.eqb_neq in Hn. rewrite Hn. reflexivity.
Qed.

Lemma session_saved :
  add_and_save 3 "2024-01-01T00:03:19" Run.diploma (Session.fresh, Session.no_files)
  = Returns (Session.ledger1, Session.files1, Session.receipt1).
Proof. unfold add_and_save. rewrite session_append. reflexivity. Qed.

Lemma issued_documents_persist_witness :
  add_and_save 3 "2024-01-01T00:03:19" Run.diploma (Session.fresh, Session.no_files)
  = Returns (Session.ledger1, Session.files1, Session.receipt1)
  /\ DocumentBlockchain_init 3 2 "2024-01-01T00:03:58"
     = Returns (mkChain [Session.next_genesis] 2 [])
  /\ exists restarted : DocumentBlockchain,
       startup 3 "2024-01-01T00:03:58" Session.files1 = Returns restarted
       /\ chain restarted = chain Session.ledger1
       /\ (forall h, verify_document restarted h = verify_document Session.ledger1 h)
       /\ get_all_documents restarted = get_all_documents Session.ledger1
       /\ (forall recipient_id,
             get_documents_by_recipient restarted recipient_id
             = get_documents_by_recipient Session.ledger1 recipient_id)
       /\ is_chain_valid restarted = is_chain_valid Session.ledger1
       /\ (forall name, name <> blockchain_file ->
                        Session.files1 name = Session.no_files name).
Proof.
  split; [exact session_saved |]. split; [exact session_next |].
  exact (issued_documents_persist 3 3 "2024-01-01T00:03:19" "2024-01-01T00:03:58"
           Run.diploma Session.fresh Session.ledger1 _ Session.no_files Session.files1
           Session.receipt1 session_saved session_next).
Defined.

(** * The document processor *)

(** ** Hashing a file *)

Lemma update_loop_all (turns : nat) :
  forall rest fed : list Z,
    (List.length rest < turns)%nat ->
    DocumentProcessor.update_loop turns rest fed = fed ++ rest.
Proof.
  induction turns as [| turns IH]; intros rest fed Hl; [lia |].
  cbn [DocumentProcessor.update_loop]. unfold DocumentProcessor.read.
  destruct rest as [| x rest].
  - rewrite firstn_nil, app_nil_r. reflexivity.
  - rewrite firstn_cons. rewrite IH.
    + rewrite <- app_assoc. f_equal.
      rewrite <- firstn_cons. apply firstn_skipn.
    + simpl in Hl. rewrite skipn_cons.
      pose proof (length_skipn 4095 rest). lia.
Qed.

(** X16: [compute_file_hash] returns the SHA-256 digest of the whole
    content of the file, whatever its length and however the reads of 4096
    bytes cut it; the result is a text of 64 lower-case hexadecimal digits
    that depends on the content alone, not on the path. When the file
    cannot be opened the call raises. *)
Theorem compute_file_hash_whole_file (d : DocumentProcessor.disk) (file_path : string) :
  (forall content,
      DocumentProcessor.bytes_at d file_path = Some content ->
      DocumentProcessor.compute_file_hash d file_path = DocumentProcessor.Ok (Sha256.hexdigest content)
      /\ String.length (Sha256.hexdigest content) = 64%nat
      /\ lower_hex (Sha256.hexdigest content) = true)
  /\ (DocumentProcessor.bytes_at d file_path = None ->
      DocumentProcessor.compute_file_hash d file_path = DocumentProcessor.OSError).
Proof.
  unfold DocumentProcessor.compute_file_hash. split.
  - intros content H. rewrite H. cbv zeta.
    rewrite update_loop_all by lia.
    split; [reflexivity |]. unfold Sha256.hexdigest.
    split; [apply hex_length | apply hex_lower].
  - intros H. rewrite H. reflexivity.
Qed.

Lemma compute_file_hash_whole_file_witness :
  let d := DocumentProcessor.mkDisk (fun _ => true) (fun _ => 3)
             (fun _ => Some [97; 98; 99]) in
  DocumentProcessor.bytes_at d "abc.pdf" = Some [97; 98; 99]
  /\ DocumentProcessor.compute_file_hash d "abc.pdf"
     = DocumentProcessor.Ok (Sha256.hexdigest [97; 98; 99])
  /\ String.length (Sha256.hexdigest [97; 98; 99]) = 64%nat
  /\ lower_hex (Sha256.hexdigest [97; 98; 99]) = true.
Proof.
  cbv zeta. split; [reflexivity |].
  exact (proj1 (compute_file_hash_whole_file
                  (DocumentProcessor.mkDisk (fun _ => true) (fun _ => 3)
                     (fun _ => Some [97; 98; 99])) "abc.pdf")
           [97; 98; 99] eq_refl).
Defined.

(** ** Accepted files *)

Lemma lower_char_dot (c : ascii) :
  Ascii.eqb (DocumentProcessor.lower_char c) "." = Ascii.eqb c ".".
Proof. destruct c as [[] [] [] [] [] [] [] []]; reflexivity. Qed.

Lemma rfind_dot_lower (s : string) :
  DocumentProcessor.rfind_dot (DocumentProcessor.lower s) = DocumentProcessor.rfind_dot s.
Proof.
  induction s as [| c s IH]; simpl; [reflexivity |].
  rewrite IH, lower_char_dot. reflexivity.
Qed.

Lemma lower_length (s : string) :
  String.length (DocumentProcessor.lower s) = String.length s.
Proof. induction s as [| c s IH]; simpl; [reflexivity | rewrite IH; reflexivity]. Qed.

Lemma string_length_app (s t : string) :
  String.length (s ++ t) = (String.length s + String.length t)%nat.
Proof. induction s as [| c s IH]; simpl; [reflexivity | rewrite IH; reflexivity]. Qed.

Lemma rfind_dot_app (stem rest : string) :
  DocumentProcessor.rfind_dot rest = None ->
  DocumentProcessor.rfind_dot (stem ++ String "." rest) = Some (String.length stem).
Proof.
  intros H. induction stem as [| c stem IH]; simpl.
  - rewrite H. reflexivity.
  - rewrite IH. reflexivity.
Qed.

Lemma drop_app (stem ext : string) :
  DocumentProcessor.drop (String.length stem) (stem ++ ext) = ext.
Proof.
  induction stem as [| c stem IH]; simpl; [destruct ext; reflexivity | exact IH].
Qed.

Lemma take_drop (n : nat) :
  forall s : string, (PyStr.take n s ++ DocumentProcessor.drop n s)%string = s.
Proof.
  induction n as [| n IH]; intros [| c s]; simpl; try reflexivity.
  rewrite IH. reflexivity.
Qed.

(** An allowed extension is a dot followed by three or four characters
    that are not dots. *)
Lemma allowed_shape (ext : string) :
  In (DocumentProcessor.lower ext) DocumentProcessor.ALLOWED_EXTENSIONS ->
  exists rest, ext = String "." rest
               /\ DocumentProcessor.rfind_dot rest = None
               /\ (1 <= String.length rest)%nat.
Proof.
  intros H.
  assert (Hshape : exists rest', DocumentProcessor.lower ext = String "." rest'
                                 /\ DocumentProcessor.rfind_dot rest' = None
                                 /\ (1 <= String.length rest')%nat).
  { unfold DocumentProcessor.ALLOWED_EXTENSIONS in H. simpl in H.
    destruct H as [H | [H | [H | [H | []]]]]; rewrite <- H;
      eexists; (split; [reflexivity | split; [reflexivity | simpl; lia]]). }
  destruct Hshape as (rest' & Hl & Hr & Hn).
  destruct ext as [| c rest]; [discriminate |].
  simpl in Hl. injection Hl as Hc Hrest.
  assert (c = "."%char).
  { apply Ascii.eqb_eq. rewrite <- lower_char_dot, Hc. reflexivity. }
  subst c. exists rest. split; [reflexivity |]. subst rest'.
  rewrite rfind_dot_lower in Hr. rewrite lower_length in Hn. split; assumption.
Qed.

Lemma allowed_iff (suffix : string) :
  DocumentProcessor.allowed suffix = true
  <-> In (DocumentProcessor.lower suffix) DocumentProcessor.ALLOWED_EXTENSIONS.
Proof.
  unfold DocumentProcessor.allowed. rewrite existsb_exists. split.
  - intros (e & He & Heq). apply String.eqb_eq in Heq. subst e. exact He.
  - intros H. exists (DocumentProcessor.lower suffix).
    split; [exact H | apply String.eqb_refl].
Qed.

(** The suffix of a path is allowed exactly when the name of the path is a
    stem that is not empty followed by one of the four extensions, in
    letters of either case. *)
Lemma allowed_suffix_iff (file_path : string) :
  DocumentProcessor.allowed (DocumentProcessor.path_suffix file_path) = true
  <-> exists stem ext,
        DocumentProcessor.path_name file_path = (stem ++ ext)%string
        /\ stem <> EmptyString
        /\ In (DocumentProcessor.lower ext) DocumentProcessor.ALLOWED_EXTENSIONS.
Proof.
  unfold DocumentProcessor.path_suffix. cbv zeta.
  set (name := DocumentProcessor.path_name file_path). split.
  - intros H. destruct (DocumentProcessor.rfind_dot name) as [i |] eqn:Hr;
      [| discriminate H].
    destruct ((0 <? i) && (i <? String.length name - 1))%nat eqn:Hi;
      [| discriminate H].
    apply andb_true_iff in Hi. destruct Hi as [H0 H1].
    apply Nat.ltb_lt in H0, H1.
    exists (PyStr.take i name), (DocumentProcessor.drop i name).
    split; [symmetry; apply take_drop |]. split; [| apply allowed_iff, H].
    intros He. apply (f_equal String.length) in He.
    rewrite take_length in He. simpl in He. lia.
  - intros (stem & ext & Hn & Hs & He).
    destruct (allowed_shape ext He) as (rest & -> & Hr & Hl).
    rewrite Hn, (rfind_dot_app stem rest Hr).
    assert (Hlen : (0 < String.length stem)%nat)
      by (destruct stem; [contradiction | simpl; lia]).
    assert (Hc : ((0 <? String.length stem)
                  && (String.length stem
                      <? String.length (stem ++ String "." rest) - 1))%nat = true).
    { apply andb_true_iff. split; apply Nat.ltb_lt; [exact Hlen |].
      rewrite string_length_app. simpl. lia. }
    rewrite Hc, drop_app. apply allowed_iff, He.
Qed.

(** X17: [validate_file] accepts a path exactly when something exists at
    it, the name of the path (its last part, a trailing slash or ["."]
    left aside) is a stem that is not empty followed by [.pdf], [.jpg],
    [.jpeg] or [.png] in letters of either case, and the size reported is
    at most 10 * 1024 * 1024 bytes, that size included. A missing file is
    reported before a wrong extension, and a wrong extension before the
    size. *)
Theorem validate_file_accepts (d : DocumentProcessor.disk) (file_path : string) :
  (DocumentProcessor.validate_file d file_path = (true, DocumentProcessor.Valid)
   <-> DocumentProcessor.exists_at d (DocumentProcessor.path_str file_path) = true
       /\ (exists stem ext,
             DocumentProcessor.path_name file_path = (stem ++ ext)%string
             /\ stem <> EmptyString
             /\ In (DocumentProcessor.lower ext) DocumentProcessor.ALLOWED_EXTENSIONS)
       /\ DocumentProcessor.size_at d (DocumentProcessor.path_str file_path) <= 10485760)
  /\ (fst (DocumentProcessor.validate_file d file_path) = true
      <-> snd (DocumentProcessor.validate_file d file_path) = DocumentProcessor.Valid)
  /\ (DocumentProcessor.exists_at d (DocumentProcessor.path_str file_path) = false ->
      DocumentProcessor.validate_file d file_path
      = (false, DocumentProcessor.File_does_not_exist))
  /\ (DocumentProcessor.exists_at d (DocumentProcessor.path_str file_path) = true ->
      DocumentProcessor.allowed (DocumentProcessor.path_suffix file_path) = false ->
      DocumentProcessor.validate_file d file_path
      = (false, DocumentProcessor.Invalid_file_type)).
Proof.
  unfold DocumentProcessor.validate_file. cbv zeta.
  rewrite <- allowed_suffix_iff.
  destruct (DocumentProcessor.exists_at d (DocumentProcessor.path_str file_path));
    cbn [negb].
  - destruct (DocumentProcessor.allowed (DocumentProcessor.path_suffix file_path));
      cbn [negb].
    + change DocumentProcessor.MAX_FILE_SIZE with 10485760.
      destruct (Z.ltb_spec 10485760
                  (DocumentProcessor.size_at d (DocumentProcessor.path_str file_path))).
      * repeat split; try discriminate; try (intros; discriminate).
        intros (_ & _ & Hs). lia.
      * repeat split; try discriminate; try (intros; discriminate); auto.
    + repeat split; try discriminate; try (intros; discriminate).
      intros (_ & Hf & _). discriminate Hf.
  - repeat split; try discriminate; try (intros; discriminate).
    intros (Hf & _). discriminate Hf.
Qed.

Lemma validate_file_accepts_witness :
  let d := DocumentProcessor.mkDisk (fun _ => true) (fun _ => 10485760) (fun _ => None) in
  DocumentProcessor.validate_file d "in/Diploma.PDF/" = (true, DocumentProcessor.Valid)
  /\ DocumentProcessor.validate_file d "in/.pdf" = (false, DocumentProcessor.Invalid_file_type).
Proof.
  cbv zeta. split.
  - apply (proj1 (validate_file_accepts _ "in/Diploma.PDF/")).
    split; [reflexivity |]. split; [| cbn; lia].
    exists "Diploma", ".PDF". split; [reflexivity |]. split; [discriminate |].
    left. reflexivity.
  - apply (proj2 (proj2 (proj2 (validate_file_accepts _ "in/.pdf")))); reflexivity.
Defined.

(** ** Storing a document *)

Lemma compute_file_hash_content (d : DocumentProcessor.disk) (file_path : string)
    (content : list Z) :
  DocumentProcessor.bytes_at d file_path = Some content ->
  DocumentProcessor.compute_file_hash d file_path
  = DocumentProcessor.Ok (Sha256.hexdigest content).
Proof.
  intros H. unfold DocumentProcessor.compute_file_hash. rewrite H. cbv zeta.
  rewrite update_loop_all by lia. reflexivity.
Qed.

Lemma note_directory_keeps_files : Storage.keeps_files Storage.note_directory.
Proof.
  intros name d d' H. injection H as <-. split; [reflexivity |].
  intros p Hp. cbn. rewrite Hp. destruct (String.eqb p name); reflexivity.
Qed.

Lemma copy_plain_copies_content : Storage.copies_content Storage.copy_plain.
Proof.
  intros src dst d d' content _ H Hsrc. unfold Storage.copy_plain in H.
  rewrite Hsrc in H. injection H as <-.
  cbn [DocumentProcessor.exists_at DocumentProcessor.bytes_at].
  rewrite String.eqb_refl. repeat split.
  destruct (String.eqb src dst); [reflexivity | exact Hsrc].
Qed.

(** X18: a [save_document] that returned has stored the document under
    the directory given, in a file named by the SHA-256 digest of its
    content followed by the suffix of its path as spelled. The copy is made
    only when nothing existed at that path after [os.makedirs]: when
    something existed there, nothing is written at all, and the disk is the
    one [os.makedirs] left; when nothing did, [shutil.copy2] is called once,
    from the file to that path, and the content is read there afterwards.
    A second call for the same file returns the same path and copies
    nothing: the disk after it is the one [os.makedirs] leaves. *)
Theorem save_document_once
    (makedirs : string -> DocumentProcessor.disk ->
                DocumentProcessor.os_result DocumentProcessor.disk)
    (copy2 : string -> string -> DocumentProcessor.disk ->
             DocumentProcessor.os_result DocumentProcessor.disk)
    (d d' : DocumentProcessor.disk) (file_path storage_dir new_path : string) :
  Storage.keeps_files makedirs ->
  Storage.copies_content copy2 ->
  Storage.save_document makedirs copy2 d file_path storage_dir
  = DocumentProcessor.Ok (new_path, d') ->
  exists (content : list Z) (d1 : DocumentProcessor.disk),
    makedirs storage_dir d = DocumentProcessor.Ok d1
    /\ DocumentProcessor.bytes_at d file_path = Some content
    /\ new_path
       = Storage.os_path_join storage_dir
           (Sha256.hexdigest content ++ DocumentProcessor.path_suffix file_path)
    /\ (DocumentProcessor.exists_at d1 new_path = true ->
        d' = d1
        /\ DocumentProcessor.bytes_at d' new_path = DocumentProcessor.bytes_at d new_path)
    /\ (DocumentProcessor.exists_at d1 new_path = false ->
        copy2 file_path new_path d1 = DocumentProcessor.Ok d'
        /\ DocumentProcessor.bytes_at d' new_path = Some content)
    /\ DocumentProcessor.exists_at d' new_path = true
    /\ DocumentProcessor.bytes_at d' file_path = Some content
    /\ (forall d2, makedirs storage_dir d' = DocumentProcessor.Ok d2 ->
                   Storage.save_document makedirs copy2 d' file_path storage_dir
                   = DocumentProcessor.Ok (new_path, d2)).
Proof.
  intros Hk Hcp H. unfold Storage.save_document in H.
  destruct (makedirs storage_dir d) as [d1 |] eqn:Hm; [| discriminate H].
  destruct (Hk _ _ _ Hm) as [Hbytes Hex].
  destruct (DocumentProcessor.bytes_at d1 file_path) as [content |] eqn:Hc.
  2:{ unfold DocumentProcessor.compute_file_hash in H. rewrite Hc in H. discriminate H. }
  rewrite (compute_file_hash_content d1 file_path content Hc) in H. cbv zeta in H.
  remember (Storage.os_path_join storage_dir
              (Sha256.hexdigest content ++ DocumentProcessor.path_suffix file_path))
    as np eqn:Hnp.
  assert (Hagain : forall dd d2,
             DocumentProcessor.bytes_at dd file_path = Some content ->
             DocumentProcessor.exists_at dd np = true ->
             makedirs storage_dir dd = DocumentProcessor.Ok d2 ->
             Storage.save_document makedirs copy2 dd file_path storage_dir
             = DocumentProcessor.Ok (np, d2)).
  { intros dd d2 Hb He Hm2. unfold Storage.save_document. rewrite Hm2.
    destruct (Hk _ _ _ Hm2) as [Hbytes2 Hex2].
    rewrite (compute_file_hash_content d2 file_path content)
      by (rewrite Hbytes2; exact Hb).
    cbv zeta. rewrite <- Hnp, (Hex2 np He). reflexivity. }
  exists content, d1. split; [reflexivity |].
  split; [rewrite <- Hbytes; exact Hc |].
  destruct (DocumentProcessor.exists_at d1 np) eqn:He; cbn [negb] in H.
  - injection H as <- <-.
    split; [exact Hnp |].
    split; [intros _; split; [reflexivity | apply Hbytes] |].
    split; [intros Hf; rewrite He in Hf; discriminate Hf |].
    split; [exact He |]. split; [exact Hc |].
    intros d2 Hm2. apply Hagain; assumption.
  - destruct (copy2 file_path np d1) as [d3 |] eqn:Hcopy; [| discriminate H].
    injection H as <- <-.
    destruct (Hcp _ _ _ _ _ He Hcopy Hc) as (Hex3 & Hdst & Hsrc).
    split; [exact Hnp |].
    split; [intros Hf; rewrite He in Hf; discriminate Hf |].
    split; [intros _; split; [exact Hcopy | exact Hdst] |].
    split; [exact Hex3 |]. split; [exact Hsrc |].
    intros d2 Hm2. apply Hagain; assumption.
Qed.

Lemma save_document_stored :
  exists d' : DocumentProcessor.disk,
    Storage.save_document Storage.note_directory Storage.copy_plain Storage.one_file
      "in/Diploma.PDF" "documents"
    = DocumentProcessor.Ok
        ("documents/ba7816bf8f01cfea414140de5dae2223b00361a396177a9cb410ff61f20015ad.PDF",
         d')
    /\ DocumentProcessor.exists_at Storage.one_file
         "documents/ba7816bf8f01cfea414140de5dae2223b00361a396177a9cb410ff61f20015ad.PDF"
       = false.
Proof. eexists. split; [vm_compute; reflexivity | reflexivity]. Qed.

Lemma save_document_once_witness :
  Storage.keeps_files Storage.note_directory
  /\ Storage.copies_content Storage.copy_plain
  /\ exists (content : list Z) (d' : DocumentProcessor.disk),
       DocumentProcessor.bytes_at Storage.one_file "in/Diploma.PDF" = Some content
       /\ "documents/ba7816bf8f01cfea414140de5dae2223b00361a396177a9cb410ff61f20015ad.PDF"
          = Storage.os_path_join "documents"
              (Sha256.hexdigest content ++ DocumentProcessor.path_suffix "in/Diploma.PDF")
       /\ DocumentProcessor.bytes_at d'
            "documents/ba7816bf8f01cfea414140de5dae2223b00361a396177a9cb410ff61f20015ad.PDF"
          = Some content.
Proof.
  split; [exact note_directory_keeps_files |].
  split; [exact copy_plain_copies_content |].
  destruct save_document_stored as (d' & Hsave & Hnew).
  destruct (save_document_once Storage.note_directory Storage.copy_plain
              Storage.one_file d' "in/Diploma.PDF" "documents" _
              note_directory_keeps_files copy_plain_copies_content Hsave)
    as (content & d1 & Hm & Hc & Hp & _ & Hcopy & _).
  exists content, d'. split; [exact Hc |]. split; [exact Hp |].
  apply Hcopy. injection Hm as <-. cbn [DocumentProcessor.exists_at Storage.note_directory].
  reflexivity.
Defined.

(** ** A copy of an issued document verifies *)

Lemma verify_document_hash (self : DocumentBlockchain) (h : string) (v : verification) :
  verify_document self h = Some v ->
  Json.get "document_hash" (found_data v) = Some (JStr h).
Proof.
  unfold verify_document. intros H.
  pose proof (verify_loop_first h (tl (chain self))) as Hf. rewrite H in Hf.
  destruct Hf as (i & b & _ & Hh & -> & _). apply has_document_hash_iff, Hh.
Qed.

(** X19: when a file has been hashed by [compute_file_hash] and a payload
    with that digest as [document_hash] has been appended by
    [add_document], every file of the same content, at whatever path and on
    whatever disk, is found by [verify_document] under its own digest: the
    answer is a block that registers that digest, the block just appended
    when the digest was not registered before. *)
Theorem issued_copy_verifies (d d' : DocumentProcessor.disk) (file_path copy_path : string)
    (content : list Z) (fuel : nat) (now : string) (document_data : dict)
    (self self' : DocumentBlockchain) (r : receipt) (h : string) :
  DocumentProcessor.bytes_at d file_path = Some content ->
  DocumentProcessor.compute_file_hash d file_path = DocumentProcessor.Ok h ->
  Json.get "document_hash" document_data = Some (JStr h) ->
  add_document fuel now document_data self = Returns (self', r) ->
  DocumentProcessor.bytes_at d' copy_path = Some content ->
  DocumentProcessor.compute_file_hash d' copy_path = DocumentProcessor.Ok h
  /\ (exists v, verify_document self' h = Some v
                /\ Json.get "document_hash" (found_data v) = Some (JStr h))
  /\ (verify_document self h = None ->
      verify_document self' h
      = Some (mkVerification true (block_number r) (receipt_timestamp r) document_data)).
Proof.
  intros Hc Hh Hp Ha Hc'.
  rewrite (compute_file_hash_content d file_path content Hc) in Hh. injection Hh as <-.
  split; [apply compute_file_hash_content, Hc' |].
  apply add_document_block in Ha.
  destruct Ha as (b & Hne & Hch & Hi & Ht & Hd & ->).
  assert (Hv : verify_document self' (Sha256.hexdigest content)
               = match verify_document self (Sha256.hexdigest content) with
                 | Some v => Some v
                 | None => Some (mkVerification true (index b) (timestamp b) document_data)
                 end).
  { unfold verify_document. rewrite Hch, (tl_snoc _ _ Hne), verify_loop_snoc.
    assert (Hb : has_document_hash b (Sha256.hexdigest content) = true)
      by (apply has_document_hash_iff; rewrite Hd; exact Hp).
    rewrite Hb, Hd. reflexivity. }
  split.
  - destruct (verify_document self (Sha256.hexdigest content)) as [v |] eqn:E.
    + exists v. split; [exact Hv |]. exact (verify_document_hash self _ v E).
    + eexists. split; [exact Hv | exact Hp].
  - intros Hn. rewrite Hv, Hn. reflexivity.
Qed.

Lemma issue_append :
  add_document 3 "2024-01-01T00:01:20" Issue.document_data Run.ledger0
  = Returns (Issue.ledger1, Issue.receipt1).
Proof. vm_compute. reflexivity. Qed.

Lemma issued_copy_verifies_witness :
  let copy := DocumentProcessor.mkDisk (fun _ => true) (fun _ => 3)
                (fun _ => Some [97; 98; 99]) in
  DocumentProcessor.compute_file_hash copy "elsewhere/copy.bin"
  = DocumentProcessor.Ok Issue.document_hash
  /\ (exists v, verify_document Issue.ledger1 Issue.document_hash = Some v
                /\ Json.get "document_hash" (found_data v)
                   = Some (JStr Issue.document_hash))
  /\ (verify_document Run.ledger0 Issue.document_hash = None ->
      verify_document Issue.ledger1 Issue.document_hash
      = Some (mkVerification true (block_number Issue.receipt1)
                (receipt_timestamp Issue.receipt1) Issue.document_data)).
Proof.
  cbv zeta.
  apply (issued_copy_verifies Storage.one_file _ "in/Diploma.PDF" "elsewhere/copy.bin"
           [97; 98; 99] 3 "2024-01-01T00:01:20" Issue.document_data
           Run.ledger0 Issue.ledger1 Issue.receipt1 Issue.document_hash).
  - reflexivity.
  - vm_compute. reflexivity.
  - reflexivity.
  - exact issue_append.
  - reflexivity.
Defined.

(** ** What an issue leaves in the listings *)

(** X20: after [add_document] has returned on the payload that
    [issue_document] builds, the record of the new block is the last of
    [get_all_documents] and of [get_documents_by_recipient] for its
    recipient; in it [block_number] and [timestamp] are those of the
    receipt (the payload has no such keys to mask them), and the keys the
    CLI prints ([title], [doc_type], [issuer], [document_hash],
    [recipient_name], [recipient_id]) are all there, with the values
    given. *)
Theorem issued_document_listed (fuel : nat) (now : string)
    (document_hash issuer doc_type title recipient_name recipient_id filename : string)
    (self self' : DocumentBlockchain) (r : receipt) :
  add_document fuel now
    (issue_document_data document_hash issuer doc_type title recipient_name
       recipient_id filename) self
  = Returns (self', r) ->
  exists record : dict,
    get_all_documents self' = get_all_documents self ++ [record]
    /\ get_documents_by_recipient self' recipient_id
       = get_documents_by_recipient self recipient_id ++ [record]
    /\ Json.get "block_number" record = Some (JInt (block_number r))
    /\ Json.get "timestamp" record = Some (JStr (receipt_timestamp r))
    /\ Json.get "type" record = Some (JStr "document")
    /\ Json.get "document_hash" record = Some (JStr document_hash)
    /\ Json.get "issuer" record = Some (JStr issuer)
    /\ Json.get "doc_type" record = Some (JStr doc_type)
    /\ Json.get "title" record = Some (JStr title)
    /\ Json.get "recipient_name" record = Some (JStr recipient_name)
    /\ Json.get "recipient_id" record = Some (JStr recipient_id)
    /\ Json.get "filename" record = Some (JStr filename).
Proof.
  intros H. apply add_document_block in H.
  destruct H as (b & Hne & Hc & Hi & Ht & Hd & ->).
  exists (document_record b). cbn [block_number receipt_timestamp].
  assert (Htype : has_type_document b = true) by (unfold has_type_document; rewrite Hd; reflexivity).
  assert (Hrec : has_recipient_id b recipient_id = true).
  { unfold has_recipient_id. rewrite Hd. cbn. apply String.eqb_refl. }
  split; [| split].
  - unfold get_all_documents.
    rewrite !get_all_documents_loop_filter, Hc, (tl_snoc _ _ Hne), filter_app, map_app.
    cbn [app filter]. rewrite Htype. reflexivity.
  - unfold get_documents_by_recipient.
    rewrite !get_documents_by_recipient_loop_filter, Hc, (tl_snoc _ _ Hne),
      filter_app, map_app.
    cbn [app filter]. rewrite Hrec. reflexivity.
  - destruct b as [i t p ph n h]. cbn [index timestamp data] in *. subst p.
    unfold document_record. cbn [data index timestamp]. repeat split; reflexivity.
Qed.

Lemma issued_document_listed_witness :
  exists record : dict,
    get_all_documents Issue.ledger1 = get_all_documents Run.ledger0 ++ [record]
    /\ get_documents_by_recipient Issue.ledger1 "alice@example.com"
       = get_documents_by_recipient Run.ledger0 "alice@example.com" ++ [record]
    /\ Json.get "block_number" record = Some (JInt (block_number Issue.receipt1))
    /\ Json.get "timestamp" record = Some (JStr (receipt_timestamp Issue.receipt1))
    /\ Json.get "type" record = Some (JStr "document")
    /\ Json.get "document_hash" record = Some (JStr Issue.document_hash)
    /\ Json.get "issuer" record = Some (JStr "Acme")
    /\ Json.get "doc_type" record = Some (JStr "diploma")
    /\ Json.get "title" record = Some (JStr "Diploma")
    /\ Json.get "recipient_name" record = Some (JStr "Alice")
    /\ Json.get "recipient_id" record = Some (JStr "alice@example.com")
    /\ Json.get "filename" record = Some (JStr "Diploma.PDF").
Proof.
  exact (issued_document_listed 3 "2024-01-01T00:01:20" Issue.document_hash "Acme"
           "diploma" "Diploma" "Alice" "alice@example.com" "Diploma.PDF"
           Run.ledger0 Issue.ledger1 Issue.receipt1 issue_append).
Defined.

(** * What validation and appending do not check *)

Lemma check_links_app (ps qs : list (Block * Block)) :
  check_links (ps ++ qs)
  = (r <- check_links ps ;; if r then check_links qs else Returns false).
Proof.
  induction ps as [| [p c] ps IH]; cbn [app check_links bind]; [reflexivity |].
  destruct (calculate_hash c) as [h | e | |]; cbn [bind]; try reflexivity.
  destruct (negb (String.eqb (hash c) h)); [reflexivity |].
  destruct (negb (String.eqb (previous_hash c) (hash p))); [reflexivity | exact IH].
Qed.

(** X21: [add_document] neither checks nor repairs the chain it appends
    to: when it returns, [is_chain_valid] answers for the longer chain what
    it answered before, true or false. *)
Theorem add_document_keeps_validity (fuel : nat) (now : string) (document_data : dict)
    (self self' : DocumentBlockchain) (r : receipt) :
  add_document fuel now document_data self = Returns (self', r) ->
  is_chain_valid self' = is_chain_valid self.
Proof.
  intros H. apply add_document_returns in H.
  destruct H as (front & tip & b & Hc & Hfi & Hfp & Hm & -> & _).
  pose proof (mine_block_returns _ _ _ _ Hm) as (_ & _ & _ & _ & Hp & Hn).
  unfold is_chain_valid. cbn [chain set_chain]. rewrite Hc, <- app_assoc.
  cbn [app]. rewrite neighbours_snoc, check_links_app.
  assert (Hb : check_links [(tip, b)] = Returns true).
  { apply check_links_Forall. constructor; [| constructor]. split.
    - destruct Hn as [-> | [Hh _]]; [apply constructed_I1; assumption | exact Hh].
    - exact Hp. }
  rewrite Hb.
  destruct (check_links (combine (front ++ [tip]) (tl (front ++ [tip]))))
    as [[|] | e | |]; reflexivity.
Qed.

Lemma forged_append :
  add_document 1 "2024-01-01T00:01:20" Issue.document_data Forged.ledger
  = Returns (Forged.ledger2,
             mkReceipt true 2 (hash Forged.block2) "2024-01-01T00:01:20").
Proof. vm_compute. reflexivity. Qed.

Lemma forged_invalid : is_chain_valid Forged.ledger = Returns false.
Proof. vm_compute. reflexivity. Qed.

Lemma add_document_keeps_validity_witness :
  add_document 1 "2024-01-01T00:01:20" Issue.document_data Forged.ledger
  = Returns (Forged.ledger2, mkReceipt true 2 (hash Forged.block2) "2024-01-01T00:01:20")
  /\ is_chain_valid Forged.ledger2 = is_chain_valid Forged.ledger
  /\ is_chain_valid Forged.ledger = Returns false.
Proof.
  split; [exact forged_append |]. split; [| exact forged_invalid].
  exact (add_document_keeps_validity 1 "2024-01-01T00:01:20" Issue.document_data
           Forged.ledger Forged.ledger2 _ forged_append).
Defined.

(** X22: [is_chain_valid] does not notice blocks that are missing at
    either end: every run of consecutive blocks of a chain it accepts is a
    chain it accepts, so that a persisted chain cut back (to its genesis
    block, say) still passes. *)
Theorem is_chain_valid_sub_chain (self : DocumentBlockchain)
    (front mid back : list Block) :
  chain self = front ++ mid ++ back ->
  is_chain_valid self = Returns true ->
  is_chain_valid (set_chain self mid) = Returns true.
Proof.
  intros Hc Hv. rewrite is_chain_valid_positions in *. cbn [chain set_chain].
  intros i cur prev Hi Hcur Hprev.
  assert (Hlt : (i < List.length mid)%nat)
    by (apply nth_error_Some; rewrite Hcur; discriminate).
  apply (Hv (List.length front + i)%nat); [lia | |].
  - rewrite Hc, nth_error_app2 by lia.
    replace (List.length front + i - List.length front)%nat with i by lia.
    rewrite nth_error_app1 by exact Hlt. exact Hcur.
  - rewrite Hc, nth_error_app2 by lia.
    replace (List.length front + i - 1 - List.length front)%nat with (i - 1)%nat by lia.
    rewrite nth_error_app1 by lia. exact Hprev.
Qed.

Lemma is_chain_valid_sub_chain_witness :
  chain Run.ledger1 = [] ++ [Run.genesis] ++ [Run.block1]
  /\ is_chain_valid Run.ledger1 = Returns true
  /\ is_chain_valid (set_chain Run.ledger1 [Run.genesis]) = Returns true
  /\ verify_document (set_chain Run.ledger1 [Run.genesis]) "deadbeef" = None.
Proof.
  split; [reflexivity |]. split; [exact run_valid1 |]. split; [| reflexivity].
  exact (is_chain_valid_sub_chain Run.ledger1 [] [Run.genesis] [Run.block1] eq_refl
           run_valid1).
Defined.
